(** * product-importer: the CSV import pipeline, its progress stream and its
      webhook fan-out

    A shallow embedding of [backend/app/tasks.py] and of the import routes
    of [backend/app/main.py].

    Python values are modelled as follows.
    - [str] is [string]: the UTF-8 bytes of the text.  [len] counts its
      characters.  [strip] and [lower] are the interpreter's and go by its
      Unicode tables: they are parameters of the model ([Py.Unicode]),
      fixed only on the ASCII range.
    - [int] is [Z].
    - The database is a record of committed tables together with the state
      of the SQLAlchemy session that the task opened: the objects it loaded
      or added and their uncommitted attribute values.
    - Everything the task cannot decide by itself (whether a session call
      raises, the clock, the broker, the listeners) is read from an
      environment [Env]; the task is a function of that environment and of
      the world it starts in. *)

From Stdlib Require Import ZArith Lia String Ascii List DecimalString Bool Sorted.
From stdpp Require Import gmap strings list fin_maps.

Open Scope string_scope.
Open Scope Z_scope.

(** ** Python strings *)

Module Py.

Definition nl : string := String (ascii_of_nat 10) EmptyString.

(** The ASCII part of [str.isspace]: TAB..CR, FS..US and the space. *)
Definition ascii_space (c : ascii) : bool :=
  let n := nat_of_ascii c in
  ((9 <=? n)%nat && (n <=? 13)%nat) || ((28 <=? n)%nat && (n <=? 32)%nat).

Fixpoint ascii_lstrip (s : string) : string :=
  match s with
  | EmptyString => EmptyString
  | String c s' => if ascii_space c then ascii_lstrip s' else s
  end.

Fixpoint ascii_rstrip (s : string) : string :=
  match s with
  | EmptyString => EmptyString
  | String c s' =>
      match ascii_rstrip s' with
      | EmptyString => if ascii_space c then EmptyString else String c EmptyString
      | r => String c r
      end
  end.

Definition ascii_strip (s : string) : string := ascii_rstrip (ascii_lstrip s).

Definition ascii_lower_char (c : ascii) : ascii :=
  let n := nat_of_ascii c in
  if ((65 <=? n)%nat && (n <=? 90)%nat)%bool then ascii_of_nat (n + 32) else c.

Fixpoint ascii_lower (s : string) : string :=
  match s with
  | EmptyString => EmptyString
  | String c s' => String (ascii_lower_char c) (ascii_lower s')
  end.

(** Whether every character of a text is in the ASCII range. *)
Definition is_ascii (s : string) : bool :=
  forallb (fun c => (nat_of_ascii c <? 128)%nat) (list_ascii_of_string s).

(** [s.strip()] and [s.lower()] are the interpreter's: they go by the
    Unicode tables it was built with, which are not part of the program
    and change from one version to the next.  The model takes the two
    functions as given and uses of them only what holds for every version
    of the tables: on a text in the ASCII range, [strip] removes TAB..CR,
    FS..US and the space from both ends, and [lower] maps A..Z to a..z. *)
Class Unicode : Type := {
  strip : string -> string;
  lower : string -> string;
  strip_ascii : forall s, is_ascii s = true -> strip s = ascii_strip s;
  lower_ascii : forall s, is_ascii s = true -> lower s = ascii_lower s
}.

(** The two functions as they are on the ASCII range, for evaluating the
    code on inputs that do not leave it. *)
Definition ascii_tables : Unicode :=
  {| strip := ascii_strip;
     lower := ascii_lower;
     strip_ascii := fun _ _ => eq_refl;
     lower_ascii := fun _ _ => eq_refl |}.

(** [len(s)]: the number of characters, that is, of the bytes of the
    UTF-8 text that are not continuation bytes (10xxxxxx). *)
Definition is_continuation (c : ascii) : bool :=
  let n := nat_of_ascii c in (128 <=? n)%nat && (n <? 192)%nat.

Definition len (s : string) : nat :=
  length (List.filter (fun c => negb (is_continuation c)) (list_ascii_of_string s)).

(** [str(n)] and [f"{n}"] for an [int]. *)
Definition str_int (n : Z) : string := NilZero.string_of_int (Z.to_int n).

(** Digits in reverse order, a comma after every third one. *)
Fixpoint group3 (rev_digits : list ascii) (k : nat) : list ascii :=
  match rev_digits with
  | [] => []
  | d :: rest =>
      match k with
      | 3%nat => ","%char :: d :: group3 rest 1
      | _ => d :: group3 rest (S k)
      end
  end.

(** [f"{n:,}"] for an [int]. *)
Definition str_int_comma (n : Z) : string :=
  let digits := list_ascii_of_string (str_int (Z.abs n)) in
  let grouped := string_of_list_ascii (rev (group3 (rev digits) 0)) in
  if n <? 0 then "-" ++ grouped else grouped.

(** [sep.join(l)] *)
Fixpoint join (sep : string) (l : list string) : string :=
  match l with
  | [] => EmptyString
  | [x] => x
  | x :: rest => x ++ sep ++ join sep rest
  end.

(** [x in l] for a list of strings. *)
Definition str_in (x : string) (l : list string) : bool :=
  existsb (String.eqb x) l.

End Py.

(** ** models.py *)

(** The six values the code ever stores in [ImportJob.status]. *)
Inductive job_status : Type :=
| pending | parsing | importing
| completed | completed_with_errors | failed.

Definition status_name (s : job_status) : string :=
  match s with
  | pending => "pending"
  | parsing => "parsing"
  | importing => "importing"
  | completed => "completed"
  | completed_with_errors => "completed_with_errors"
  | failed => "failed"
  end.

(** [status in ["completed", "completed_with_errors", "failed"]] *)
Definition is_terminal (s : job_status) : bool :=
  match s with
  | completed | completed_with_errors | failed => true
  | _ => false
  end.

Module Product.
(** [id] and [created_at] are filled in by the database and never read
    by the import; they are left out. *)
Record t : Type := mk {
  sku : string;
  name : string;
  description : string;
  active : bool;
  updated_at : option Z
}.
End Product.

Module Webhook.
Record t : Type := mk {
  url : string;
  event_type : string;
  enabled : bool
}.
End Webhook.

Module ImportJob.
Record t : Type := mk {
  id : string;
  status : job_status;
  total_rows : Z;
  processed_rows : Z;
  error_message : option string;
  completed_at : option Z
}.

Definition set_status (s : job_status) (j : t) : t :=
  mk (id j) s (total_rows j) (processed_rows j) (error_message j) (completed_at j).
Definition set_total_rows (n : Z) (j : t) : t :=
  mk (id j) (status j) n (processed_rows j) (error_message j) (completed_at j).
Definition set_processed_rows (n : Z) (j : t) : t :=
  mk (id j) (status j) (total_rows j) n (error_message j) (completed_at j).
Definition set_error_message (m : option string) (j : t) : t :=
  mk (id j) (status j) (total_rows j) (processed_rows j) m (completed_at j).
Definition set_completed_at (ts : Z) (j : t) : t :=
  mk (id j) (status j) (total_rows j) (processed_rows j) (error_message j) (Some ts).
End ImportJob.

(** ** main.py: the rows and the request bodies of the routes *)

(** A handler returns its JSON body or raises [HTTPException]. *)
Inductive response (A : Type) : Type :=
| Returned (body : A)
| HTTPException (status_code : Z) (detail : string).
Arguments Returned {A} body.
Arguments HTTPException {A} status_code detail.

(** A row of the products table: the primary key, the columns the import
    works on, and [created_at]. *)
Module ProductRow.
Record t : Type := mk {
  id : Z;
  product : Product.t;
  created_at : option Z
}.
Definition sku (r : t) : string := Product.sku (product r).
End ProductRow.

(** [ProductCreate] and [ProductUpdate] (lines 31-41), as the handler
    receives them.  A request that sends [null] for [active] is not
    modelled. *)
Module ProductCreate.
Record t : Type := mk {
  sku : string;
  name : string;
  description : option string;
  active : bool
}.
End ProductCreate.

Module ProductUpdate.
Record t : Type := mk {
  sku : option string;
  name : option string;
  description : option string;
  active : option bool
}.
End ProductUpdate.

(** A row of the webhooks table. *)
Module WebhookRow.
Record t : Type := mk {
  id : Z;
  webhook : Webhook.t;
  created_at : option Z
}.
End WebhookRow.

(** [WebhookCreate] and [WebhookUpdate], lines 43-51. *)
Module WebhookCreate.
Record t : Type := mk {
  url : string;
  event_type : string;
  enabled : bool
}.
(** A request that gives only the url. *)
Definition defaults (url : string) : t := mk url "product.imported" true.
End WebhookCreate.

Module WebhookUpdate.
Record t : Type := mk {
  url : option string;
  event_type : option string;
  enabled : option bool
}.
End WebhookUpdate.

(** ** The uploaded table *)

(** A cell of the DataFrame: [Text s] is any non-null scalar, [s] being what
    [str] makes of it; [NaN] is the missing value, for which [pd.notna] is
    false and [str] gives "nan". *)
Inductive cell : Type :=
| Text (s : string)
| NaN.

Definition py_str (v : cell) : string :=
  match v with
  | Text s => s
  | NaN => "nan"
  end.

(** A row is a Series: column label to cell.  [row.get(col, default)]. *)
Definition row_get (row : gmap string cell) (col : string) (default : cell) : cell :=
  match row !! col with
  | Some v => v
  | None => default
  end.

Record DataFrame : Type := {
  columns : list string;
  rows : list (gmap string cell)
}.

(** ** Exceptions *)

Inductive exn : Type :=
| UnicodeDecodeError (msg : string)
| ParserError (msg : string)        (* any other exception of pd.read_csv *)
| SQLAlchemyError (msg : string)    (* raised by a call on the session *)
| OSError (msg : string)            (* raised by os.remove *)
| BrokerError (msg : string)        (* raised by trigger_webhooks.delay *)
| HTTPError (msg : string).         (* raised by the post to a listener *)

(** [str(e)] *)
Definition str_exn (e : exn) : string :=
  match e with
  | UnicodeDecodeError m | ParserError m | SQLAlchemyError m
  | OSError m | BrokerError m | HTTPError m => m
  end.

(** What [pd.read_csv(path, encoding='utf-8')] does with a staged file. *)
Inductive read_result : Type :=
| Parsed (df : DataFrame)
| Unreadable (e : exn).

(** ** The world and its environment *)

Record Payload : Type := {
  pl_job_id : string;
  pl_count : Z;
  pl_created : Z;
  pl_updated : Z;
  pl_errors : Z
}.

Record Envelope : Type := {
  ev_event : string;
  ev_data : Payload;
  ev_timestamp : Z
}.

(** The database as the task's session sees it.  [import_jobs], [products]
    and [webhooks] hold the committed rows.  [session_job] is the job object
    the session loaded, with the attribute values assigned since;
    [session_products] is the product table as the session's queries see
    it.  [db_ops] counts the session calls made so far, and [job_trace]
    keeps every committed state of the session's job, newest first: what a
    reader of the table could have observed over time.

    There is one session at a time.  main.py starts a thread, and with it
    a session, for every upload; the model runs such sessions one after
    the other, each opening on what the earlier ones committed.  What
    another session commits while this one is open is not part of the
    state, so every statement below is about a run during which no other
    session writes to the tables. *)
Record Db : Type := {
  import_jobs : gmap string ImportJob.t;
  products : list Product.t;
  webhooks : list Webhook.t;
  session_job : option ImportJob.t;
  session_products : list Product.t;
  db_ops : nat;
  job_trace : list ImportJob.t
}.

Record Sys : Type := {
  files : gmap string read_result;           (* temp_uploads *)
  celery_queue : list (string * Payload);    (* tasks handed to the broker *)
  outbox : list (string * Envelope);         (* posts that reached a listener *)
  log : list string
}.

Record World : Type := { db : Db; sys : Sys }.

Record Env : Type := {
  utcnow : Z;
  db_fault : nat -> option string;       (* the n-th session call raises *)
  remove_fault : option string;          (* os.remove raises *)
  broker_fault : option string;          (* trigger_webhooks.delay raises *)
  post_fault : string -> option string;  (* the post to this url raises *)
  format_exc : exn -> string             (* traceback.format_exc() *)
}.

Definition with_db (f : Db -> Db) (w : World) : World :=
  {| db := f (db w); sys := sys w |}.

Definition with_sys (f : Sys -> Sys) (w : World) : World :=
  {| db := db w; sys := f (sys w) |}.

Definition bump (d : Db) : Db :=
  {| import_jobs := import_jobs d; products := products d;
     webhooks := webhooks d; session_job := session_job d;
     session_products := session_products d;
     db_ops := S (db_ops d); job_trace := job_trace d |}.

(** A successful COMMIT: the session's state becomes the committed one
    (no other session has committed since this one read the tables). *)
Definition persist (d : Db) : Db :=
  {| import_jobs :=
       match session_job d with
       | Some j => <[ImportJob.id j := j]> (import_jobs d)
       | None => import_jobs d
       end;
     products := session_products d;
     webhooks := webhooks d;
     session_job := session_job d;
     session_products := session_products d;
     db_ops := db_ops d;
     job_trace :=
       match session_job d with
       | Some j => j :: job_trace d
       | None => job_trace d
       end |}.

(** A ROLLBACK: added objects are expunged and loaded ones are expired, so
    that they read as the committed rows again. *)
Definition revert (d : Db) : Db :=
  {| import_jobs := import_jobs d; products := products d;
     webhooks := webhooks d;
     session_job :=
       match session_job d with
       | Some j =>
           match import_jobs d !! ImportJob.id j with
           | Some j' => Some j'
           | None => Some j
           end
       | None => None
       end;
     session_products := products d;
     db_ops := db_ops d; job_trace := job_trace d |}.

Definition put_session_job (o : option ImportJob.t) (d : Db) : Db :=
  {| import_jobs := import_jobs d; products := products d;
     webhooks := webhooks d; session_job := o;
     session_products := session_products d;
     db_ops := db_ops d; job_trace := job_trace d |}.

Definition put_session_products (ps : list Product.t) (d : Db) : Db :=
  {| import_jobs := import_jobs d; products := products d;
     webhooks := webhooks d; session_job := session_job d;
     session_products := ps;
     db_ops := db_ops d; job_trace := job_trace d |}.

Definition put_files (fs : gmap string read_result) (s : Sys) : Sys :=
  {| files := fs; celery_queue := celery_queue s;
     outbox := outbox s; log := log s |}.

Definition push_queue (t : string * Payload) (s : Sys) : Sys :=
  {| files := files s; celery_queue := celery_queue s ++ [t];
     outbox := outbox s; log := log s |}.

Definition push_outbox (p : string * Envelope) (s : Sys) : Sys :=
  {| files := files s; celery_queue := celery_queue s;
     outbox := outbox s ++ [p]; log := log s |}.

Definition push_log (line : string) (s : Sys) : Sys :=
  {| files := files s; celery_queue := celery_queue s;
     outbox := outbox s; log := log s ++ [line] |}.

(** ** A state and exception monad *)

Inductive result (A : Type) : Type :=
| Ok (a : A)
| Raise (e : exn).
Arguments Ok {A} a.
Arguments Raise {A} e.

Definition M (A : Type) : Type := World -> result A * World.

Definition ret {A} (a : A) : M A := fun w => (Ok a, w).

Definition raise {A} (e : exn) : M A := fun w => (Raise e, w).

Definition bind {A B} (m : M A) (k : A -> M B) : M B :=
  fun w =>
    match m w with
    | (Ok a, w') => k a w'
    | (Raise e, w') => (Raise e, w')
    end.

(** [try: m  except Exception as e: h e] *)
Definition catch {A} (m : M A) (h : exn -> M A) : M A :=
  fun w =>
    match m w with
    | (Ok a, w') => (Ok a, w')
    | (Raise e, w') => h e w'
    end.

Definition gets {A} (f : World -> A) : M A := fun w => (Ok (f w), w).

Definition modify (f : World -> World) : M unit := fun w => (Ok tt, f w).

Declare Scope py_scope.
Delimit Scope py_scope with py.
Notation "x <- m ;; k" := (bind m (fun x => k))
  (at level 100, m at next level, right associativity) : py_scope.
Notation "m ;; k" := (bind m (fun _ => k))
  (at level 100, right associativity) : py_scope.
Open Scope py_scope.

(** ** The SQLAlchemy session *)

Section Session.
Variable env : Env.

(** Any call that reaches the database may raise. *)
Definition session_call : M unit :=
  fun w =>
    let w' := with_db bump w in
    match db_fault env (db_ops (db w)) with
    | Some msg => (Raise (SQLAlchemyError msg), w')
    | None => (Ok tt, w')
    end.

(** [db.commit()].  When it raises, the transaction has been rolled
    back. *)
Definition commit : M unit :=
  fun w =>
    match db_fault env (db_ops (db w)) with
    | Some msg => (Raise (SQLAlchemyError msg), with_db (fun d => revert (bump d)) w)
    | None => (Ok tt, with_db (fun d => persist (bump d)) w)
    end.

(** [db.rollback()] *)
Definition rollback : M unit := modify (with_db revert).

(** [db.query(ImportJob).filter(ImportJob.id == job_id).first()] *)
Definition query_job (job_id : string) : M (option ImportJob.t) :=
  session_call ;;
  o <- gets (fun w => import_jobs (db w) !! job_id) ;;
  modify (with_db (put_session_job o)) ;;
  ret o.

(** [job.attr = value] on the loaded job. *)
Definition set_job (f : ImportJob.t -> ImportJob.t) : M unit :=
  modify (with_db (fun d => put_session_job (option_map f (session_job d)) d)).

(** Modelled from the spec: [SessionLocal] of app/database.py, which is
    not among the sources.  It opens a session that holds no object yet.
    The session is taken to be one whose queries see the rows it has
    added or changed and not yet committed (section 4.3: two rows of one
    job with the same key collapse; section 6: find, create and update
    are atomic from the perspective of a single row), and whose commit
    publishes them while its rollback discards them.  The database's
    [lower()], which every lookup by sku applies to the stored sku
    ([func.lower(Product.sku)]), is taken to fold case as the
    interpreter's [str.lower] does, so that the lookup finds the record
    whose sku differs from the row's by case only (section 2: skus are
    case-insensitive; section 4.3: find by case-insensitive key). *)
Definition SessionLocal (d : Db) : Db :=
  put_session_job None (put_session_products (products d) d).

(** [db.close()]: what was not committed is gone. *)
Definition close (w : World) : World := with_db SessionLocal w.

End Session.

(** ** Logging, files, broker *)

Definition logger (level line : string) : M unit :=
  modify (with_sys (push_log (level ++ ": " ++ line))).

(** [os.path.exists(path)] *)
Definition path_exists (path : string) : M bool :=
  gets (fun w => bool_decide (is_Some (files (sys w) !! path))).

(** [os.remove(path)] *)
Definition os_remove (env : Env) (path : string) : M unit :=
  match remove_fault env with
  | Some msg => raise (OSError msg)
  | None => modify (with_sys (fun s => put_files (delete path (files s)) s))
  end.

(** [trigger_webhooks.delay(event_type, payload)]: the task is handed to the
    broker and runs later, in a worker. *)
Definition delay (env : Env) (event_type : string) (payload : Payload) : M unit :=
  match broker_fault env with
  | Some msg => raise (BrokerError msg)
  | None => modify (with_sys (push_queue (event_type, payload)))
  end.

(** ** tasks.py: trigger_webhooks_sync *)

Section Webhooks.
Variable env : Env.

(** [client.post(webhook.url, json=webhook_payload, timeout=10.0)]; the
    response is not inspected. *)
Definition post (url : string) (webhook_payload : Envelope) : M unit :=
  match post_fault env url with
  | Some msg => raise (HTTPError msg)
  | None => modify (with_sys (push_outbox (url, webhook_payload)))
  end.

Definition listens (event_type : string) (wh : Webhook.t) : bool :=
  (Webhook.event_type wh =? event_type)%string && Webhook.enabled wh.

(** [db.query(Webhook).filter(...).all()], on a session of its own. *)
Definition query_webhooks (event_type : string) : M (list Webhook.t) :=
  session_call env ;;
  gets (fun w => List.filter (listens event_type) (webhooks (db w))).

(** The [for webhook in webhooks] loop. *)
Fixpoint deliver (event_type : string) (payload : Payload)
    (whs : list Webhook.t) : M unit :=
  match whs with
  | [] => ret tt
  | webhook :: rest =>
      catch
        (post (Webhook.url webhook)
           {| ev_event := event_type; ev_data := payload;
              ev_timestamp := utcnow env |})
        (fun e =>
           logger "ERROR"
             ("Webhook failed: " ++ Webhook.url webhook ++ " - Error: " ++ str_exn e)) ;;
      deliver event_type payload rest
  end.

Definition trigger_webhooks_sync (event_type : string) (payload : Payload) : M unit :=
  catch
    (whs <- query_webhooks event_type ;;
     match whs with
     | [] => ret tt
     | _ => deliver event_type payload whs
     end)
    (fun e => logger "ERROR" ("Error in webhook processing: " ++ str_exn e)).

End Webhooks.

(** * The program, for the interpreter's strip and lower *)

Section Interpreter.
Context {interp : Py.Unicode}.

(** ** tasks.py: process_csv_import_sync *)

(** The counters of the row loop (lines 113-117). *)
Record Counters : Type := {
  processed_count : Z;
  created_count : Z;
  updated_count : Z;
  error_count : Z;
  errors : list string
}.

Definition counters0 : Counters :=
  {| processed_count := 0; created_count := 0; updated_count := 0;
     error_count := 0; errors := [] |}.

(** [errors.append(error_msg); error_count += n] *)
Definition record_error (error_msg : string) (n : Z) (c : Counters) : Counters :=
  {| processed_count := processed_count c; created_count := created_count c;
     updated_count := updated_count c; error_count := error_count c + n;
     errors := errors c ++ [error_msg] |}.

Definition count_updated (c : Counters) : Counters :=
  {| processed_count := processed_count c + 1; created_count := created_count c;
     updated_count := updated_count c + 1; error_count := error_count c;
     errors := errors c |}.

Definition count_created (c : Counters) : Counters :=
  {| processed_count := processed_count c + 1; created_count := created_count c + 1;
     updated_count := updated_count c; error_count := error_count c;
     errors := errors c |}.

(** The payload of lines 263-269 and 272-278. *)
Definition payload_of (job_id : string) (c : Counters) : Payload :=
  {| pl_job_id := job_id; pl_count := processed_count c;
     pl_created := created_count c; pl_updated := updated_count c;
     pl_errors := error_count c |}.

Definition chunk_size : Z := 100.

(** [not s or s.lower() in ['nan', 'none', '']] *)
Definition is_null_token (s : string) : bool :=
  (s =? EmptyString)%string || Py.str_in (Py.lower s) ["nan"; "none"; EmptyString].

(** Lines 128-148: what the loop body decides before it touches the
    database. *)
Inductive validation : Type :=
| Rejected (error_msg : string)
| Accepted (sku name description : string).

Definition validate_row (idx : Z) (row : gmap string cell) : validation :=
  let sku := Py.strip (py_str (row_get row "sku" (Text EmptyString))) in
  if is_null_token sku then
    Rejected ("Row " ++ Py.str_int (idx + 2) ++ ": Empty or invalid SKU")
  else
    let name := Py.strip (py_str (row_get row "name" (Text EmptyString))) in
    let description :=
      match row !! "description" with
      | Some (Text s) => Py.strip s
      | Some NaN | None => EmptyString
      end in
    if is_null_token name then
      Rejected ("Row " ++ Py.str_int (idx + 2) ++ " (SKU: " ++ sku
                ++ "): Missing or invalid product name")
    else Accepted sku name description.

(** [.filter(func.lower(Product.sku) == sku_lower).first()] on a table,
    the database folding the stored sku as [Py.lower] does (see
    [SessionLocal]). *)
Definition first_by_sku (sku_lower : string) (ps : list Product.t) : option Product.t :=
  List.find (fun p => (Py.lower (Product.sku p) =? sku_lower)%string) ps.

(** Lines 157-159 on the object that [first] returned: the first match. *)
Fixpoint update_first (sku_lower name description : string) (now : Z)
    (ps : list Product.t) : list Product.t :=
  match ps with
  | [] => []
  | p :: rest =>
      if (Py.lower (Product.sku p) =? sku_lower)%string
      then Product.mk (Product.sku p) name description (Product.active p) (Some now) :: rest
      else p :: update_first sku_lower name description now rest
  end.

(** Lines 155-174 once the lookup has answered: the table and the counters
    after the row. *)
Definition upsert (now : Z) (sku name description : string)
    (ps : list Product.t) (c : Counters) : list Product.t * Counters :=
  match first_by_sku (Py.lower sku) ps with
  | Some _ => (update_first (Py.lower sku) name description now ps, count_updated c)
  | None => ((ps ++ [Product.mk sku name description true None])%list, count_created c)
  end.

(** [failed] summary, lines 223-230. *)
Definition bullets (n : nat) (errs : list string) : string :=
  Py.join Py.nl (map (fun err => "• " ++ err) (take n errs)).

Definition more_errors (n : nat) (errs : list string) : string :=
  if (n <? length errs)%nat
  then Py.nl ++ Py.nl ++ "... and " ++ Py.str_int (Z.of_nat (length errs) - Z.of_nat n)
       ++ " more errors"
  else EmptyString.

Definition failed_summary (c : Counters) : string :=
  "❌ Import Failed - No products were imported" ++ Py.nl ++ Py.nl
  ++ "Total errors: " ++ Py.str_int (error_count c) ++ Py.nl ++ Py.nl
  ++ "First " ++ Py.str_int (Z.min 10 (Z.of_nat (length (errors c)))) ++ " errors:" ++ Py.nl
  ++ bullets 10 (errors c)
  ++ more_errors 10 (errors c).

(** [completed_with_errors] summary, lines 237-247. *)
Definition partial_summary (c : Counters) (total_rows : Z) : string :=
  "⚠️ Import completed with errors" ++ Py.nl ++ Py.nl
  ++ "Successfully processed: " ++ Py.str_int_comma (processed_count c) ++ "/"
  ++ Py.str_int_comma total_rows ++ " products" ++ Py.nl
  ++ "✓ Created: " ++ Py.str_int_comma (created_count c) ++ Py.nl
  ++ "✓ Updated: " ++ Py.str_int_comma (updated_count c) ++ Py.nl
  ++ "❌ Errors: " ++ Py.str_int_comma (error_count c) ++ Py.nl ++ Py.nl
  ++ "First " ++ Py.str_int (Z.min 5 (Z.of_nat (length (errors c)))) ++ " errors:" ++ Py.nl
  ++ bullets 5 (errors c)
  ++ more_errors 5 (errors c).

(** Lines 220-254: the terminal status and its message. *)
Definition classify (c : Counters) (total_rows : Z) : job_status * option string :=
  if (0 <? error_count c) && (processed_count c =? 0) then
    (failed, Some (failed_summary c))
  else if 0 <? error_count c then
    (completed_with_errors, Some (partial_summary c total_rows))
  else
    (completed, None).

Definition fatal_message (env : Env) (e : exn) : string :=
  "❌ Fatal Error: " ++ str_exn e ++ Py.nl ++ Py.nl
  ++ "Full error details:" ++ Py.nl ++ format_exc env e.

(** The function returns [None] on every path; the model returns which path
    was taken. *)
Inductive outcome : Type :=
| JobMissing                          (* line 51 *)
| Refused (error_msg : string)        (* lines 58-103 *)
| Classified (c : Counters) (notified : option Payload)  (* lines 220-286 *)
| Fatal (e : exn) (recorded : bool).  (* lines 290-304 *)

Section ImportTask.
Variable env : Env.

(** Lines 126-192, one row.  The lookup is the only call of the body that
    can raise outside a handler of its own, and it comes before any
    counter is touched, so the handler of line 187 sees the counters as
    they were before the row.  A lookup that raises leaves the session as
    it is. *)
Definition process_row (idx : Z) (row : gmap string cell) (c : Counters) : M Counters :=
  catch
    (match validate_row idx row with
     | Rejected error_msg => ret (record_error error_msg 1 c)
     | Accepted sku name description =>
         session_call env ;;
         ps <- gets (fun w => session_products (db w)) ;;
         let '(ps', c') := upsert (utcnow env) sku name description ps c in
         modify (with_db (put_session_products ps')) ;;
         if processed_count c' mod 50 =? 0 then
           catch (commit env ;; ret c')
             (fun commit_err =>
                rollback ;;
                ret (record_error
                       ("Database error at row " ++ Py.str_int (idx + 2) ++ ": "
                        ++ str_exn commit_err) 1 c'))
         else ret c'
     end)
    (fun row_error =>
       ret (record_error
              ("Row " ++ Py.str_int (idx + 2) ++ " (SKU: "
               ++ py_str (row_get row "sku" (Text "N/A")) ++ "): "
               ++ str_exn row_error) 1 c)).

(** [for idx, row in chunk.iterrows()]: the labels are the positions in
    the whole table. *)
Fixpoint rows_loop (idx : Z) (chunk : list (gmap string cell)) (c : Counters)
    : M Counters :=
  match chunk with
  | [] => ret c
  | row :: rest => c' <- process_row idx row c ;; rows_loop (idx + 1) rest c'
  end.

(** Lines 121-207, one chunk.  [chunk_num] (line 122) and [progress_pct]
    (line 210) are computed and never used. *)
Definition process_chunk (df : DataFrame) (total_rows i : Z) (c : Counters)
    : M Counters :=
  let chunk := take (Z.to_nat chunk_size) (drop (Z.to_nat i) (rows df)) in
  c1 <- rows_loop i chunk c ;;
  c2 <- catch (commit env ;; ret c1)
          (fun commit_error =>
             rollback ;;
             ret (record_error
                    ("Failed to commit chunk at row " ++ Py.str_int i ++ ": "
                     ++ str_exn commit_error)
                    (chunk_size - processed_count c1) c1)) ;;
  set_job (ImportJob.set_processed_rows (Z.min (i + chunk_size) total_rows)) ;;
  commit env ;;
  ret c2.

(** [for i in range(0, total_rows, chunk_size)], [n] chunks from [i] on. *)
Fixpoint chunks_loop (df : DataFrame) (total_rows : Z) (n : nat) (i : Z)
    (c : Counters) : M Counters :=
  match n with
  | O => ret c
  | S n' =>
      c' <- process_chunk df total_rows i c ;;
      chunks_loop df total_rows n' (i + chunk_size) c'
  end.

(** [len(range(0, total_rows, chunk_size))] *)
Definition chunk_count (total_rows : Z) : nat :=
  Z.to_nat ((total_rows + chunk_size - 1) / chunk_size).

(** The four early exits: status, message, timestamp, commit, return. *)
Definition refuse (error_msg : string) : M outcome :=
  set_job (ImportJob.set_status failed) ;;
  set_job (ImportJob.set_error_message (Some error_msg)) ;;
  set_job (ImportJob.set_completed_at (utcnow env)) ;;
  commit env ;;
  ret (Refused error_msg).

Definition required_cols : list string := ["sku"; "name"].

Definition missing_columns_message (missing_cols found : list string) : string :=
  "❌ Missing required columns: " ++ Py.join ", " missing_cols ++ Py.nl ++ Py.nl
  ++ "Required columns: sku, name" ++ Py.nl
  ++ "Found columns: " ++ Py.join ", " found ++ Py.nl ++ Py.nl
  ++ "Please add the missing columns to your CSV and try again.".

(** Lines 261-278. *)
Definition notify (payload : Payload) : M unit :=
  catch (delay env "product.imported" payload)
    (fun _ => trigger_webhooks_sync env "product.imported" payload).

(** Lines 281-286. *)
Definition cleanup (file_path : string) : M unit :=
  there <- path_exists file_path ;;
  if there then
    catch (os_remove env file_path)
      (fun cleanup_err =>
         logger "WARNING" ("Could not delete temp file: " ++ str_exn cleanup_err))
  else ret tt.

(** Lines 108-286: from the parsed table to the end of the [try] body. *)
Definition import_rows (job_id file_path : string) (df : DataFrame) : M outcome :=
  let total_rows := Z.of_nat (length (rows df)) in
  set_job (ImportJob.set_total_rows total_rows) ;;
  set_job (ImportJob.set_status importing) ;;
  commit env ;;
  c <- chunks_loop df total_rows (chunk_count total_rows) 0 counters0 ;;
  catch (commit env)
    (fun e => logger "WARNING" ("Final commit error: " ++ str_exn e)) ;;
  let '(st, msg) := classify c total_rows in
  set_job (ImportJob.set_status st) ;;
  set_job (ImportJob.set_error_message msg) ;;
  set_job (ImportJob.set_completed_at (utcnow env)) ;;
  commit env ;;
  job <- gets (fun w => session_job (db w)) ;;
  notified <-
    match job with
    | Some j =>
        match ImportJob.status j with
        | completed | completed_with_errors =>
            notify (payload_of job_id c) ;; ret (Some (payload_of job_id c))
        | _ => ret None
        end
    | None => ret None
    end ;;
  cleanup file_path ;;
  ret (Classified c notified).

(** Lines 48-286: the body of the outer [try]. *)
Definition pipeline (job_id file_path : string) : M outcome :=
  job <- query_job env job_id ;;
  match job with
  | None => ret JobMissing
  | Some _ =>
      set_job (ImportJob.set_status parsing) ;;
      commit env ;;
      file <- gets (fun w => files (sys w) !! file_path) ;;
      match file with
      | None => refuse ("File not found at path: " ++ file_path)
      | Some (Unreadable (UnicodeDecodeError _)) =>
          refuse "CSV encoding error. Please save your CSV as UTF-8 and try again."
      | Some (Unreadable e) =>
          refuse ("Failed to parse CSV file: " ++ str_exn e ++ Py.nl ++ Py.nl
                  ++ "Please check:" ++ Py.nl ++ "- File is a valid CSV" ++ Py.nl
                  ++ "- File is not corrupted" ++ Py.nl ++ "- File encoding is UTF-8")
      | Some (Parsed df) =>
          let missing_cols :=
            List.filter (fun col => negb (Py.str_in col (columns df))) required_cols in
          match missing_cols with
          | _ :: _ => refuse (missing_columns_message missing_cols (columns df))
          | [] => import_rows job_id file_path df
          end
      end
  end.

(** Lines 290-304: the handler of the outer [try]. *)
Definition on_fatal (e : exn) : World -> outcome * World :=
  fun w =>
    let w1 := with_sys (push_log "ERROR: Fatal error while processing CSV import") w in
    match session_job (db w1) with
    | Some _ =>
        match (set_job (ImportJob.set_status failed) ;;
               set_job (ImportJob.set_error_message (Some (fatal_message env e))) ;;
               set_job (ImportJob.set_completed_at (utcnow env)) ;;
               commit env) w1 with
        | (Ok _, w2) => (Fatal e true, w2)
        | (Raise db_error, w2) =>
            (Fatal e false,
             with_sys (push_log ("ERROR: Failed to update job status in database: "
                                 ++ str_exn db_error)) w2)
        end
    | None => (Fatal e false, w1)
    end.

Definition process_csv_import_sync (job_id file_path : string)
    : World -> outcome * World :=
  fun w =>
    let '(o, w') :=
      match pipeline job_id file_path (with_db SessionLocal w) with
      | (Ok o, w1) => (o, w1)
      | (Raise e, w1) => on_fatal e w1
      end in
    (o, close w').

End ImportTask.

(** ** main.py: the job row of import_products and the progress stream *)

(** [ImportJob(id=job_id, status="pending")] with the column defaults. *)
Definition new_job (job_id : string) : ImportJob.t :=
  ImportJob.mk job_id pending 0 0 None None.

(** One server-sent event.  [percent] is the float expression
    [int(processed_rows / total * 100)]; it is kept as its two operands. *)
Inductive sse : Type :=
| InvalidId
| NotFound
| Progress (status : job_status) (processed total : Z) (percent : Z * Z)
    (error : option string).

Section Progress.
(** The committed job table at the time of the k-th poll, and whether
    that poll's query raises. *)
Variable table_at : nat -> gmap string ImportJob.t.
Variable poll_fault : nat -> option string.
Variable job_id : string.

Definition snapshot (job : ImportJob.t) : sse :=
  let total := if 0 <? ImportJob.total_rows job then ImportJob.total_rows job else 1 in
  Progress (ImportJob.status job) (ImportJob.processed_rows job)
    (ImportJob.total_rows job) (ImportJob.processed_rows job, total)
    (ImportJob.error_message job).

(** [for _ in range(600)], [remaining] iterations from the k-th on.  The
    result is what was yielded, how many lookups were made, and the
    exception that ended the generator, if any. *)
Fixpoint poll (remaining k : nat) : list sse * nat * option exn :=
  match remaining with
  | O => ([], O, None)
  | S remaining' =>
      match poll_fault k with
      | Some msg => ([], 1%nat, Some (SQLAlchemyError msg))
      | None =>
          match table_at k !! job_id with
          | None => ([NotFound], 1%nat, None)
          | Some job =>
              if is_terminal (ImportJob.status job)
              then ([snapshot job], 1%nat, None)
              else
                let '(evs, n, err) := poll remaining' (S k) in
                (snapshot job :: evs, S n, err)
          end
      end
  end.

(** [len(job_id)] cannot raise for a [str], so the [except] of lines
    110-112 is dead. *)
Definition event_generator : list sse * nat * option exn :=
  if (job_id =? EmptyString)%string || negb (Py.len job_id =? 36)%nat
  then ([InvalidId], O, None)
  else poll 600 0.

End Progress.

(** * Vocabulary of the specification *)


Definition is_rejected (v : validation) : bool :=
  match v with
  | Rejected _ => true
  | Accepted _ _ _ => false
  end.


(** [sub] occurs in [s]. *)
Definition occurs_in (sub s : string) : Prop :=
  exists before after, s = before ++ sub ++ after.

(** The edges of the status graph: pending, parsing, importing, then one of
    the terminal statuses; failed from any status that is not terminal. *)
Definition status_edge (a b : job_status) : bool :=
  match a, b with
  | pending, parsing | parsing, importing
  | importing, completed | importing, completed_with_errors => true
  | (pending | parsing | importing), failed => true
  | _, _ => false
  end.


(** A committed state follows another: same status or one edge forward,
    and no less progress. *)
Definition job_step (j j' : ImportJob.t) : Prop :=
  (ImportJob.status j = ImportJob.status j'
   \/ status_edge (ImportJob.status j) (ImportJob.status j') = true)
  /\ ImportJob.processed_rows j <= ImportJob.processed_rows j'.

Definition job_ok (j : ImportJob.t) : Prop :=
  0 <= ImportJob.processed_rows j <= ImportJob.total_rows j
  /\ (is_Some (ImportJob.completed_at j) <-> is_terminal (ImportJob.status j) = true).

(** [history j0 tr j]: starting from the row [j0], the commits recorded in
    [tr] (newest first) lead to the row [j]. *)
Inductive history (j0 : ImportJob.t) : list ImportJob.t -> ImportJob.t -> Prop :=
| history_start : job_ok j0 -> history j0 [] j0
| history_commit tr j j' :
    history j0 tr j -> job_step j j' -> job_ok j' ->
    ImportJob.id j' = ImportJob.id j0 ->
    history j0 (j' :: tr) j'.

(** The session holds the job with attribute values [j'] while the
    committed row is [j]. *)
Definition loaded (j0 j j' : ImportJob.t) (w : World) : Prop :=
  session_job (db w) = Some j'
  /\ import_jobs (db w) !! ImportJob.id j0 = Some j
  /\ ImportJob.id j = ImportJob.id j0
  /\ ImportJob.id j' = ImportJob.id j0
  /\ history j0 (job_trace (db w)) j.

(** The world in which [import_products] starts the task: the job row it
    has just committed, and no commit of the task recorded yet. *)
Definition fresh_run (job_id : string) (w : World) : Prop :=
  import_jobs (db w) !! job_id = Some (new_job job_id)
  /\ job_trace (db w) = [].

(** The row counters agree. *)
Definition counts_agree (c : Counters) : Prop :=
  processed_count c = created_count c + updated_count c.

(** How many rows of a table carry the key [sku], case-insensitively. *)
Definition count_sku (sku : string) (ps : list Product.t) : nat :=
  length (List.filter (fun p => (Py.lower (Product.sku p) =? Py.lower sku)%string) ps).

(** Whether the environment lets the [n]-th session call through. *)
Definition db_up (env : Env) : Prop := forall n, db_fault env n = None.

(** The three error lines a row can add (lines 132, 145/188, 182). *)
Definition lookup_error_line (idx : Z) (row : gmap string cell) (e : exn) : string :=
  "Row " ++ Py.str_int (idx + 2) ++ " (SKU: "
  ++ py_str (row_get row "sku" (Text "N/A")) ++ "): " ++ str_exn e.

Definition checkpoint_error_line (idx : Z) (e : exn) : string :=
  "Database error at row " ++ Py.str_int (idx + 2) ++ ": " ++ str_exn e.

Definition chunk_error_line (i : Z) (e : exn) : string :=
  "Failed to commit chunk at row " ++ Py.str_int i ++ ": " ++ str_exn e.

(** The world after the lookup and the in-session write of an accepted
    row. *)
Definition after_upsert (ps' : list Product.t) (w : World) : World :=
  with_db (put_session_products ps') (with_db bump w).

(** The five ways through the body of the row loop. *)
Inductive row_step (env : Env) (idx : Z) (row : gmap string cell)
    (c : Counters) (w : World) : Counters -> World -> Prop :=
| row_rejected msg :
    validate_row idx row = Rejected msg ->
    row_step env idx row c w (record_error msg 1 c) w
| row_lookup_raised sku name description msg :
    validate_row idx row = Accepted sku name description ->
    db_fault env (db_ops (db w)) = Some msg ->
    row_step env idx row c w
      (record_error (lookup_error_line idx row (SQLAlchemyError msg)) 1 c)
      (with_db bump w)
| row_applied sku name description ps' c' :
    validate_row idx row = Accepted sku name description ->
    db_fault env (db_ops (db w)) = None ->
    upsert (utcnow env) sku name description (session_products (db w)) c = (ps', c') ->
    processed_count c' mod 50 <> 0 ->
    row_step env idx row c w c' (after_upsert ps' w)
| row_checkpointed sku name description ps' c' :
    validate_row idx row = Accepted sku name description ->
    db_fault env (db_ops (db w)) = None ->
    upsert (utcnow env) sku name description (session_products (db w)) c = (ps', c') ->
    processed_count c' mod 50 = 0 ->
    db_fault env (S (db_ops (db w))) = None ->
    row_step env idx row c w c'
      (with_db (fun d => persist (bump d)) (after_upsert ps' w))
| row_checkpoint_failed sku name description ps' c' msg :
    validate_row idx row = Accepted sku name description ->
    db_fault env (db_ops (db w)) = None ->
    upsert (utcnow env) sku name description (session_products (db w)) c = (ps', c') ->
    processed_count c' mod 50 = 0 ->
    db_fault env (S (db_ops (db w))) = Some msg ->
    row_step env idx row c w
      (record_error (checkpoint_error_line idx (SQLAlchemyError msg)) 1 c')
      (with_db revert (with_db (fun d => revert (bump d)) (after_upsert ps' w))).

(** A progress event that shows a terminal status. *)
Definition shows_terminal (ev : sse) : bool :=
  match ev with
  | Progress st _ _ _ _ => is_terminal st
  | InvalidId | NotFound => false
  end.

(** Nothing outside the job and product tables has changed. *)
Definition quiet (w w' : World) : Prop :=
  sys w' = sys w /\ webhooks (db w') = webhooks (db w).

(** The job row while the rows are imported. *)
Definition steady (total : Z) (j : ImportJob.t) : Prop :=
  ImportJob.status j = importing
  /\ ImportJob.total_rows j = total
  /\ ImportJob.completed_at j = None
  /\ 0 <= ImportJob.processed_rows j <= total.

(** What the listeners of an event receive, and what is logged for those
    that cannot be reached. *)
Definition envelope_of (env : Env) (event_type : string) (payload : Payload) : Envelope :=
  {| ev_event := event_type; ev_data := payload; ev_timestamp := utcnow env |}.

Definition reachable (env : Env) (wh : Webhook.t) : bool :=
  match post_fault env (Webhook.url wh) with
  | None => true
  | Some _ => false
  end.

Definition deliveries (env : Env) (event_type : string) (payload : Payload)
    (whs : list Webhook.t) : list (string * Envelope) :=
  map (fun wh => (Webhook.url wh, envelope_of env event_type payload))
    (List.filter (reachable env) whs).

Definition failure_lines (env : Env) (whs : list Webhook.t) : list string :=
  flat_map
    (fun wh =>
       match post_fault env (Webhook.url wh) with
       | Some msg =>
           ["ERROR: Webhook failed: " ++ Webhook.url wh ++ " - Error: " ++ msg]
       | None => []
       end) whs.

Definition listeners (event_type : string) (whs : list Webhook.t) : list Webhook.t :=
  List.filter (listens event_type) whs.

(** The staged files, the broker queue, the listeners' inboxes and the
    webhook table are as they were (the log may have grown). *)
Definition calm (w w' : World) : Prop :=
  files (sys w') = files (sys w)
  /\ celery_queue (sys w') = celery_queue (sys w)
  /\ outbox (sys w') = outbox (sys w)
  /\ webhooks (db w') = webhooks (db w).

(** [status in ["completed", "completed_with_errors"]], line 261. *)
Definition is_success (s : job_status) : bool :=
  match s with
  | completed | completed_with_errors => true
  | _ => false
  end.

(** What a run that ended with outcome [o] has left behind: [w] is the
    world before, [w'] the world after, [j] the committed job row. *)
Definition run_post (env : Env) (job_id file_path : string)
    (w : World) (o : outcome) (w' : World) (j : ImportJob.t) : Prop :=
  match o with
  | JobMissing => False
  | Refused msg =>
      ImportJob.status j = failed
      /\ ImportJob.error_message j = Some msg
      /\ ImportJob.completed_at j = Some (utcnow env)
      /\ sys w' = sys w
  | Classified c notified =>
      counts_agree c
      /\ (ImportJob.status j, ImportJob.error_message j)
         = classify c (ImportJob.total_rows j)
      /\ ImportJob.completed_at j = Some (utcnow env)
      /\ notified
         = (if is_success (ImportJob.status j) then Some (payload_of job_id c) else None)
      /\ files (sys w')
         = match remove_fault env with
           | None => delete file_path (files (sys w))
           | Some _ => files (sys w)
           end
      /\ (forall msg, remove_fault env = Some msg ->
          exists earlier,
            log (sys w')
            = (earlier ++ [("WARNING: Could not delete temp file: " ++ msg)%string])%list)
      /\ match notified, broker_fault env with
         | Some p, None =>
             celery_queue (sys w')
             = (celery_queue (sys w) ++ [("product.imported", p)])%list
             /\ outbox (sys w') = outbox (sys w)
         | Some p, Some _ =>
             celery_queue (sys w') = celery_queue (sys w)
             /\ exists n,
                  outbox (sys w')
                  = (outbox (sys w)
                     ++ match db_fault env n with
                        | None =>
                            deliveries env "product.imported" p
                              (listeners "product.imported" (webhooks (db w)))
                        | Some _ => []
                        end)%list
         | None, _ =>
             celery_queue (sys w') = celery_queue (sys w)
             /\ outbox (sys w') = outbox (sys w)
         end
  | Fatal e recorded =>
      calm w w'
      /\ if recorded
         then ImportJob.status j = failed
              /\ ImportJob.error_message j = Some (fatal_message env e)
              /\ ImportJob.completed_at j = Some (utcnow env)
         else is_terminal (ImportJob.status j) = false
  end.

(** Orders on the committed states of a job, written "newer, older" since
    [job_trace] lists the newest state first. *)
Definition follows (newer older : ImportJob.t) : Prop := job_step older newer.

Definition no_less_progress (newer older : ImportJob.t) : Prop :=
  ImportJob.processed_rows older <= ImportJob.processed_rows newer.



(** The payload a run handed to the webhook dispatch, if it did. *)
Definition dispatched (o : outcome) : option Payload :=
  match o with
  | Classified _ notified => notified
  | _ => None
  end.

(** * Sample runs *)

Definition no_fault : nat -> option string := fun _ => None.

(** Only the [k]-th session call raises. *)
Definition fault_at (k : nat) : nat -> option string :=
  fun n => if (n =? k)%nat then Some "server closed the connection" else None.

(** The database goes away before the [k]-th session call. *)
Definition fault_from (k : nat) : nat -> option string :=
  fun n => if (k <=? n)%nat then Some "server closed the connection" else None.

Definition sample_env (fault : nat -> option string) : Env :=
  {| utcnow := 1700000000;
     db_fault := fault;
     remove_fault := None;
     broker_fault := Some "broker unreachable";
     post_fault := fun url => if (url =? "http://down.test/hook")%string
                              then Some "connection refused" else None;
     format_exc := fun e => "Traceback (most recent call last): " ++ str_exn e |}.

Definition sample_row (sku name : string) : gmap string cell :=
  <["sku" := Text sku]> (<["name" := Text name]> ∅).

Definition sample_hooks : list Webhook.t :=
  [Webhook.mk "http://down.test/hook" "product.imported" true;
   Webhook.mk "http://up.test/hook" "product.imported" true;
   Webhook.mk "http://off.test/hook" "product.imported" false].

(** The world after [import_products] staged [file] for job "J". *)
Definition sample_world (file : option read_result) : World :=
  {| db := {| import_jobs := {["J" := new_job "J"]};
              products := [];
              webhooks := sample_hooks;
              session_job := None;
              session_products := [];
              db_ops := 0;
              job_trace := [] |};
     sys := {| files := match file with
                        | Some f => {["temp_uploads/J.csv" := f]}
                        | None => ∅
                        end;
               celery_queue := [];
               outbox := [];
               log := [] |} |}.

Definition sample_run (fault : nat -> option string) (file : option read_result)
    : outcome * World :=
  process_csv_import_sync (sample_env fault) "J" "temp_uploads/J.csv" (sample_world file).

(** DUP-001 then dup-001, then a row without sku. *)
Definition dup_table : DataFrame :=
  {| columns := ["sku"; "name"];
     rows := [sample_row "DUP-001" "First"; sample_row "dup-001" "Second";
              sample_row " " "Third"] |}.

(** One valid row. *)
Definition one_row_table : DataFrame :=
  {| columns := ["sku"; "name"]; rows := [sample_row "A-1" "Anvil"] |}.

(** Header [sku,description]: the required column [name] is missing. *)
Definition no_name_table : DataFrame :=
  {| columns := ["sku"; "description"];
     rows := [<["sku" := Text "A-1"]> (<["description" := Text "heavy"]> ∅)] |}.

(** [s] ends with [suffix]. *)
Definition ends_with (suffix s : string) : Prop :=
  exists before, s = before ++ suffix.

(** The message shows the first [n] error lines, then says how many more
    there are when there are more, and ends with the lines otherwise. *)
Definition shows_first (n : nat) (errs : list string) (msg : string) : Prop :=
  (forall k line, (k < n)%nat -> errs !! k = Some line -> occurs_in ("• " ++ line) msg)
  /\ ((n < length errs)%nat ->
      ends_with ("... and " ++ Py.str_int (Z.of_nat (length errs) - Z.of_nat n)
                 ++ " more errors") msg)
  /\ ((length errs <= n)%nat -> ends_with (bullets n errs) msg).

(** A hundred valid rows, SKU-0 to SKU-99. *)
Definition hundred_rows_table : DataFrame :=
  {| columns := ["sku"; "name"];
     rows := map (fun k => sample_row ("SKU-" ++ Py.str_int (Z.of_nat k)) "Widget")
               (seq 0 100) |}.

(** * The row loop as a fold *)

(** What lines 126-174 make of the table and the counters for one row when
    no session call raises: a rejected row adds its error line, an accepted
    one is upserted. *)
Definition apply_row (now idx : Z) (row : gmap string cell)
    (s : list Product.t * Counters) : list Product.t * Counters :=
  match validate_row idx row with
  | Rejected error_msg => (fst s, record_error error_msg 1 (snd s))
  | Accepted sku name description => upsert now sku name description (fst s) (snd s)
  end.

(** The rows of a table in file order, the first one having label [idx]. *)
Fixpoint apply_rows (now idx : Z) (table : list (gmap string cell))
    (s : list Product.t * Counters) : list Product.t * Counters :=
  match table with
  | [] => s
  | row :: rest => apply_rows now (idx + 1) rest (apply_row now idx row s)
  end.

(** The message of each early exit (lines 59, 73, 80, 92-97), by what is
    staged under the path; [None] when the rows are imported. *)
Definition refusal (file_path : string) (file : option read_result) : option string :=
  match file with
  | None => Some ("File not found at path: " ++ file_path)
  | Some (Unreadable (UnicodeDecodeError _)) =>
      Some "CSV encoding error. Please save your CSV as UTF-8 and try again."
  | Some (Unreadable e) =>
      Some ("Failed to parse CSV file: " ++ str_exn e ++ Py.nl ++ Py.nl
            ++ "Please check:" ++ Py.nl ++ "- File is a valid CSV" ++ Py.nl
            ++ "- File is not corrupted" ++ Py.nl ++ "- File encoding is UTF-8")
  | Some (Parsed df) =>
      match List.filter (fun col => negb (Py.str_in col (columns df))) required_cols with
      | [] => None
      | missing_cols => Some (missing_columns_message missing_cols (columns df))
      end
  end.

(** The table a staged file parses to, when it does. *)
Definition parsed_rows (file : option read_result) : list (gmap string cell) :=
  match file with
  | Some (Parsed df) => rows df
  | _ => []
  end.

(** Whether the validation of lines 128-148 lets a row through (the row's
    label only shows in the error line). *)
Definition valid_row (row : gmap string cell) : bool :=
  negb (is_rejected (validate_row 0 row)).

(** The case-folded keys of a table, in table order. *)
Definition keys (ps : list Product.t) : list string :=
  map (fun p => Py.lower (Product.sku p)) ps.

(** Two uploads of the same three rows, for the jobs "J" and "K". *)
Definition two_uploads : World :=
  {| db := {| import_jobs := <["K" := new_job "K"]> {["J" := new_job "J"]};
              products := [];
              webhooks := sample_hooks;
              session_job := None;
              session_products := [];
              db_ops := 0;
              job_trace := [] |};
     sys := {| files := <["temp_uploads/K.csv" := Parsed dup_table]>
                          {["temp_uploads/J.csv" := Parsed dup_table]};
               celery_queue := [];
               outbox := [];
               log := [] |} |}.

(** Three rows without a usable sku. *)
Definition no_sku_table : DataFrame :=
  {| columns := ["sku"; "name"];
     rows := [sample_row " " "First"; <["sku" := NaN]> (sample_row "x" "Second");
              sample_row "None" "Third"] |}.

(** A header and no data row. *)
Definition empty_table : DataFrame := {| columns := ["sku"; "name"]; rows := [] |}.

(** * What a run leaves alone *)

(** [m] preserves the property [I] of the world, whether it returns or
    raises. *)
Definition keeps (I : World -> Prop) {A} (m : M A) : Prop :=
  forall w, I w -> I (snd (m w)).

(** [q] sits where [p] sat: same sku, same active flag. *)
Definition same_slot (p q : Product.t) : Prop :=
  Product.sku q = Product.sku p /\ Product.active q = Product.active p.

(** The case-folded skus that the valid rows of a table carry. *)
Definition named_in (table : list (gmap string cell)) (key : string) : Prop :=
  exists row sku name description,
    In row table /\ validate_row 0 row = Accepted sku name description
    /\ Py.lower sku = key.

(** [q] sits where [p] sat, and is [p] itself unless the key of [p] is
    one of [named]. *)
Definition settled (named : string -> Prop) (p q : Product.t) : Prop :=
  same_slot p q /\ (~ named (Py.lower (Product.sku p)) -> q = p).

(** The table [ps'] holds the products of [ps], in their places, with
    their sku and active flag, those with a key outside [named] not
    changed at all; the products after them all have a key in [named]. *)
Definition grows (named : string -> Prop) (ps ps' : list Product.t) : Prop :=
  exists kept added,
    ps' = (kept ++ added)%list /\ Forall2 (settled named) ps kept
    /\ Forall (fun q => named (Py.lower (Product.sku q))) added.

(** What a run for [job_id] on [file_path] may have done to the world
    outside the product table and its own job row. *)
Definition others_kept (job_id file_path : string) (w w' : World) : Prop :=
  webhooks (db w') = webhooks (db w)
  /\ (forall k, k <> job_id -> import_jobs (db w') !! k = import_jobs (db w) !! k)
  /\ (files (sys w') = files (sys w)
      \/ files (sys w') = delete file_path (files (sys w)))
  /\ celery_queue (sys w) `prefix_of` celery_queue (sys w')
  /\ outbox (sys w) `prefix_of` outbox (sys w')
  /\ log (sys w) `prefix_of` log (sys w').

(** The job table is keyed by the id column, as far as [job_id] goes. *)
Definition keyed (job_id : string) (w : World) : Prop :=
  forall j, import_jobs (db w) !! job_id = Some j -> ImportJob.id j = job_id.

(** The job the session holds, if any, is the one with id [job_id]. *)
Definition holds_only (job_id : string) (w : World) : Prop :=
  forall j, session_job (db w) = Some j -> ImportJob.id j = job_id.

(** No two products share a case-folded sku, in the committed table and
    in the session's view of it. *)
Definition distinct_keys (w : World) : Prop :=
  NoDup (keys (products (db w))) /\ NoDup (keys (session_products (db w))).

(** * Progress at the end of a run *)

(** The job [job_id], as the session holds it and as it is committed,
    shows [p] of [total] rows processed. *)
Definition at_progress (job_id : string) (total p : Z) (w : World) : Prop :=
  exists j jc,
    session_job (db w) = Some j /\ import_jobs (db w) !! job_id = Some jc
    /\ ImportJob.id j = job_id /\ ImportJob.id jc = job_id
    /\ ImportJob.total_rows j = total /\ ImportJob.processed_rows j = p
    /\ ImportJob.total_rows jc = total /\ ImportJob.processed_rows jc = p.

(** The trace holds a committed state of the job with [p] of [total]
    rows processed. *)
Definition shown (total p : Z) (w : World) : Prop :=
  exists j,
    In j (job_trace (db w))
    /\ ImportJob.processed_rows j = p /\ ImportJob.total_rows j = total.

Definition all_shown (total : Z) (P : Z -> Prop) (w : World) : Prop :=
  forall v, P v -> shown total v w.

(** The job shows [p] of [total], and every progress in [P] has been
    shown. *)
Definition tracked (job_id : string) (total p : Z) (P : Z -> Prop) (w : World) : Prop :=
  at_progress job_id total p w /\ all_shown total P w.

(** [v] is the progress at the end of a chunk of a table of [total] rows:
    the smaller of the chunk's end offset [k * chunk_size] and [total],
    for a chunk that starts below [total]. *)
Definition chunk_end (total v : Z) : Prop :=
  exists k, 0 < k /\ (k - 1) * chunk_size < total /\ v = Z.min (k * chunk_size) total.

(** An assignment to the job that leaves its id and its two row counts
    alone. *)
Definition keeps_rows (f : ImportJob.t -> ImportJob.t) : Prop :=
  forall j,
    ImportJob.id (f j) = ImportJob.id j
    /\ ImportJob.total_rows (f j) = ImportJob.total_rows j
    /\ ImportJob.processed_rows (f j) = ImportJob.processed_rows j.

(** A job id as [uuid.uuid4()] prints it, and a job table that always
    shows the job [pending]. *)
Definition sample_uuid : string := "0f8fad5b-d9cb-469f-a165-70867728950e".

Definition stalled_table : nat -> gmap string ImportJob.t :=
  fun _ => {[sample_uuid := new_job sample_uuid]}.

(** The world after [import_products] staged the three rows of
    [dup_table] for the job [sample_uuid]. *)
Definition uuid_world : World :=
  {| db := {| import_jobs := {[sample_uuid := new_job sample_uuid]};
              products := [];
              webhooks := sample_hooks;
              session_job := None;
              session_products := [];
              db_ops := 0;
              job_trace := [] |};
     sys := {| files := {["temp_uploads/0f8fad5b-d9cb-469f-a165-70867728950e.csv"
                          := Parsed dup_table]};
               celery_queue := [];
               outbox := [];
               log := [] |} |}.

(** * main.py: the upload and the product and webhook routes *)

(** ** import_products *)

(** [s.endswith(suffix)] *)
Definition py_endswith (s suffix : string) : bool :=
  (String.length suffix <=? String.length s)%nat
  && (substring (String.length s - String.length suffix) (String.length suffix) s
      =? suffix)%string.

Definition put_import_jobs (jobs : gmap string ImportJob.t) (d : Db) : Db :=
  {| import_jobs := jobs; products := products d;
     webhooks := webhooks d; session_job := session_job d;
     session_products := session_products d;
     db_ops := db_ops d; job_trace := job_trace d |}.

(** [db.add(job); db.commit()] on the request's session (lines 71-73).
    The id is the primary key: a second row with it is refused. *)
Definition add_job (env : Env) (job : ImportJob.t) : M unit :=
  fun w =>
    let w' := with_db bump w in
    match db_fault env (db_ops (db w)) with
    | Some msg => (Raise (SQLAlchemyError msg), w')
    | None =>
        match import_jobs (db w) !! ImportJob.id job with
        | Some _ =>
            (Raise (SQLAlchemyError "UNIQUE constraint failed: import_jobs.id"), w')
        | None =>
            (Ok tt,
             with_db (fun d => put_import_jobs
                                 (<[ImportJob.id job := job]> (import_jobs d)) d) w')
        end
    end.

(** Lines 76-85: the upload is written under [file_path].  [content] is
    what [pd.read_csv] will make of the bytes.  [write_fault] is the
    [OSError] of [os.makedirs], [open] or [write], if any, with what the
    failed write has left under the path: nothing, or a truncated file. *)
Definition stage_file (write_fault : option (string * option read_result))
    (file_path : string) (content : read_result) : M unit :=
  match write_fault with
  | Some (msg, None) => raise (OSError msg)
  | Some (msg, Some truncated) =>
      modify (with_sys (fun s => put_files (<[file_path := truncated]> (files s)) s)) ;;
      raise (OSError msg)
  | None => modify (with_sys (fun s => put_files (<[file_path := content]> (files s)) s))
  end.

(** [os.path.join("temp_uploads", f"{job_id}.csv")] *)
Definition upload_path (job_id : string) : string :=
  "temp_uploads/" ++ job_id ++ ".csv".

(** Lines 60-100.  [job_id] is [str(uuid.uuid4())].  The body returned is
    the job id; the second component is the call the thread was started
    with.  An exception that leaves the handler is a [Raise]. *)
Definition import_products (env : Env)
    (write_fault : option (string * option read_result)) (job_id filename : string) (content : read_result)
    : M (response string * option (string * string)) :=
  if negb (py_endswith filename ".csv") then
    ret (HTTPException 400 "Only CSV files are allowed", None)
  else
    add_job env (new_job job_id) ;;
    let file_path := upload_path job_id in
    stage_file write_fault file_path content ;;
    ret (Returned job_id, Some (job_id, file_path)).

(** The request and then its thread, run to the end: what the upload
    leaves behind once the import has returned. *)
Definition upload_and_run (env : Env)
    (write_fault : option (string * option read_result)) (job_id filename : string) (content : read_result)
    : World -> option outcome * World :=
  fun w =>
    match import_products env write_fault job_id filename content w with
    | (Ok (_, Some (job, file_path)), w1) =>
        let '(o, w2) := process_csv_import_sync env job file_path w1 in (Some o, w2)
    | (Ok (_, None), w1) => (None, w1)
    | (Raise _, w1) => (None, w1)
    end.

(** ** The product routes *)

(** The product and webhook routes are modelled as functions of the
    committed table, for a database that answers the handler's calls: a
    call that raises leaves the handler as an unhandled exception, and the
    request's session is closed without a commit. *)

(** What [constr(strip_whitespace=True, min_length=1, max_length=n)]
    lets through. *)
Definition constr_ok (max_length : nat) (s : string) : Prop :=
  Py.strip s = s /\ s <> EmptyString /\ (Py.len s <= max_length)%nat.

Definition create_ok (product : ProductCreate.t) : Prop :=
  constr_ok 100 (ProductCreate.sku product) /\ constr_ok 255 (ProductCreate.name product).

Definition update_ok (product_update : ProductUpdate.t) : Prop :=
  (forall s, ProductUpdate.sku product_update = Some s -> constr_ok 100 s)
  /\ (forall s, ProductUpdate.name product_update = Some s -> constr_ok 255 s).

(** [.filter(func.lower(Product.sku) == sku_lower).first()] *)
Definition row_by_sku (sku_lower : string) (table : list ProductRow.t)
    : option ProductRow.t :=
  List.find (fun r => (Py.lower (ProductRow.sku r) =? sku_lower)%string) table.

(** [.filter(Product.id == product_id).first()] *)
Definition row_by_id (product_id : Z) (table : list ProductRow.t) : option ProductRow.t :=
  List.find (fun r => ProductRow.id r =? product_id) table.

(** The rows of the table as the import sees them. *)
Definition catalog (table : list ProductRow.t) : list Product.t :=
  map ProductRow.product table.

Definition ids (table : list ProductRow.t) : list Z := map ProductRow.id table.

(** Lines 184-211.  [new_id] is the key the database assigns to the new
    row, [now] its clock. *)
Definition create_product (now new_id : Z) (product : ProductCreate.t)
    (table : list ProductRow.t) : response (Z * string * string) * list ProductRow.t :=
  let sku_lower := Py.lower (Py.strip (ProductCreate.sku product)) in
  match row_by_sku sku_lower table with
  | Some _ =>
      (HTTPException 400
         ("Product with SKU '" ++ ProductCreate.sku product ++ "' already exists"),
       table)
  | None =>
      let new_product :=
        ProductRow.mk new_id
          (Product.mk (Py.strip (ProductCreate.sku product))
             (Py.strip (ProductCreate.name product))
             (match ProductCreate.description product with
              | Some d => if (d =? EmptyString)%string then EmptyString else Py.strip d
              | None => EmptyString
              end)
             (ProductCreate.active product) None)
          (Some now) in
      (Returned (new_id, ProductRow.sku new_product,
                 Product.name (ProductRow.product new_product)),
       (table ++ [new_product])%list)
  end.

(** Lines 213-227. *)
Definition get_product (product_id : Z) (table : list ProductRow.t)
    : response ProductRow.t :=
  match row_by_id product_id table with
  | Some product => Returned product
  | None => HTTPException 404 "Product not found"
  end.

(** Lines 241-248: the row that stands in the way of the new sku, if the
    update names one that differs from the current one. *)
Definition sku_conflict (product_id : Z) (product_update : ProductUpdate.t)
    (product : ProductRow.t) (table : list ProductRow.t) : option ProductRow.t :=
  match ProductUpdate.sku product_update with
  | Some s =>
      if negb (s =? EmptyString)%string
         && negb (Py.lower (Py.strip s) =? Py.lower (ProductRow.sku product))%string
      then
        List.find
          (fun r => (Py.lower (ProductRow.sku r) =? Py.lower (Py.strip s))%string
                    && negb (ProductRow.id r =? product_id))
          table
      else None
  | None => None
  end.

(** Lines 251-260: the assignments to the loaded row. *)
Definition apply_update (now : Z) (product_update : ProductUpdate.t)
    (r : ProductRow.t) : ProductRow.t :=
  let p := ProductRow.product r in
  ProductRow.mk (ProductRow.id r)
    (Product.mk
       (match ProductUpdate.sku product_update with
        | Some s => Py.strip s
        | None => Product.sku p
        end)
       (match ProductUpdate.name product_update with
        | Some s => Py.strip s
        | None => Product.name p
        end)
       (match ProductUpdate.description product_update with
        | Some s => Py.strip s
        | None => Product.description p
        end)
       (match ProductUpdate.active product_update with
        | Some b => b
        | None => Product.active p
        end)
       (Some now))
    (ProductRow.created_at r).

(** Lines 229-264.  The UPDATE goes by the primary key of the loaded
    row. *)
Definition update_product (now product_id : Z) (product_update : ProductUpdate.t)
    (table : list ProductRow.t) : response Z * list ProductRow.t :=
  match row_by_id product_id table with
  | None => (HTTPException 404 "Product not found", table)
  | Some product =>
      match sku_conflict product_id product_update product table with
      | Some _ =>
          (HTTPException 400
             ("Product with SKU '"
              ++ match ProductUpdate.sku product_update with
                 | Some s => s
                 | None => EmptyString
                 end
              ++ "' already exists"),
           table)
      | None =>
          (Returned (ProductRow.id product),
           map (fun r => if ProductRow.id r =? product_id
                         then apply_update now product_update r else r) table)
      end
  end.

(** Lines 266-279.  The DELETE goes by the primary key. *)
Definition delete_product (product_id : Z) (table : list ProductRow.t)
    : response unit * list ProductRow.t :=
  match row_by_id product_id table with
  | None => (HTTPException 404 "Product not found", table)
  | Some _ =>
      (Returned tt, List.filter (fun r => negb (ProductRow.id r =? product_id)) table)
  end.

(** Lines 281-290: the body is the count. *)
Definition bulk_delete_products (table : list ProductRow.t)
    : response Z * list ProductRow.t :=
  (Returned (Z.of_nat (length table)), []).

(** ** get_products *)

Section Listing.
(** The database's [ILIKE] of a pattern and a column value, and the order
    in which it returns a result set under [ORDER BY created_at DESC]. *)
Variable ilike : string -> string -> bool.
Variable newest_first : list ProductRow.t -> list ProductRow.t.

(** Lines 151-162: the two filters. *)
Definition select (search active : option string) (table : list ProductRow.t)
    : list ProductRow.t :=
  let query := table in
  let query :=
    match search with
    | Some s =>
        if (s =? EmptyString)%string then query
        else
          let search_term := "%" ++ s ++ "%" in
          List.filter
            (fun r =>
               ilike search_term (ProductRow.sku r)
               || ilike search_term (Product.name (ProductRow.product r))
               || ilike search_term (Product.description (ProductRow.product r)))
            query
    | None => query
    end in
  match active with
  | Some a =>
      if (a =? EmptyString)%string || (a =? "all")%string then query
      else
        List.filter
          (fun r => Bool.eqb (Product.active (ProductRow.product r)) (a =? "true")%string)
          query
  | None => query
  end.

Record Page : Type := {
  pg_products : list ProductRow.t;
  pg_total : Z;
  pg_page : Z;
  pg_per_page : Z;
  pg_total_pages : Z
}.

(** Lines 142-182. *)
Definition get_products (page per_page : Z) (search active : option string)
    (table : list ProductRow.t) : Page :=
  let query := select search active table in
  let total := Z.of_nat (length query) in
  let products :=
    take (Z.to_nat per_page)
      (drop (Z.to_nat ((page - 1) * per_page)) (newest_first query)) in
  {| pg_products := products;
     pg_total := total;
     pg_page := page;
     pg_per_page := per_page;
     pg_total_pages := if 0 <? total then (total + per_page - 1) / per_page else 0 |}.

End Listing.

(** ** The webhook routes *)

Definition webhook_by_id (webhook_id : Z) (table : list WebhookRow.t)
    : option WebhookRow.t :=
  List.find (fun r => WebhookRow.id r =? webhook_id) table.

(** The webhook table as the dispatch sees it. *)
Definition hooks (table : list WebhookRow.t) : list Webhook.t :=
  map WebhookRow.webhook table.

(** Lines 325-339. *)
Definition create_webhook (now new_id : Z) (webhook : WebhookCreate.t)
    (table : list WebhookRow.t) : response Z * list WebhookRow.t :=
  let new_webhook :=
    WebhookRow.mk new_id
      (Webhook.mk (WebhookCreate.url webhook) (WebhookCreate.event_type webhook)
         (WebhookCreate.enabled webhook))
      (Some now) in
  (Returned new_id, (table ++ [new_webhook])%list).

Definition apply_webhook_update (webhook_update : WebhookUpdate.t) (r : WebhookRow.t)
    : WebhookRow.t :=
  let h := WebhookRow.webhook r in
  WebhookRow.mk (WebhookRow.id r)
    (Webhook.mk
       (match WebhookUpdate.url webhook_update with
        | Some u => u
        | None => Webhook.url h
        end)
       (match WebhookUpdate.event_type webhook_update with
        | Some e => e
        | None => Webhook.event_type h
        end)
       (match WebhookUpdate.enabled webhook_update with
        | Some b => b
        | None => Webhook.enabled h
        end))
    (WebhookRow.created_at r).

(** Lines 341-363. *)
Definition update_webhook (webhook_id : Z) (webhook_update : WebhookUpdate.t)
    (table : list WebhookRow.t) : response Z * list WebhookRow.t :=
  match webhook_by_id webhook_id table with
  | None => (HTTPException 404 "Webhook not found", table)
  | Some webhook =>
      (Returned (WebhookRow.id webhook),
       map (fun r => if WebhookRow.id r =? webhook_id
                     then apply_webhook_update webhook_update r else r) table)
  end.

(** Lines 365-378. *)
Definition delete_webhook (webhook_id : Z) (table : list WebhookRow.t)
    : response unit * list WebhookRow.t :=
  match webhook_by_id webhook_id table with
  | None => (HTTPException 404 "Webhook not found", table)
  | Some _ =>
      (Returned tt, List.filter (fun r => negb (WebhookRow.id r =? webhook_id)) table)
  end.

Definition put_webhooks (whs : list Webhook.t) (d : Db) : Db :=
  {| import_jobs := import_jobs d; products := products d;
     webhooks := whs; session_job := session_job d;
     session_products := session_products d;
     db_ops := db_ops d; job_trace := job_trace d |}.

Definition put_products (ps : list Product.t) (d : Db) : Db :=
  {| import_jobs := import_jobs d; products := ps;
     webhooks := webhooks d; session_job := session_job d;
     session_products := session_products d;
     db_ops := db_ops d; job_trace := job_trace d |}.

(** Two products, and requests on them. *)
Definition sample_rows : list ProductRow.t :=
  [ProductRow.mk 1 (Product.mk "TEST-001" "Test Product" "Test Description" true None)
     (Some 1690000000);
   ProductRow.mk 2 (Product.mk "Test-002" "Other Product" EmptyString false None)
     (Some 1690000001)].

Definition sample_create (sku : string) : ProductCreate.t :=
  ProductCreate.mk sku "New Product" (Some " fresh ") true.

Definition sample_rename (sku : string) : ProductUpdate.t :=
  ProductUpdate.mk (Some sku) None None None.

(** DUP-001 then dup-001: two valid rows with one key. *)
Definition pair_table : DataFrame :=
  {| columns := ["sku"; "name"];
     rows := [sample_row "DUP-001" "First"; sample_row "dup-001" "Second"] |}.

(** Runs of the task one after the other, in the order of the list: each
    run (its environment, its job id and the path of its file) starts on
    the world that the run before it left, and no other session writes in
    between. *)
Fixpoint run_serially (runs : list (Env * string * string)) (w : World) : World :=
  match runs with
  | [] => w
  | (env, job_id, file_path) :: rest =>
      run_serially rest (snd (process_csv_import_sync env job_id file_path w))
  end.

(** * Properties *)

Arguments commit : simpl never.
Arguments session_call : simpl never.
Arguments validate_row : simpl never.
Arguments upsert : simpl never.
Arguments Py.str_int : simpl never.
Arguments Py.str_int_comma : simpl never.
Arguments Z.add : simpl never.
Arguments Z.sub : simpl never.
Arguments Z.modulo : simpl never.
Arguments Z.min : simpl never.

(** ** Strings *)




(** ** One row, case by case *)

Section RowCases.
Variable env : Env.

Lemma process_row_rejected idx row c w msg :
  validate_row idx row = Rejected msg ->
  process_row env idx row c w = (Ok (record_error msg 1 c), w).
Proof. intros H. unfold process_row, catch. rewrite H. reflexivity. Qed.

Lemma process_row_lookup_raises idx row c w sku name description msg :
  validate_row idx row = Accepted sku name description ->
  db_fault env (db_ops (db w)) = Some msg ->
  process_row env idx row c w =
    (Ok (record_error (lookup_error_line idx row (SQLAlchemyError msg)) 1 c),
     with_db bump w).
Proof.
  intros H F. unfold process_row, catch, bind. rewrite H.
  unfold session_call. rewrite F. reflexivity.
Qed.

Lemma process_row_no_checkpoint idx row c w sku name description ps' c' :
  validate_row idx row = Accepted sku name description ->
  db_fault env (db_ops (db w)) = None ->
  upsert (utcnow env) sku name description (session_products (db w)) c = (ps', c') ->
  processed_count c' mod 50 <> 0 ->
  process_row env idx row c w = (Ok c', after_upsert ps' w).
Proof.
  intros H F U N. unfold process_row, catch, bind. rewrite H.
  unfold session_call. rewrite F. cbn [gets modify with_db db bump session_products].
  rewrite U. apply Z.eqb_neq in N. rewrite N. reflexivity.
Qed.

Lemma process_row_checkpoint idx row c w sku name description ps' c' :
  validate_row idx row = Accepted sku name description ->
  db_fault env (db_ops (db w)) = None ->
  upsert (utcnow env) sku name description (session_products (db w)) c = (ps', c') ->
  processed_count c' mod 50 = 0 ->
  process_row env idx row c w =
    match db_fault env (S (db_ops (db w))) with
    | None => (Ok c', with_db (fun d => persist (bump d)) (after_upsert ps' w))
    | Some msg =>
        (Ok (record_error (checkpoint_error_line idx (SQLAlchemyError msg)) 1 c'),
         with_db revert (with_db (fun d => revert (bump d)) (after_upsert ps' w)))
    end.
Proof.
  intros H F U N. unfold process_row, catch, bind. rewrite H.
  unfold session_call. rewrite F. cbn [gets modify with_db db bump session_products].
  rewrite U. apply Z.eqb_eq in N. rewrite N.
  unfold commit. cbn [db with_db put_session_products bump db_ops].
  destruct (db_fault env (S (db_ops (db w)))); reflexivity.
Qed.

End RowCases.

(** The body of the row loop never raises, and it takes one of the five
    ways. *)
Lemma process_row_step env idx row c w :
  exists c' w', process_row env idx row c w = (Ok c', w') /\ row_step env idx row c w c' w'.
Proof.
  destruct (validate_row idx row) as [msg | sku name description] eqn:V.
  - eexists _, _. split; [eapply process_row_rejected; eauto | econstructor; eauto].
  - destruct (db_fault env (db_ops (db w))) as [msg|] eqn:F.
    + eexists _, _. split; [eapply process_row_lookup_raises; eauto | econstructor 2; eauto].
    + destruct (upsert (utcnow env) sku name description (session_products (db w)) c)
        as [ps' c'] eqn:U.
      destruct (Z.eq_dec (processed_count c' mod 50) 0) as [N | N].
      * pose proof (process_row_checkpoint env idx row c w _ _ _ _ _ V F U N) as E.
        destruct (db_fault env (S (db_ops (db w)))) as [msg|] eqn:F2.
        -- eexists _, _. split; [exact E | econstructor 5; eauto].
        -- eexists _, _. split; [exact E | econstructor 4; eauto].
      * eexists _, _. split; [eapply process_row_no_checkpoint; eauto | econstructor 3; eauto].
Qed.

(** ** C5: row validation *)








(** ** C3: upsert by case-insensitive sku *)

Section Upsert.
Variables (now : Z) (name description : string).

Let touched (p : Product.t) : Product.t :=
  Product.mk (Product.sku p) name description (Product.active p) (Some now).

Lemma first_by_sku_none key ps :
  first_by_sku (Py.lower key) ps = None <-> count_sku key ps = 0%nat.
Proof.
  unfold first_by_sku, count_sku. induction ps as [|p ps IH]; simpl; [tauto|].
  destruct (Py.lower (Product.sku p) =? Py.lower key)%string; simpl; [split; discriminate | exact IH].
Qed.

Lemma first_by_sku_split key ps p :
  first_by_sku key ps = Some p ->
  exists before after,
    ps = (before ++ p :: after)%list
    /\ first_by_sku key before = None
    /\ Py.lower (Product.sku p) = key.
Proof.
  unfold first_by_sku. induction ps as [|q ps IH]; simpl; [discriminate|].
  destruct (Py.lower (Product.sku q) =? key)%string eqn:E.
  - intros [= ->]. exists [], ps. apply String.eqb_eq in E. auto.
  - intros H. destruct (IH H) as (b & a & -> & Hb & Hk).
    exists (q :: b), a. simpl. rewrite E. auto.
Qed.

Lemma update_first_split key before p after :
  first_by_sku key before = None ->
  Py.lower (Product.sku p) = key ->
  update_first key name description now (before ++ p :: after)
  = (before ++ touched p :: after)%list.
Proof.
  unfold first_by_sku. intros Hb Hp. induction before as [|q b IH]; simpl in *.
  - rewrite Hp, String.eqb_refl. reflexivity.
  - destruct (Py.lower (Product.sku q) =? key)%string; [discriminate|].
    rewrite IH by assumption. reflexivity.
Qed.

Lemma count_sku_app key ps qs :
  count_sku key (ps ++ qs) = (count_sku key ps + count_sku key qs)%nat.
Proof. unfold count_sku. rewrite List.filter_app, length_app. reflexivity. Qed.

Lemma count_sku_touched key p rest :
  count_sku key (touched p :: rest) = count_sku key (p :: rest).
Proof.
  unfold count_sku. simpl.
  destruct (Py.lower (Product.sku p) =? Py.lower key)%string; reflexivity.
Qed.

Lemma first_by_sku_app_none key ps qs :
  first_by_sku key ps = None ->
  first_by_sku key (ps ++ qs) = first_by_sku key qs.
Proof.
  unfold first_by_sku. induction ps as [|p ps IH]; simpl; [reflexivity|].
  destruct (Py.lower (Product.sku p) =? key)%string; [discriminate | exact IH].
Qed.

(** A found record is updated in place. *)
Lemma upsert_found sku ps c p :
  first_by_sku (Py.lower sku) ps = Some p ->
  exists before after,
    ps = (before ++ p :: after)%list
    /\ first_by_sku (Py.lower sku) before = None
    /\ upsert now sku name description ps c
       = ((before ++ touched p :: after)%list, count_updated c).
Proof.
  intros H. destruct (first_by_sku_split _ _ _ H) as (b & a & -> & Hb & Hp).
  exists b, a. repeat split; auto.
  unfold upsert. rewrite H. rewrite update_first_split by assumption. reflexivity.
Qed.

(** A key that is not there is created, as it was written. *)
Lemma upsert_missing sku ps c :
  first_by_sku (Py.lower sku) ps = None ->
  upsert now sku name description ps c
  = ((ps ++ [Product.mk sku name description true None])%list, count_created c).
Proof. intros H. unfold upsert. rewrite H. reflexivity. Qed.

(** After the upsert the key is there, with the row's values. *)
Lemma upsert_lookup sku ps c :
  exists p,
    first_by_sku (Py.lower sku) (fst (upsert now sku name description ps c)) = Some p
    /\ Product.name p = name /\ Product.description p = description
    /\ (first_by_sku (Py.lower sku) ps = None ->
        p = Product.mk sku name description true None)
    /\ (forall q, first_by_sku (Py.lower sku) ps = Some q -> p = touched q).
Proof.
  destruct (first_by_sku (Py.lower sku) ps) as [q|] eqn:F.
  - destruct (upsert_found sku ps c q F) as (b & a & -> & Hb & ->).
    destruct (first_by_sku_split _ _ _ F) as (b' & a' & _ & _ & Hq).
    exists (touched q). simpl. rewrite first_by_sku_app_none by assumption.
    unfold first_by_sku. simpl. rewrite Hq, String.eqb_refl.
    split; [reflexivity|]. split; [reflexivity|]. split; [reflexivity|].
    split; [discriminate | intros ? [= <-]; reflexivity].
  - rewrite upsert_missing by assumption. simpl.
    exists (Product.mk sku name description true None).
    rewrite first_by_sku_app_none by assumption.
    unfold first_by_sku. simpl. rewrite String.eqb_refl.
    split; [reflexivity|]. split; [reflexivity|]. split; [reflexivity|].
    split; [reflexivity | discriminate].
Qed.

(** The number of records under the key: one if there was none, the same
    otherwise. *)
Lemma upsert_count sku ps c :
  count_sku sku (fst (upsert now sku name description ps c))
  = Nat.max 1 (count_sku sku ps).
Proof.
  destruct (first_by_sku (Py.lower sku) ps) as [q|] eqn:F.
  - destruct (upsert_found sku ps c q F) as (b & a & -> & Hb & ->). simpl.
    rewrite !count_sku_app, count_sku_touched.
    destruct (first_by_sku_split _ _ _ F) as (_ & _ & _ & _ & Hq).
    assert (1 <= count_sku sku (q :: a))%nat.
    { unfold count_sku. simpl. rewrite Hq, String.eqb_refl. simpl. lia. }
    lia.
  - rewrite upsert_missing by assumption. simpl.
    rewrite count_sku_app. apply first_by_sku_none in F. rewrite F.
    unfold count_sku. simpl. rewrite String.eqb_refl. reflexivity.
Qed.

End Upsert.

Lemma count_sku_lower key key' ps :
  Py.lower key = Py.lower key' -> count_sku key ps = count_sku key' ps.
Proof. unfold count_sku. intros ->. reflexivity. Qed.

(** The upsert looks the sku up without regard to case.  A record that
    is found keeps its place and its sku and takes the row's name and
    description and the current time, and the row is counted as updated;
    otherwise a record is added with the sku as written, and the row is
    counted as created.  Hence a second row with the same key, in whatever
    case, is counted as updated, leaves one record under the key where
    there was at most one, and that record carries the second row's
    values; on a table without the key the two rows count one created and
    one updated. *)
Lemma upsert_by_key (now : Z) (sku name description : string)
    (ps : list Product.t) (c : Counters) :
  (forall p, first_by_sku (Py.lower sku) ps = Some p ->
     exists before after,
       ps = (before ++ p :: after)%list
       /\ first_by_sku (Py.lower sku) before = None
       /\ upsert now sku name description ps c
          = ((before ++ Product.mk (Product.sku p) name description
                          (Product.active p) (Some now) :: after)%list,
             count_updated c))
  /\ (first_by_sku (Py.lower sku) ps = None ->
      upsert now sku name description ps c
      = ((ps ++ [Product.mk sku name description true None])%list, count_created c))
  /\ (forall now2 sku2 name2 description2,
        Py.lower sku2 = Py.lower sku ->
        let first := upsert now sku name description ps c in
        let second := upsert now2 sku2 name2 description2 (fst first) (snd first) in
        updated_count (snd second) = updated_count (snd first) + 1
        /\ created_count (snd second) = created_count (snd first)
        /\ processed_count (snd second) = processed_count (snd first) + 1
        /\ ((count_sku sku ps <= 1)%nat -> count_sku sku (fst second) = 1%nat))
  /\ (forall now2 sku2 name2 description2,
        Py.lower sku2 = Py.lower sku ->
        count_sku sku ps = 0%nat ->
        let first := upsert now sku name description ps c in
        let second := upsert now2 sku2 name2 description2 (fst first) (snd first) in
        created_count (snd second) = created_count c + 1
        /\ updated_count (snd second) = updated_count c + 1
        /\ count_sku sku (fst second) = 1%nat
        /\ first_by_sku (Py.lower sku) (fst second)
           = Some (Product.mk sku name2 description2 true (Some now2))).
Proof.
  split; [|split; [|split]].
  - intros p H. apply upsert_found, H.
  - apply upsert_missing.
  - intros now2 sku2 name2 description2 Hk first second.
    destruct (upsert_lookup now name description sku ps c) as (p & Hp & _).
    fold first in Hp. rewrite <- Hk in Hp.
    destruct (upsert_found now2 name2 description2 sku2 (fst first) (snd first) p Hp)
      as (b & a & _ & _ & E).
    assert (Hc : (count_sku sku ps <= 1)%nat -> count_sku sku (fst second) = 1%nat).
    { intros Hle. subst second.
      rewrite (count_sku_lower sku sku2) by auto.
      rewrite upsert_count. rewrite <- (count_sku_lower sku sku2) by auto.
      subst first. rewrite upsert_count. lia. }
    subst second. rewrite E in *. simpl.
    split; [reflexivity|]. split; [reflexivity|]. split; [reflexivity|]. exact Hc.
  - intros now2 sku2 name2 description2 Hk H0 first second.
    pose proof H0 as Hnone. apply first_by_sku_none in Hnone.
    assert (Ef : first = ((ps ++ [Product.mk sku name description true None])%list,
                          count_created c)).
    { subst first. apply upsert_missing, Hnone. }
    assert (Hp : first_by_sku (Py.lower sku2) (fst first)
                 = Some (Product.mk sku name description true None)).
    { rewrite Ef, Hk. simpl. rewrite first_by_sku_app_none by assumption.
      unfold first_by_sku. simpl. rewrite String.eqb_refl. reflexivity. }
    destruct (upsert_found now2 name2 description2 sku2 (fst first) (snd first) _ Hp)
      as (b & a & Hsplit & Hb & E).
    assert (b = ps /\ a = []) as [-> ->].
    { rewrite Ef in Hsplit. simpl in Hsplit.
      rewrite Hk in Hb.
      clear - Hsplit Hb Hnone.
      revert b Hsplit Hb. induction ps as [|q qs IH]; intros b Hsplit Hb.
      - destruct b as [|x b]; simpl in *.
        + inversion Hsplit. auto.
        + inversion Hsplit as [[Hx Hrest]]. subst x.
          unfold first_by_sku in Hb. simpl in Hb. rewrite String.eqb_refl in Hb. discriminate.
      - destruct b as [|x b]; simpl in *.
        + inversion Hsplit as [[Hq Hrest]]. subst q.
          unfold first_by_sku in Hnone. simpl in Hnone.
          rewrite String.eqb_refl in Hnone. discriminate.
        + inversion Hsplit as [[Hq Hrest]]. subst x.
          unfold first_by_sku in Hnone, Hb. simpl in Hnone, Hb.
          destruct (Py.lower (Product.sku q) =? Py.lower sku)%string; [discriminate|].
          destruct (IH Hnone b Hrest Hb) as [-> ->]. auto. }
    subst second. rewrite E. rewrite Ef. simpl.
    split; [reflexivity|]. split; [reflexivity|]. split.
    + rewrite count_sku_app, H0. unfold count_sku. simpl.
      rewrite String.eqb_refl. reflexivity.
    + rewrite first_by_sku_app_none by assumption.
      unfold first_by_sku. simpl. rewrite String.eqb_refl. reflexivity.
Qed.

(** ** C9: the progress stream *)

Section ProgressStream.
Variable table_at : nat -> gmap string ImportJob.t.
Variable poll_fault : nat -> option string.
Variable job_id : string.

Lemma poll_bounded remaining k :
  let '(evs, n, _) := poll table_at poll_fault job_id remaining k in
  (length evs <= remaining)%nat /\ (n <= remaining)%nat
  /\ forall i ev,
       evs !! i = Some ev -> shows_terminal ev = true -> S i = length evs.
Proof.
  revert k. induction remaining as [|r IH]; intros k; simpl.
  - repeat split; auto. intros i ev H. destruct i; discriminate.
  - destruct (poll_fault k).
    + simpl. repeat split; try lia. intros i ev H. destruct i; discriminate.
    + destruct (table_at k !! job_id) as [job|].
      * destruct (is_terminal (ImportJob.status job)) eqn:T.
        -- simpl. repeat split; try lia.
           intros [|i] ev H _; [reflexivity | destruct i; discriminate].
        -- specialize (IH (S k)).
           destruct (poll table_at poll_fault job_id r (S k)) as [[evs n] err].
           destruct IH as (Hl & Hn & Hlast). simpl. repeat split; try lia.
           intros [|i] ev H Hterm.
           ++ simpl in H. inversion H; subst. simpl in Hterm. congruence.
           ++ simpl in H. f_equal. eapply Hlast; eauto.
      * simpl. repeat split; try lia.
        intros [|i] ev H Hterm; [|destruct i; discriminate].
        inversion H; subst. discriminate.
Qed.

(** C9.  An identifier that is empty or not 36 characters long gets the
    single event "invalid_id" and no lookup is made.  For any other
    identifier the stream yields at most 600 events from at most 600
    lookups, and an event that shows a terminal status is the last
    one. *)
Theorem C9_progress_stream :
  (job_id = EmptyString \/ Py.len job_id <> 36%nat ->
   event_generator table_at poll_fault job_id = ([InvalidId], O, None))
  /\ (Py.len job_id = 36%nat ->
      let '(evs, lookups, _) := event_generator table_at poll_fault job_id in
      (length evs <= 600)%nat /\ (lookups <= 600)%nat
      /\ forall i ev,
           evs !! i = Some ev -> shows_terminal ev = true -> S i = length evs).
Proof.
  split.
  - intros H. unfold event_generator.
    destruct (job_id =? EmptyString)%string eqn:E; [reflexivity|].
    destruct H as [-> | H]; [discriminate|].
    apply Nat.eqb_neq in H. rewrite H. reflexivity.
  - intros H. unfold event_generator.
    destruct (job_id =? EmptyString)%string eqn:E.
    + apply String.eqb_eq in E. subst. discriminate.
    + apply Nat.eqb_eq in H. rewrite H. cbn [negb orb]. exact (poll_bounded 600 0).
Qed.

End ProgressStream.

(** ** Webhook fan-out *)

Section FanOut.
Variable env : Env.

(** The loop posts to every listener it can reach, whatever happens with
    the others, logs the rest, and does not raise. *)
Lemma deliver_spec event_type payload whs w :
  deliver env event_type payload whs w
  = (Ok tt,
     {| db := db w;
        sys := {| files := files (sys w);
                  celery_queue := celery_queue (sys w);
                  outbox := outbox (sys w) ++ deliveries env event_type payload whs;
                  log := log (sys w) ++ failure_lines env whs |} |}).
Proof.
  revert w. induction whs as [|wh whs IH]; intros w.
  - simpl. unfold ret, deliveries, failure_lines. simpl. rewrite !app_nil_r.
    destruct w as [d []]; reflexivity.
  - cbn [deliver]. unfold bind at 1. unfold catch, post, deliveries, failure_lines, reachable.
    cbn [List.filter flat_map]. fold (failure_lines env whs).
    destruct (post_fault env (Webhook.url wh)) as [msg|] eqn:F.
    + unfold raise, logger, modify. rewrite IH. cbn [db sys with_sys push_log files celery_queue outbox log].
      unfold deliveries. rewrite <- app_assoc. reflexivity.
    + unfold modify. rewrite IH. cbn [db sys with_sys push_outbox files celery_queue outbox log map].
      unfold deliveries. rewrite <- app_assoc. reflexivity.
Qed.

(** [trigger_webhooks_sync] does not raise and leaves every table, the
    staged files and the broker queue as they are. *)
Lemma trigger_webhooks_sync_spec event_type payload w :
  exists s',
    trigger_webhooks_sync env event_type payload w
    = (Ok tt, {| db := bump (db w); sys := s' |})
    /\ files s' = files (sys w)
    /\ celery_queue s' = celery_queue (sys w)
    /\ match db_fault env (db_ops (db w)) with
       | None =>
           outbox s'
           = (outbox (sys w)
              ++ deliveries env event_type payload
                   (listeners event_type (webhooks (db w))))%list
           /\ log s'
              = (log (sys w)
                 ++ failure_lines env (listeners event_type (webhooks (db w))))%list
       | Some msg =>
           outbox s' = outbox (sys w)
           /\ log s'
              = (log (sys w) ++ [("ERROR: Error in webhook processing: " ++ msg)%string])%list
       end.
Proof.
  unfold trigger_webhooks_sync, catch, bind, query_webhooks, bind, session_call.
  destruct (db_fault env (db_ops (db w))) as [msg|] eqn:F.
  - eexists. split; [reflexivity|]. simpl. auto.
  - cbn [gets with_db db webhooks bump].
    fold (listeners event_type (webhooks (db w))).
    destruct (listeners event_type (webhooks (db w))) as [|wh whs] eqn:L.
    + eexists. split; [reflexivity|]. simpl.
      unfold deliveries, failure_lines. simpl. rewrite !app_nil_r. auto.
    + rewrite deliver_spec. eexists. split; [reflexivity|]. simpl. auto.
Qed.

End FanOut.

(** ** The job row under commits and rollbacks *)

Lemma job_step_refl j : job_step j j.
Proof. split; [left; reflexivity | lia]. Qed.

Lemma history_ok j0 tr j : history j0 tr j -> job_ok j /\ ImportJob.id j = ImportJob.id j0.
Proof. destruct 1; auto. Qed.

Lemma quiet_refl w : quiet w w.
Proof. split; reflexivity. Qed.

Lemma quiet_trans w1 w2 w3 : quiet w1 w2 -> quiet w2 w3 -> quiet w1 w3.
Proof. intros [A B] [C D]. split; congruence. Qed.

Section JobRow.
Variable env : Env.
Variable j0 : ImportJob.t.

Lemma loaded_set_job j j' f w :
  loaded j0 j j' w ->
  ImportJob.id (f j') = ImportJob.id j' ->
  loaded j0 j (f j')
    (with_db (fun d => put_session_job (option_map f (session_job d)) d) w).
Proof.
  intros (Hs & Hj & Hi & Hi' & Hh) Hf. unfold loaded. simpl. rewrite Hs. simpl.
  repeat split; auto. congruence.
Qed.

Lemma loaded_bump j j' w : loaded j0 j j' w -> loaded j0 j j' (with_db bump w).
Proof. intros H. exact H. Qed.

Lemma loaded_after_upsert j j' ps w :
  loaded j0 j j' w -> loaded j0 j j' (after_upsert ps w).
Proof. intros H. exact H. Qed.

Lemma loaded_revert j j' w : loaded j0 j j' w -> loaded j0 j j (with_db revert w).
Proof.
  intros (Hs & Hj & Hi & Hi' & Hh). unfold loaded. simpl.
  rewrite Hs, Hi', Hj. auto.
Qed.

Lemma loaded_persist j j' w :
  loaded j0 j j' w -> job_step j j' -> job_ok j' ->
  loaded j0 j' j' (with_db persist w).
Proof.
  intros (Hs & Hj & Hi & Hi' & Hh) Hstep Hok. unfold loaded. simpl.
  rewrite Hs, Hi', lookup_insert_eq.
  repeat split; auto. econstructor; eauto.
Qed.

(** A commit either publishes the session's job or, when it raises,
    leaves the row as it was and the session reading it. *)
Lemma commit_loaded j j' w :
  loaded j0 j j' w -> job_step j j' -> job_ok j' ->
  match commit env w with
  | (Ok _, w') => loaded j0 j' j' w' /\ quiet w w'
  | (Raise _, w') => loaded j0 j j w' /\ quiet w w'
  end.
Proof.
  intros H Hstep Hok. unfold commit.
  destruct (db_fault env (db_ops (db w))).
  - split; [|split; reflexivity].
    apply (loaded_revert j j' (with_db bump w)), loaded_bump, H.
  - split; [|split; reflexivity].
    apply (loaded_persist j j' (with_db bump w)); auto.
Qed.

Lemma commit_clean j w :
  loaded j0 j j w ->
  match commit env w with
  | (Ok _, w') => loaded j0 j j w' /\ quiet w w'
  | (Raise _, w') => loaded j0 j j w' /\ quiet w w'
  end.
Proof.
  intros H. apply commit_loaded; auto using job_step_refl.
  destruct H as (_ & _ & _ & _ & Hh). apply (history_ok _ _ _ Hh).
Qed.

(** A row leaves the job row and everything outside the database alone. *)
Lemma row_step_loaded idx row c w c' w' j :
  loaded j0 j j w -> row_step env idx row c w c' w' ->
  loaded j0 j j w' /\ quiet w w'.
Proof.
  intros H S.
  assert (Hok : job_ok j).
  { destruct H as (_ & _ & _ & _ & Hh). apply (history_ok _ _ _ Hh). }
  inversion S; subst; clear S.
  - split; [assumption | split; reflexivity].
  - split; [assumption | split; reflexivity].
  - split; [assumption | split; reflexivity].
  - split; [|split; reflexivity].
    apply (loaded_persist j j (with_db bump (after_upsert ps' w)));
      auto using job_step_refl.
  - split; [|split; reflexivity].
    apply (loaded_revert j j).
    apply (loaded_revert j j (with_db bump (after_upsert ps' w))). assumption.
Qed.

End JobRow.

(** ** The loops *)

Lemma upsert_counters now sku name description ps c ps' c' :
  upsert now sku name description ps c = (ps', c') ->
  processed_count c' = processed_count c + 1
  /\ created_count c' + updated_count c' = created_count c + updated_count c + 1
  /\ error_count c' = error_count c
  /\ errors c' = errors c.
Proof.
  unfold upsert. destruct (first_by_sku _ _); intros [= <- <-]; simpl; repeat split; lia.
Qed.

Lemma row_step_counts_agree env idx row c w c' w' :
  row_step env idx row c w c' w' -> counts_agree c -> counts_agree c'.
Proof.
  unfold counts_agree. intros S H.
  inversion S; subst; clear S; simpl; auto;
    match goal with
    | U : upsert _ _ _ _ _ _ = _ |- _ => apply upsert_counters in U; lia
    end.
Qed.

Section Loops.
Variable env : Env.
Variable j0 : ImportJob.t.

Lemma rows_loop_spec chunk : forall idx c w j,
  loaded j0 j j w ->
  exists c' w',
    rows_loop env idx chunk c w = (Ok c', w')
    /\ loaded j0 j j w' /\ quiet w w'
    /\ (counts_agree c -> counts_agree c').
Proof.
  induction chunk as [|row rest IH]; intros idx c w j H.
  - exists c, w. split; [reflexivity|]. split; [assumption|].
    split; [apply quiet_refl | auto].
  - destruct (process_row_step env idx row c w) as (c1 & w1 & E & S).
    destruct (row_step_loaded env j0 _ _ _ _ _ _ _ H S) as [H1 Q1].
    destruct (IH (idx + 1) c1 w1 j H1) as (c' & w' & E' & H' & Q' & A').
    exists c', w'. cbn [rows_loop]. unfold bind. rewrite E. rewrite E'.
    split; [reflexivity|]. split; [assumption|].
    split; [eapply quiet_trans; eauto|].
    intros A. apply A'. eapply row_step_counts_agree; eauto.
Qed.

Lemma steady_ok total j : steady total j -> job_ok j.
Proof.
  intros (Hs & Ht & Hc & Hp). split; [lia|]. rewrite Hs, Hc. simpl.
  split; [intros [? ?]; discriminate | discriminate].
Qed.

(** One chunk: when it returns, the committed job shows
    [min (i + chunk_size) total] processed rows and is otherwise as it
    was; when the progress commit raises, the job row is as it was. *)
Lemma process_chunk_spec df total i c w j :
  loaded j0 j j w -> steady total j ->
  0 <= i -> ImportJob.processed_rows j <= i ->
  match process_chunk env df total i c w with
  | (Ok c', w') =>
      loaded j0 (ImportJob.set_processed_rows (Z.min (i + chunk_size) total) j)
        (ImportJob.set_processed_rows (Z.min (i + chunk_size) total) j) w'
      /\ quiet w w' /\ (counts_agree c -> counts_agree c')
  | (Raise _, w') => loaded j0 j j w' /\ quiet w w'
  end.
Proof.
  intros H St Hi Hp. unfold process_chunk.
  destruct (rows_loop_spec
              (take (Z.to_nat chunk_size) (drop (Z.to_nat i) (rows df))) i c w j H)
    as (c1 & w1 & E1 & H1 & Q1 & A1).
  unfold bind at 1. rewrite E1.
  set (j' := ImportJob.set_processed_rows (Z.min (i + chunk_size) total) j).
  assert (Hstep : job_step j j').
  { destruct St as (_ & _ & _ & Hr). split; [left; reflexivity|]. simpl.
    unfold chunk_size. lia. }
  assert (Hok : job_ok j').
  { apply (steady_ok total). destruct St as (Hs & Ht & Hc & Hr).
    repeat split; auto; simpl; unfold chunk_size; lia. }
  assert (Last : forall c2 w2,
             loaded j0 j j w2 -> quiet w w2 -> (counts_agree c -> counts_agree c2) ->
             match (set_job (ImportJob.set_processed_rows
                               (Z.min (i + chunk_size) total)) ;;
                    commit env ;; ret c2) w2 with
             | (Ok c', w') =>
                 loaded j0 j' j' w' /\ quiet w w' /\ (counts_agree c -> counts_agree c')
             | (Raise _, w') => loaded j0 j j w' /\ quiet w w'
             end).
  { intros c2 w2 H2 Q2 A2. unfold bind at 1. cbn [set_job modify].
    unfold bind at 1.
    pose proof (loaded_set_job j0 j j
                  (ImportJob.set_processed_rows (Z.min (i + chunk_size) total))
                  w2 H2 eq_refl) as H3. fold j' in H3.
    pose proof (commit_loaded env j0 j j' _ H3 Hstep Hok) as C4.
    match type of C4 with
    | match commit env ?w3 with _ => _ end =>
        assert (Q3 : quiet w2 w3) by (split; reflexivity);
        destruct (commit env w3) as [[[]|e4] w4]
    end; destruct C4 as [H4 Q4]; cbn [ret].
    - split; [assumption|]. split; [|assumption].
      eapply quiet_trans; [exact Q2|]. eapply quiet_trans; eauto.
    - split; [assumption|].
      eapply quiet_trans; [exact Q2|]. eapply quiet_trans; eauto. }
  unfold bind at 1. unfold catch. unfold bind at 1.
  pose proof (commit_clean env j0 j w1 H1) as C2.
  destruct (commit env w1) as [[[]|e2] w2]; destruct C2 as [H2 Q2].
  - (* the chunk commit went through *)
    cbn [ret]. apply Last; auto. eapply quiet_trans; eauto.
  - (* the chunk commit raised: rollback, one error line, go on *)
    unfold bind at 1. cbn [rollback modify ret].
    apply Last.
    + apply (loaded_revert j0 j j), H2.
    + eapply quiet_trans; [exact Q1|]. eapply quiet_trans; [exact Q2|].
      split; reflexivity.
    + intros A. specialize (A1 A). unfold counts_agree in *. simpl. exact A1.
Qed.

(** All chunks: the job row stays in [importing] with its total, and its
    progress never goes back. *)
Lemma chunks_loop_spec df total n : forall i c w j,
  loaded j0 j j w -> steady total j ->
  0 <= i -> ImportJob.processed_rows j <= i ->
  match chunks_loop env df total n i c w with
  | (Ok c', w') =>
      exists j', loaded j0 j' j' w' /\ steady total j' /\ quiet w w'
                 /\ (counts_agree c -> counts_agree c')
  | (Raise _, w') =>
      exists j', loaded j0 j' j' w' /\ steady total j' /\ quiet w w'
  end.
Proof.
  induction n as [|n IH]; intros i c w j H St Hi Hp.
  - simpl. exists j. split; [assumption|]. split; [assumption|].
    split; [apply quiet_refl | auto].
  - cbn [chunks_loop]. unfold bind.
    pose proof (process_chunk_spec df total i c w j H St Hi Hp) as P.
    destruct (process_chunk env df total i c w) as [[c1|e1] w1].
    + destruct P as (H1 & Q1 & A1).
      set (j1 := ImportJob.set_processed_rows (Z.min (i + chunk_size) total) j) in *.
      assert (St1 : steady total j1).
      { destruct St as (Hs & Ht & Hc & Hr). repeat split; auto; simpl;
          unfold chunk_size; lia. }
      assert (Hp1 : ImportJob.processed_rows j1 <= i + chunk_size).
      { simpl. lia. }
      assert (Hi1 : 0 <= i + chunk_size) by (unfold chunk_size; lia).
      specialize (IH (i + chunk_size) c1 w1 j1 H1 St1 Hi1 Hp1).
      destruct (chunks_loop env df total n (i + chunk_size) c1 w1) as [[c2|e2] w2].
      * destruct IH as (j' & H' & St' & Q' & A').
        exists j'. split; [assumption|]. split; [assumption|].
        split; [eapply quiet_trans; eauto | auto].
      * destruct IH as (j' & H' & St' & Q').
        exists j'. split; [assumption|]. split; [assumption|].
        eapply quiet_trans; eauto.
    + destruct P as (H1 & Q1). exists j. auto.
Qed.

End Loops.

(** ** The pipeline, block by block *)

Arguments classify : simpl never.
Arguments chunks_loop : simpl never.
Arguments trigger_webhooks_sync : simpl never.

Lemma quiet_calm w w' : quiet w w' -> calm w w'.
Proof. intros [A B]. unfold calm. rewrite A. auto. Qed.

Lemma calm_refl w : calm w w.
Proof. repeat split. Qed.

Lemma calm_trans w1 w2 w3 : calm w1 w2 -> calm w2 w3 -> calm w1 w3.
Proof. intros (A & B & C & D) (A' & B' & C' & D'). repeat split; congruence. Qed.

Lemma bind_modify {B} (f : World -> World) (k : unit -> M B) w :
  bind (modify f) k w = k tt (f w).
Proof. reflexivity. Qed.

Lemma bind_gets {A B} (f : World -> A) (k : A -> M B) w :
  bind (gets f) k w = k (f w) w.
Proof. reflexivity. Qed.

Lemma bind_ret {A B} (a : A) (k : A -> M B) w : bind (ret a) k w = k a w.
Proof. reflexivity. Qed.

Lemma bind_bind {A B C} (m : M A) (k : A -> M B) (k' : B -> M C) w :
  bind (bind m k) k' w = bind m (fun a => bind (k a) k') w.
Proof. unfold bind. destruct (m w) as [[a|e] w1]; reflexivity. Qed.

Section Blocks.
Variable env : Env.
Variable j0 : ImportJob.t.

(** Status, message and timestamp are written and committed together. *)
Lemma finish_world {A} (st : job_status) (msg : option string) (m : M A) j w :
  session_job (db w) = Some j ->
  (set_job (ImportJob.set_status st) ;;
   set_job (ImportJob.set_error_message msg) ;;
   set_job (ImportJob.set_completed_at (utcnow env)) ;;
   m) w
  = m (with_db (put_session_job
                  (Some (ImportJob.set_completed_at (utcnow env)
                           (ImportJob.set_error_message msg
                              (ImportJob.set_status st j))))) w).
Proof.
  intros Hs. unfold set_job. rewrite !bind_modify.
  unfold with_db, put_session_job. simpl. rewrite Hs. reflexivity.
Qed.

Lemma finish_commit (st : job_status) (msg : option string) j w :
  loaded j0 j j w ->
  status_edge (ImportJob.status j) st = true ->
  is_terminal st = true ->
  match commit env
          (with_db (put_session_job
                      (Some (ImportJob.set_completed_at (utcnow env)
                               (ImportJob.set_error_message msg
                                  (ImportJob.set_status st j))))) w) with
  | (Ok _, w') =>
      exists j', loaded j0 j' j' w' /\ quiet w w'
                 /\ ImportJob.status j' = st
                 /\ ImportJob.error_message j' = msg
                 /\ ImportJob.completed_at j' = Some (utcnow env)
                 /\ ImportJob.total_rows j' = ImportJob.total_rows j
  | (Raise _, w') => loaded j0 j j w' /\ quiet w w'
  end.
Proof.
  intros H Hnt Ht.
  pose proof H as (Hs & Hj & Hi & _ & Hh).
  set (j' := ImportJob.set_completed_at (utcnow env)
               (ImportJob.set_error_message msg (ImportJob.set_status st j))).
  assert (H3 : loaded j0 j j' (with_db (put_session_job (Some j')) w)).
  { unfold loaded. simpl. auto. }
  assert (Hstep : job_step j j').
  { split; [|simpl; lia]. right. exact Hnt. }
  assert (Hok : job_ok j').
  { destruct (history_ok _ _ _ Hh) as [[Hr _] _]. split; [exact Hr|].
    simpl. rewrite Ht. split; eauto. }
  pose proof (commit_loaded env j0 j j' _ H3 Hstep Hok) as C.
  destruct (commit env (with_db (put_session_job (Some j')) w)) as [[[]|e] w'];
    destruct C as [H' Q'].
  - exists j'. split; [assumption|]. split; [|simpl; auto].
    eapply quiet_trans; [|exact Q']. split; reflexivity.
  - split; [assumption|]. eapply quiet_trans; [|exact Q']. split; reflexivity.
Qed.

(** The early exits. *)
Lemma refuse_spec msg j w :
  loaded j0 j j w ->
  status_edge (ImportJob.status j) failed = true ->
  match refuse env msg w with
  | (Ok o, w') =>
      o = Refused msg
      /\ exists j', loaded j0 j' j' w' /\ quiet w w'
                    /\ ImportJob.status j' = failed
                    /\ ImportJob.error_message j' = Some msg
                    /\ ImportJob.completed_at j' = Some (utcnow env)
  | (Raise _, w') => loaded j0 j j w' /\ quiet w w'
  end.
Proof.
  intros H He. unfold refuse.
  rewrite (finish_world failed (Some msg) _ j) by apply H.
  pose proof (finish_commit failed (Some msg) j w H He eq_refl) as C.
  unfold bind.
  match type of C with
  | match commit env ?w1 with _ => _ end => destruct (commit env w1) as [[[]|e] w']
  end.
  - destruct C as (j' & H' & Q' & A & B & D & _). cbn [ret]. split; [reflexivity|].
    exists j'. auto.
  - exact C.
Qed.

(** The handler of the outer [try]. *)
Lemma on_fatal_spec e j w :
  loaded j0 j j w ->
  status_edge (ImportJob.status j) failed = true ->
  exists recorded w' j',
    on_fatal env e w = (Fatal e recorded, w')
    /\ loaded j0 j' j' w' /\ calm w w'
    /\ if recorded
       then ImportJob.status j' = failed
            /\ ImportJob.error_message j' = Some (fatal_message env e)
            /\ ImportJob.completed_at j' = Some (utcnow env)
       else j' = j.
Proof.
  intros H He. unfold on_fatal.
  set (w1 := with_sys (push_log "ERROR: Fatal error while processing CSV import") w).
  assert (H1 : loaded j0 j j w1) by exact H.
  assert (Q1 : calm w w1) by (repeat split).
  pose proof H1 as (Hs & _). rewrite Hs.
  rewrite (finish_world failed (Some (fatal_message env e)) _ j) by exact Hs.
  pose proof (finish_commit failed (Some (fatal_message env e)) j w1 H1 He eq_refl) as C.
  match type of C with
  | match commit env ?w2 with _ => _ end => destruct (commit env w2) as [[[]|e'] w']
  end.
  - destruct C as (j' & H' & Q' & A & B & D & _).
    exists true, w', j'. split; [reflexivity|]. split; [assumption|].
    split; [|auto]. eapply calm_trans; [exact Q1 | apply quiet_calm, Q'].
  - destruct C as [H' Q'].
    eexists false, _, j. split; [reflexivity|]. split; [exact H'|].
    split; [|reflexivity].
    eapply calm_trans; [exact Q1|]. eapply calm_trans; [apply quiet_calm, Q'|].
    repeat split.
Qed.

(** Dispatch never raises and touches no table. *)
Lemma notify_spec payload w :
  exists w',
    notify env payload w = (Ok tt, w')
    /\ (db w' = db w \/ db w' = bump (db w))
    /\ files (sys w') = files (sys w)
    /\ match broker_fault env with
       | None =>
           celery_queue (sys w')
           = (celery_queue (sys w) ++ [("product.imported", payload)])%list
           /\ outbox (sys w') = outbox (sys w)
       | Some _ =>
           celery_queue (sys w') = celery_queue (sys w)
           /\ exists n,
                outbox (sys w')
                = (outbox (sys w)
                   ++ match db_fault env n with
                      | None =>
                          deliveries env "product.imported" payload
                            (listeners "product.imported" (webhooks (db w)))
                      | Some _ => []
                      end)%list
       end.
Proof.
  unfold notify, catch, delay.
  destruct (broker_fault env) as [msg|].
  - cbn [raise].
    destruct (trigger_webhooks_sync_spec env "product.imported" payload w)
      as (s' & E & Hf & Hq & Ho).
    rewrite E. eexists. split; [reflexivity|]. cbn [db sys].
    split; [auto|]. split; [assumption|]. split; [assumption|].
    exists (db_ops (db w)).
    destruct (db_fault env (db_ops (db w))).
    + destruct Ho as [-> _]. rewrite app_nil_r. reflexivity.
    + destruct Ho as [-> _]. reflexivity.
  - eexists. split; [reflexivity|]. simpl. auto.
Qed.

(** Removing the staged file never raises and touches nothing else. *)
Lemma cleanup_spec file_path w :
  exists w',
    cleanup env file_path w = (Ok tt, w')
    /\ db w' = db w
    /\ celery_queue (sys w') = celery_queue (sys w)
    /\ outbox (sys w') = outbox (sys w)
    /\ (is_Some (files (sys w) !! file_path) ->
        files (sys w')
        = match remove_fault env with
          | None => delete file_path (files (sys w))
          | Some _ => files (sys w)
          end
        /\ forall msg, remove_fault env = Some msg ->
             log (sys w')
             = (log (sys w)
                ++ [("WARNING: Could not delete temp file: " ++ msg)%string])%list)
    /\ (files (sys w) !! file_path = None -> w' = w).
Proof.
  unfold cleanup, path_exists. rewrite bind_gets.
  destruct (files (sys w) !! file_path) as [f|] eqn:F.
  - rewrite bool_decide_eq_true_2 by eauto.
    unfold catch, os_remove.
    destruct (remove_fault env) as [msg|].
    + eexists. split; [reflexivity|]. simpl.
      split; [reflexivity|]. split; [reflexivity|]. split; [reflexivity|].
      split; [|discriminate]. intros _. split; [reflexivity|].
      intros ? [= <-]. reflexivity.
    + eexists. split; [reflexivity|]. simpl.
      split; [reflexivity|]. split; [reflexivity|]. split; [reflexivity|].
      split; [|discriminate]. intros _. split; [reflexivity | discriminate].
  - rewrite bool_decide_eq_false_2 by (intros [? ?]; discriminate).
    exists w. split; [reflexivity|].
    split; [reflexivity|]. split; [reflexivity|]. split; [reflexivity|].
    split; [intros [? ?]; discriminate | reflexivity].
Qed.

Lemma loaded_same_tables j j' w w' :
  loaded j0 j j' w -> (db w' = db w \/ db w' = bump (db w)) -> loaded j0 j j' w'.
Proof. unfold loaded. intros H [E | E]; rewrite E; exact H. Qed.

Lemma classify_terminal c total :
  is_terminal (fst (classify c total)) = true
  /\ status_edge importing (fst (classify c total)) = true.
Proof.
  unfold classify.
  destruct ((0 <? error_count c) && (processed_count c =? 0)); [auto|].
  destruct (0 <? error_count c); auto.
Qed.

(** Lines 108-286. *)
Lemma import_rows_spec job_id file_path df j w :
  loaded j0 j j w ->
  ImportJob.status j = parsing ->
  ImportJob.completed_at j = None ->
  ImportJob.processed_rows j = 0 ->
  is_Some (files (sys w) !! file_path) ->
  match import_rows env job_id file_path df w with
  | (Ok o, w') =>
      exists j', loaded j0 j' j' w' /\ run_post env job_id file_path w o w' j'
                 /\ exists c n, o = Classified c n
  | (Raise _, w') =>
      exists j', loaded j0 j' j' w' /\ calm w w'
                 /\ status_edge (ImportJob.status j') failed = true
  end.
Proof.
  intros H Hst Hc Hp Hfile. unfold import_rows.
  set (total := Z.of_nat (length (rows df))).
  assert (Htotal : 0 <= total) by (unfold total; lia).
  pose proof H as (Hs & Hj & Hi & _ & Hh).
  (* lines 108-110 *)
  unfold set_job at 1 2. rewrite !bind_modify.
  set (ja := ImportJob.set_status importing (ImportJob.set_total_rows total j)).
  match goal with
  | |- match bind _ _ ?x with _ => _ end => set (wa := x)
  end.
  assert (Ha : loaded j0 j ja wa)
    by (unfold loaded, wa; simpl; rewrite Hs; simpl; auto).
  assert (Qa : quiet w wa) by (split; reflexivity).
  clearbody wa.
  assert (Hstep : job_step j ja).
  { split; [right; simpl; rewrite Hst; reflexivity | simpl; lia]. }
  assert (Sta : steady total ja).
  { repeat split; simpl; auto; lia. }
  unfold bind at 1.
  pose proof (commit_loaded env j0 j ja wa Ha Hstep (steady_ok total ja Sta)) as C1.
  destruct (commit env wa) as [[[]|e1] w1]; destruct C1 as [H1 Q1];
    [|exists j; split; [assumption|]; split;
      [apply quiet_calm; eapply quiet_trans; eauto | rewrite Hst; reflexivity]].
  (* the chunks *)
  unfold bind at 1.
  assert (Hpa : ImportJob.processed_rows ja <= 0) by (simpl; lia).
  pose proof (chunks_loop_spec env j0 df total (chunk_count total) 0 counters0 w1 ja
                H1 Sta (Z.le_refl 0) Hpa) as C2.
  destruct (chunks_loop env df total (chunk_count total) 0 counters0 w1)
    as [[c|e2] w2];
    [|destruct C2 as (j2 & H2 & St2 & Q2); exists j2; split; [assumption|]; split;
      [apply quiet_calm; eapply quiet_trans; [exact Qa|]; eapply quiet_trans; eauto
      | destruct St2 as [-> _]; reflexivity]].
  destruct C2 as (j2 & H2 & St2 & Q2 & A2).
  assert (Ac : counts_agree c) by (apply A2; reflexivity).
  (* lines 214-217 *)
  unfold bind at 1. unfold catch.
  pose proof (commit_clean env j0 j2 w2 H2) as C3.
  assert (exists w3,
             (let (r, w') := commit env w2 in
              match r with
              | Ok a => (Ok a, w')
              | Raise e => logger "WARNING" ("Final commit error: " ++ str_exn e) w'
              end) = (Ok tt, w3)
             /\ loaded j0 j2 j2 w3 /\ calm w2 w3) as (w3 & E3 & H3 & Q3).
  { destruct (commit env w2) as [[[]|e3] w3]; destruct C3 as [H3 Q3].
    - exists w3. auto using quiet_calm.
    - eexists. split; [reflexivity|]. split; [exact H3|].
      eapply calm_trans; [apply quiet_calm, Q3 | repeat split]. }
  rewrite E3. clear E3 C3.
  assert (Q03 : calm w w3).
  { eapply calm_trans; [|exact Q3]. apply quiet_calm.
    eapply quiet_trans; [exact Qa|]. eapply quiet_trans; eauto. }
  (* lines 220-258 *)
  destruct (classify_terminal c total) as [Tt Te].
  destruct (classify c total) as [st msg] eqn:Ecl. cbn [fst] in Tt, Te.
  pose proof H3 as (Hs3 & _).
  rewrite (finish_world st msg _ j2) by exact Hs3.
  assert (He3 : status_edge (ImportJob.status j2) st = true).
  { destruct St2 as [-> _]. exact Te. }
  pose proof (finish_commit st msg j2 w3 H3 He3 Tt) as C4.
  unfold bind at 1.
  match type of C4 with
  | match commit env ?w3' with _ => _ end => destruct (commit env w3') as [[[]|e4] w4]
  end;
    [|destruct C4 as [H4 Q4]; exists j2; split; [assumption|]; split;
      [eapply calm_trans; [exact Q03 | apply quiet_calm, Q4]
      | destruct St2 as [-> _]; reflexivity]].
  destruct C4 as (j4 & H4 & Q4 & Est & Emsg & Eat & Etot).
  assert (Q04 : calm w w4) by (eapply calm_trans; [exact Q03 | apply quiet_calm, Q4]).
  (* lines 261-278 *)
  rewrite bind_gets. pose proof H4 as (Hs4 & _). rewrite Hs4.
  assert (exists w5 notified,
             (notified <-
                match ImportJob.status j4 with
                | completed | completed_with_errors =>
                    notify env (payload_of job_id c) ;; ret (Some (payload_of job_id c))
                | _ => ret None
                end ;;
              cleanup env file_path ;; ret (Classified c notified)) w4
             = ((cleanup env file_path ;; ret (Classified c notified)) w5)
             /\ notified
                = (if is_success (ImportJob.status j4)
                   then Some (payload_of job_id c) else None)
             /\ (db w5 = db w4 \/ db w5 = bump (db w4))
             /\ files (sys w5) = files (sys w4)
             /\ match notified, broker_fault env with
                | Some p, None =>
                    celery_queue (sys w5)
                    = (celery_queue (sys w4) ++ [("product.imported", p)])%list
                    /\ outbox (sys w5) = outbox (sys w4)
                | Some p, Some _ =>
                    celery_queue (sys w5) = celery_queue (sys w4)
                    /\ exists n,
                         outbox (sys w5)
                         = (outbox (sys w4)
                            ++ match db_fault env n with
                               | None =>
                                   deliveries env "product.imported" p
                                     (listeners "product.imported" (webhooks (db w4)))
                               | Some _ => []
                               end)%list
                | None, _ =>
                    celery_queue (sys w5) = celery_queue (sys w4)
                    /\ outbox (sys w5) = outbox (sys w4)
                end) as (w5 & notified & E5 & En & Hd5 & Hf5 & Hq5).
  { destruct (notify_spec (payload_of job_id c) w4) as (w5 & E & Hd & Hf & Hq).
    destruct (ImportJob.status j4).
    1-3, 6: exists w4, None; split; [reflexivity|]; cbn [is_success];
      split; [reflexivity|]; split; [auto|]; split; [reflexivity|];
      destruct (broker_fault env); auto.
    all: exists w5, (Some (payload_of job_id c)); rewrite bind_bind;
      unfold bind at 1; rewrite E; rewrite bind_ret; split; [reflexivity|];
      cbn [is_success]; split; [reflexivity|]; split; [assumption|];
      split; [assumption|]; destruct (broker_fault env); assumption. }
  rewrite E5. clear E5.
  (* lines 281-286 *)
  destruct (cleanup_spec file_path w5) as (w6 & E6 & Hd6 & Hq6 & Ho6 & Hf6 & _).
  unfold bind at 1. rewrite E6. cbn [ret].
  destruct Q04 as (Qf & Qq & Qo & Qw).
  assert (Hfile5 : is_Some (files (sys w5) !! file_path)).
  { rewrite Hf5, Qf. exact Hfile. }
  destruct (Hf6 Hfile5) as [Hf6a Hf6b].
  exists j4. split.
  { apply (loaded_same_tables j4 j4 w5).
    - apply (loaded_same_tables j4 j4 w4); assumption.
    - left. exact Hd6. }
  split; [|eauto].
  unfold run_post.
  split; [exact Ac|].
  split; [rewrite Est, Emsg, Etot; destruct St2 as (_ & -> & _); symmetry; exact Ecl|].
  split; [exact Eat|].
  split; [exact En|].
  split; [rewrite Hf6a, Hf5, Qf; reflexivity|].
  split; [intros m Hm; eexists; apply Hf6b, Hm|].
  rewrite Hq6, Ho6.
  destruct notified as [p|]; [destruct (broker_fault env)|].
  - destruct Hq5 as [Hq5 (n & Ho5)]. split; [congruence|].
    exists n. rewrite Ho5, Qo, Qw. reflexivity.
  - destruct Hq5 as [Hq5 Ho5]. split; congruence.
  - destruct Hq5 as [Hq5 Ho5]. split; congruence.
Qed.

End Blocks.

Lemma run_post_quiet env job_id file_path w0 w o w' j :
  quiet w0 w ->
  run_post env job_id file_path w o w' j ->
  run_post env job_id file_path w0 o w' j.
Proof.
  intros [Es Ew]. unfold run_post, calm. rewrite Es, Ew. auto.
Qed.

Lemma new_job_ok job_id : job_ok (new_job job_id).
Proof.
  split; [simpl; lia|]. simpl. split; [intros [? ?]; discriminate | discriminate].
Qed.

Section Run.
Variable env : Env.
Variables job_id file_path : string.

Let j0 := new_job job_id.

(** The body of the outer [try]: either it returns with the job row
    settled, or it raises with the job row committed as it last was and
    not terminal, or it raises before any job was loaded. *)
Lemma pipeline_spec w :
  fresh_run job_id w ->
  session_job (db w) = None ->
  match pipeline env job_id file_path w with
  | (Ok o, w') =>
      exists j', loaded j0 j' j' w' /\ run_post env job_id file_path w o w' j'
  | (Raise _, w') =>
      calm w w'
      /\ ((exists j', loaded j0 j' j' w'
                      /\ status_edge (ImportJob.status j') failed = true)
          \/ (session_job (db w') = None
              /\ import_jobs (db w') !! job_id = Some j0
              /\ job_trace (db w') = []))
  end.
Proof.
  intros (Hj & Ht) Hs. unfold pipeline, query_job.
  rewrite bind_bind. unfold bind at 1. unfold session_call.
  destruct (db_fault env (db_ops (db w))) as [msg|].
  { split; [repeat split|]. right. simpl. auto. }
  rewrite bind_bind, bind_gets. cbn [with_db db bump import_jobs]. rewrite Hj.
  rewrite bind_bind, bind_modify, bind_ret.
  match goal with
  | |- match bind _ _ ?x with _ => _ end => set (wb := x)
  end.
  assert (Hb : loaded j0 j0 j0 wb).
  { unfold loaded, wb. simpl. rewrite Hj, Ht.
    repeat split; auto. constructor. apply new_job_ok. }
  assert (Qb : quiet w wb) by (split; reflexivity).
  clearbody wb.
  (* lines 54-55 *)
  unfold set_job at 1. rewrite bind_modify.
  set (j1 := ImportJob.set_status parsing j0).
  match goal with
  | |- match bind _ _ ?x with _ => _ end => set (wc := x)
  end.
  assert (Hc : loaded j0 j0 j1 wc).
  { pose proof Hb as (Hsb & _). unfold loaded, wc. simpl. rewrite Hsb. simpl.
    destruct Hb as (_ & ? & _ & _ & ?). auto. }
  assert (Qc : quiet w wc) by (eapply quiet_trans; [exact Qb | split; reflexivity]).
  clearbody wc.
  assert (Hstep : job_step j0 j1) by (split; [right; reflexivity | simpl; lia]).
  assert (Hok : job_ok j1).
  { split; [simpl; lia|]. simpl. split; [intros [? ?]; discriminate | discriminate]. }
  unfold bind at 1.
  pose proof (commit_loaded env j0 j0 j1 wc Hc Hstep Hok) as C1.
  destruct (commit env wc) as [[[]|e1] w1]; destruct C1 as [H1 Q1];
    [|split; [apply quiet_calm; eapply quiet_trans; eauto|];
      left; exists j0; split; [assumption | reflexivity]].
  assert (Q01 : quiet w w1) by (eapply quiet_trans; eauto).
  rewrite bind_gets.
  assert (R : forall msg,
             match refuse env msg w1 with
             | (Ok o, w') =>
                 exists j', loaded j0 j' j' w'
                            /\ run_post env job_id file_path w o w' j'
             | (Raise _, w') =>
                 calm w w'
                 /\ ((exists j', loaded j0 j' j' w'
                                 /\ status_edge (ImportJob.status j') failed = true)
                     \/ (session_job (db w') = None
                         /\ import_jobs (db w') !! job_id = Some j0
                         /\ job_trace (db w') = []))
             end).
  { intros msg. pose proof (refuse_spec env j0 msg j1 w1 H1 eq_refl) as P.
    destruct (refuse env msg w1) as [[o|e] w'].
    - destruct P as (-> & j' & H' & Q' & A & B & D).
      exists j'. split; [assumption|]. unfold run_post.
      destruct Q' as [Q' _]. destruct Q01 as [Q01 _]. repeat split; auto. congruence.
    - destruct P as [H' Q'].
      split; [apply quiet_calm; eapply quiet_trans; eauto|].
      left. exists j1. split; [assumption | reflexivity]. }
  destruct (files (sys w1) !! file_path) as [[df | e]|] eqn:F; [| |apply R].
  - destruct (List.filter (fun col => negb (Py.str_in col (columns df))) required_cols);
      [|apply R].
    pose proof (import_rows_spec env j0 job_id file_path df j1 w1 H1
                  eq_refl eq_refl eq_refl
                  ltac:(rewrite F; eauto)) as P.
    destruct (import_rows env job_id file_path df w1) as [[o|e] w'].
    + destruct P as (j' & H' & P & _). exists j'. split; [assumption|].
      eapply run_post_quiet; eauto.
    + destruct P as (j' & H' & Q' & E').
      split; [eapply calm_trans; [apply quiet_calm; exact Q01 | exact Q']|].
      left. exists j'. auto.
  - destruct e; apply R.
Qed.

(** The whole task, from the world [import_products] leaves. *)
Lemma run_spec w :
  fresh_run job_id w ->
  exists j,
    import_jobs (db (snd (process_csv_import_sync env job_id file_path w))) !! job_id
    = Some j
    /\ history j0
         (job_trace (db (snd (process_csv_import_sync env job_id file_path w)))) j
    /\ run_post env job_id file_path w
         (fst (process_csv_import_sync env job_id file_path w))
         (snd (process_csv_import_sync env job_id file_path w)) j.
Proof.
  intros Hf. unfold process_csv_import_sync.
  assert (Hf0 : fresh_run job_id (with_db SessionLocal w)) by exact Hf.
  pose proof (pipeline_spec (with_db SessionLocal w) Hf0 eq_refl) as P.
  assert (Q0 : quiet w (with_db SessionLocal w)) by (split; reflexivity).
  destruct (pipeline env job_id file_path (with_db SessionLocal w)) as [[o|e] w1].
  - destruct P as (j & (Hs & Hj & Hi & _ & Hh) & P).
    exists j. cbn [fst snd]. split; [exact Hj|]. split; [exact Hh|].
    apply (run_post_quiet _ _ _ _ _ _ _ _ Q0) in P.
    revert P. unfold run_post, calm, close. simpl. auto.
  - apply quiet_calm in Q0.
    destruct P as [Q [(j & H & He) | (Hs & Hj & Ht)]];
      apply (calm_trans _ _ _ Q0) in Q.
    + destruct (on_fatal_spec env j0 e j w1 H He)
        as (recorded & w' & j' & E & (Hs' & Hj' & Hi' & _ & Hh') & Q' & P).
      rewrite E. exists j'. cbn [fst snd]. split; [exact Hj'|]. split; [exact Hh'|].
      unfold run_post. split.
      * eapply calm_trans; [exact Q|]. eapply calm_trans; [exact Q'|]. repeat split.
      * destruct recorded; [exact P|]. subst j'.
        destruct (ImportJob.status j); try discriminate; reflexivity.
    + unfold on_fatal. cbn [with_sys db]. rewrite Hs. exists j0. cbn [fst snd].
      split; [exact Hj|]. split; [simpl; rewrite Ht; constructor; apply new_job_ok|].
      unfold run_post. split; [|reflexivity].
      eapply calm_trans; [exact Q|]. repeat split.
Qed.

End Run.


(** ** The committed states of a job over time *)

Section History.
Variable j0 : ImportJob.t.

Lemma history_head tr j :
  history j0 tr j -> hd j0 tr = j.
Proof. destruct 1; reflexivity. Qed.

Lemma history_sorted (R : ImportJob.t -> ImportJob.t -> Prop) tr j :
  (forall a b, job_step a b -> R b a) ->
  history j0 tr j -> Sorted R (tr ++ [j0]).
Proof.
  intros HR. induction 1 as [|tr j j' Hh IH Hstep Hok Hid].
  - simpl. repeat constructor.
  - simpl. constructor; [exact IH|].
    pose proof (history_head _ _ Hh) as Hd.
    destruct tr as [|x tr]; simpl in *; subst; constructor; apply HR, Hstep.
Qed.

Lemma history_all_ok tr j : history j0 tr j -> Forall job_ok (tr ++ [j0]).
Proof.
  induction 1 as [Hok|tr j j' Hh IH Hstep Hok Hid]; simpl.
  - constructor; [exact Hok | constructor].
  - constructor; assumption.
Qed.

Lemma history_progress tr j :
  history j0 tr j -> StronglySorted no_less_progress (tr ++ [j0]).
Proof.
  intros H. apply Sorted_StronglySorted.
  - intros a b c. unfold no_less_progress. lia.
  - eapply history_sorted; [|exact H]. intros a b [_ Hp]. exact Hp.
Qed.



End History.

(** ** C4: progress *)

(** Over a whole run every committed state of the job has
    [0 <= processed_rows <= total_rows], each state showing at least the
    progress of every earlier one; and a chunk that is processed from a
    loaded job commits the smaller of its end offset and the total. *)
Lemma progress_bounds (env : Env) (job_id file_path : string) (w : World) :
  fresh_run job_id w ->
  let w' := snd (process_csv_import_sync env job_id file_path w) in
  let states := (job_trace (db w') ++ [new_job job_id])%list in
  Forall (fun j => 0 <= ImportJob.processed_rows j <= ImportJob.total_rows j) states
  /\ StronglySorted no_less_progress states
  /\ forall df total i c wi j,
       loaded (new_job job_id) j j wi -> steady total j ->
       0 <= i -> ImportJob.processed_rows j <= i ->
       match process_chunk env df total i c wi with
       | (Ok _, wi') =>
           exists j',
             import_jobs (db wi') !! job_id = Some j'
             /\ hd (new_job job_id) (job_trace (db wi')) = j'
             /\ ImportJob.processed_rows j' = Z.min (i + chunk_size) total
       | (Raise _, wi') => import_jobs (db wi') !! job_id = Some j
       end.
Proof.
  intros Hf w' states.
  destruct (run_spec env job_id file_path w Hf) as (j & Hj & Hh & _).
  fold w' in Hj, Hh.
  split; [|split].
  - pose proof (history_all_ok _ _ _ Hh) as Hall. fold states in Hall.
    eapply Forall_impl; [exact Hall|]. intros a [Ha _]. exact Ha.
  - apply (history_progress _ _ _ Hh).
  - intros df total i c wi ji Hl Hst Hi Hp.
    pose proof (process_chunk_spec env (new_job job_id) df total i c wi ji Hl Hst Hi Hp) as P.
    destruct (process_chunk env df total i c wi) as [[c'|e] wi'].
    + destruct P as ((Hs' & Hj' & _ & _ & Hh') & _).
      eexists. split; [exact Hj'|]. split; [apply (history_head _ _ _ Hh') | reflexivity].
    + destruct P as ((_ & Hj' & _) & _). exact Hj'.
Qed.

(** ** Occurrences in a message *)

Lemma append_assoc (a b c : string) : (a ++ b) ++ c = a ++ (b ++ c).
Proof.
  induction a as [|x a IH]; [reflexivity|].
  change (String x ((a ++ b) ++ c) = String x (a ++ (b ++ c))). rewrite IH. reflexivity.
Qed.

Lemma append_empty_r (a : string) : a ++ EmptyString = a.
Proof.
  induction a as [|x a IH]; [reflexivity|].
  change (String x (a ++ EmptyString) = String x a). rewrite IH. reflexivity.
Qed.

Lemma occurs_in_prefix (a rest : string) : occurs_in a (a ++ rest).
Proof. exists EmptyString, rest. reflexivity. Qed.

Lemma occurs_in_refl (a : string) : occurs_in a a.
Proof.
  exists EmptyString, EmptyString. change (a = a ++ EmptyString).
  rewrite append_empty_r. reflexivity.
Qed.

Lemma occurs_in_app_r (s a b : string) : occurs_in s b -> occurs_in s (a ++ b).
Proof.
  intros (x & y & ->). exists (a ++ x), y. rewrite append_assoc. reflexivity.
Qed.

Lemma occurs_in_app_l (s a b : string) : occurs_in s a -> occurs_in s (a ++ b).
Proof.
  intros (x & y & ->). exists x, (y ++ b). rewrite !append_assoc. reflexivity.
Qed.

Lemma occurs_in_prefix2 (a b rest : string) : occurs_in (a ++ b) (a ++ b ++ rest).
Proof. rewrite <- append_assoc. apply occurs_in_prefix. Qed.

Lemma occurs_in_prefix3 (a b c rest : string) :
  occurs_in (a ++ b ++ c) (a ++ b ++ c ++ rest).
Proof. rewrite <- !append_assoc. apply occurs_in_prefix. Qed.

Lemma occurs_in_join (sep x : string) (l : list string) :
  In x l -> occurs_in x (Py.join sep l).
Proof.
  induction l as [|y l IH]; intros Hin; [destruct Hin|].
  destruct Hin as [-> | Hin].
  - destruct l; simpl; [apply occurs_in_refl | apply occurs_in_prefix].
  - specialize (IH Hin). destruct l as [|z l]; [destruct Hin|].
    change (Py.join sep (y :: z :: l)) with (y ++ sep ++ Py.join sep (z :: l)).
    apply occurs_in_app_r, occurs_in_app_r, IH.
Qed.

(** The lines shown in a summary are the first [n] recorded ones. *)
Lemma occurs_in_bullets (n : nat) (errs : list string) (k : nat) (line : string) :
  (k < n)%nat -> errs !! k = Some line -> occurs_in ("• " ++ line) (bullets n errs).
Proof.
  intros Hk Hl. unfold bullets. apply occurs_in_join.
  apply in_map_iff. exists line. split; [reflexivity|].
  apply list_elem_of_In. apply list_elem_of_lookup. exists k.
  rewrite lookup_take_lt by assumption. exact Hl.
Qed.

Lemma more_errors_spec (n : nat) (errs : list string) :
  ((n < length errs)%nat ->
   more_errors n errs
   = Py.nl ++ Py.nl ++ "... and "
     ++ Py.str_int (Z.of_nat (length errs) - Z.of_nat n) ++ " more errors")
  /\ ((length errs <= n)%nat -> more_errors n errs = EmptyString).
Proof.
  unfold more_errors. split; intros H.
  - apply Nat.ltb_lt in H. rewrite H. reflexivity.
  - apply Nat.ltb_ge in H. rewrite H. reflexivity.
Qed.

Lemma ends_with_refl (a : string) : ends_with a a.
Proof. exists EmptyString. reflexivity. Qed.

Lemma ends_with_app_r (s a b : string) : ends_with s b -> ends_with s (a ++ b).
Proof. intros (x & ->). exists (a ++ x). rewrite append_assoc. reflexivity. Qed.

Lemma failed_summary_shows (c : Counters) :
  occurs_in ("Total errors: " ++ Py.str_int (error_count c)) (failed_summary c)
  /\ shows_first 10 (errors c) (failed_summary c).
Proof.
  unfold failed_summary. split; [|split; [|split]].
  - do 3 apply occurs_in_app_r. apply occurs_in_prefix2.
  - intros k line Hk Hl. do 11 apply occurs_in_app_r. apply occurs_in_app_l.
    eapply occurs_in_bullets; eauto.
  - intros H. do 12 apply ends_with_app_r.
    rewrite (proj1 (more_errors_spec 10 (errors c)) H).
    do 2 apply ends_with_app_r. apply ends_with_refl.
  - intros H. do 11 apply ends_with_app_r.
    rewrite (proj2 (more_errors_spec 10 (errors c)) H), append_empty_r.
    apply ends_with_refl.
Qed.

Lemma partial_summary_shows (c : Counters) (total : Z) :
  occurs_in ("Successfully processed: " ++ Py.str_int_comma (processed_count c) ++ "/")
    (partial_summary c total)
  /\ occurs_in ("✓ Created: " ++ Py.str_int_comma (created_count c))
       (partial_summary c total)
  /\ occurs_in ("✓ Updated: " ++ Py.str_int_comma (updated_count c))
       (partial_summary c total)
  /\ occurs_in ("❌ Errors: " ++ Py.str_int_comma (error_count c))
       (partial_summary c total)
  /\ shows_first 5 (errors c) (partial_summary c total).
Proof.
  unfold partial_summary. split; [|split; [|split; [|split; [|split; [|split]]]]].
  - do 3 apply occurs_in_app_r. apply occurs_in_prefix3.
  - do 9 apply occurs_in_app_r. apply occurs_in_prefix2.
  - do 12 apply occurs_in_app_r. apply occurs_in_prefix2.
  - do 15 apply occurs_in_app_r. apply occurs_in_prefix2.
  - intros k line Hk Hl. do 23 apply occurs_in_app_r. apply occurs_in_app_l.
    eapply occurs_in_bullets; eauto.
  - intros H. do 24 apply ends_with_app_r.
    rewrite (proj1 (more_errors_spec 5 (errors c)) H).
    do 2 apply ends_with_app_r. apply ends_with_refl.
  - intros H. do 23 apply ends_with_app_r.
    rewrite (proj2 (more_errors_spec 5 (errors c)) H), append_empty_r.
    apply ends_with_refl.
Qed.

(** ** C1: the terminal classification *)

(** C1, as the code has it.  When a run gets through the rows to the
    classification and its status write is accepted, the committed job is
    [failed] if the error count is positive and no row was applied, its
    message giving the error count and the first 10 error lines, followed
    by "... and N more errors" when more than 10 lines were recorded;
    [completed_with_errors] if the error count is positive and some row was
    applied, its message giving the processed, created, updated and error
    counts and the first 5 error lines under the same rule; and
    [completed] without message if the error count is zero.  (A run that
    raises among the rows is not classified: see C2.) *)
Theorem C1_terminal_classification (env : Env) (job_id file_path : string)
    (w : World) (c : Counters) (notified : option Payload) :
  fresh_run job_id w ->
  fst (process_csv_import_sync env job_id file_path w) = Classified c notified ->
  exists j,
    import_jobs (db (snd (process_csv_import_sync env job_id file_path w))) !! job_id
    = Some j
    /\ (0 < error_count c -> processed_count c = 0 ->
        ImportJob.status j = failed
        /\ ImportJob.error_message j = Some (failed_summary c)
        /\ occurs_in ("Total errors: " ++ Py.str_int (error_count c)) (failed_summary c)
        /\ shows_first 10 (errors c) (failed_summary c))
    /\ (0 < error_count c -> processed_count c <> 0 ->
        ImportJob.status j = completed_with_errors
        /\ ImportJob.error_message j
           = Some (partial_summary c (ImportJob.total_rows j))
        /\ occurs_in ("Successfully processed: "
                      ++ Py.str_int_comma (processed_count c) ++ "/")
             (partial_summary c (ImportJob.total_rows j))
        /\ occurs_in ("✓ Created: " ++ Py.str_int_comma (created_count c))
             (partial_summary c (ImportJob.total_rows j))
        /\ occurs_in ("✓ Updated: " ++ Py.str_int_comma (updated_count c))
             (partial_summary c (ImportJob.total_rows j))
        /\ occurs_in ("❌ Errors: " ++ Py.str_int_comma (error_count c))
             (partial_summary c (ImportJob.total_rows j))
        /\ shows_first 5 (errors c) (partial_summary c (ImportJob.total_rows j)))
    /\ (error_count c = 0 ->
        ImportJob.status j = completed /\ ImportJob.error_message j = None).
Proof.
  intros Hf Ho.
  destruct (run_spec env job_id file_path w Hf) as (j & Hj & _ & P).
  rewrite Ho in P. destruct P as (_ & Hc & _).
  exists j. split; [exact Hj|].
  unfold classify in Hc. split; [|split].
  - intros He Hp. apply Z.ltb_lt in He. apply Z.eqb_eq in Hp.
    rewrite He, Hp in Hc. inversion Hc as [[Hs Hm]].
    split; [reflexivity|]. split; [reflexivity|]. apply failed_summary_shows.
  - intros He Hp. apply Z.ltb_lt in He. apply Z.eqb_neq in Hp.
    rewrite He, Hp in Hc. inversion Hc as [[Hs Hm]].
    split; [reflexivity|]. split; [reflexivity|]. apply partial_summary_shows.
  - intros He. rewrite He in Hc. inversion Hc as [[Hs Hm]]. auto.
Qed.

(** ** C2: the status graph *)



(** ** C8: webhook dispatch *)

(** C8.  A run hands the event "product.imported" to the dispatch exactly
    when the job ends [completed] or [completed_with_errors], with the
    payload of job id, processed, created, updated and error counts; a run
    that ends otherwise leaves the broker queue and the listeners alone.
    The dispatch itself, for whatever event type: it never raises; it
    changes no table, so no job status; when its query of the listeners
    is answered, every enabled listener of that event type that can be
    reached receives the envelope, whatever happened with the others, and
    each failed delivery is logged. *)
Theorem C8_webhook_dispatch (env : Env) (job_id file_path : string) (w : World) :
  fresh_run job_id w ->
  let o := fst (process_csv_import_sync env job_id file_path w) in
  let w' := snd (process_csv_import_sync env job_id file_path w) in
  (exists j,
     import_jobs (db w') !! job_id = Some j
     /\ (is_Some (dispatched o) <-> is_success (ImportJob.status j) = true)
     /\ (forall p, dispatched o = Some p ->
         exists c,
           o = Classified c (Some p)
           /\ p = {| pl_job_id := job_id; pl_count := processed_count c;
                     pl_created := created_count c; pl_updated := updated_count c;
                     pl_errors := error_count c |}
           /\ (broker_fault env = None ->
               celery_queue (sys w')
               = (celery_queue (sys w) ++ [("product.imported", p)])%list))
     /\ (dispatched o = None ->
         celery_queue (sys w') = celery_queue (sys w)
         /\ outbox (sys w') = outbox (sys w)))
  /\ forall event_type payload w1,
       exists s',
         trigger_webhooks_sync env event_type payload w1
         = (Ok tt, {| db := bump (db w1); sys := s' |})
         /\ (db_fault env (db_ops (db w1)) = None ->
             outbox s'
             = (outbox (sys w1)
                ++ deliveries env event_type payload
                     (listeners event_type (webhooks (db w1))))%list
             /\ log s'
                = (log (sys w1)
                   ++ failure_lines env (listeners event_type (webhooks (db w1))))%list
             /\ forall wh,
                  In wh (webhooks (db w1)) ->
                  Webhook.enabled wh = true ->
                  Webhook.event_type wh = event_type ->
                  match post_fault env (Webhook.url wh) with
                  | None =>
                      In (Webhook.url wh,
                          {| ev_event := event_type; ev_data := payload;
                             ev_timestamp := utcnow env |}) (outbox s')
                  | Some msg =>
                      In ("ERROR: Webhook failed: " ++ Webhook.url wh
                          ++ " - Error: " ++ msg) (log s')
                  end).
Proof.
  intros Hf o w'. split.
  - destruct (run_spec env job_id file_path w Hf) as (j & Hj & _ & P).
    fold o w' in Hj, P. exists j. split; [exact Hj|].
    destruct o as [|msg|c n|e r]; simpl in P |- *.
    + destruct P.
    + destruct P as (-> & _ & _ & ->). simpl.
      split; [split; [intros [? ?]; discriminate | discriminate]|].
      split; [discriminate | auto].
    + destruct P as (_ & _ & _ & Hn & _ & _ & Hq).
      split; [|split].
      * rewrite Hn. destruct (is_success (ImportJob.status j)); split; eauto;
          try discriminate. intros [? ?]; discriminate.
      * intros p ->. exists c. split; [reflexivity|].
        destruct (is_success (ImportJob.status j)); [|discriminate].
        injection Hn as ->. split; [reflexivity|].
        intros Hb. rewrite Hb in Hq. apply Hq.
      * intros ->. destruct (broker_fault env); exact Hq.
    + destruct P as ((_ & Hq & Ho & _) & Hr).
      split; [|split; [discriminate | auto]].
      split; [intros [? ?]; discriminate|].
      destruct r.
      * destruct Hr as (-> & _). discriminate.
      * intros Hs. destruct (ImportJob.status j); discriminate.
  - intros event_type payload w1.
    destruct (trigger_webhooks_sync_spec env event_type payload w1)
      as (s' & E & _ & _ & H).
    exists s'. split; [exact E|]. intros F. rewrite F in H.
    destruct H as [Ho Hl]. split; [exact Ho|]. split; [exact Hl|].
    intros wh Hin Hen Hev.
    assert (Hlis : In wh (listeners event_type (webhooks (db w1)))).
    { apply filter_In. split; [exact Hin|]. unfold listens.
      rewrite Hev, String.eqb_refl, Hen. reflexivity. }
    destruct (post_fault env (Webhook.url wh)) as [msg|] eqn:Fp.
    + rewrite Hl. apply in_or_app. right. unfold failure_lines.
      apply in_flat_map. exists wh. split; [exact Hlis|]. rewrite Fp. left. reflexivity.
    + rewrite Ho. apply in_or_app. right. unfold deliveries.
      apply in_map_iff. exists wh. split; [reflexivity|].
      apply filter_In. split; [exact Hlis|]. unfold reachable. rewrite Fp. reflexivity.
Qed.

(** ** C10: processed = created + updated *)

(** C10.  The three success counters start in agreement, every row keeps
    [processed_count = created_count + updated_count], and so does a
    whole run: in the payload handed to the dispatch [count] is
    [created + updated], and the summary of a job that ended
    [completed_with_errors] shows created plus updated as its
    "Successfully processed" figure, next to the two figures themselves. *)
Theorem C10_counts_agree (env : Env) :
  counts_agree counters0
  /\ (forall idx row c w,
        counts_agree c ->
        exists c' w', process_row env idx row c w = (Ok c', w') /\ counts_agree c')
  /\ forall job_id file_path w c notified,
       fresh_run job_id w ->
       fst (process_csv_import_sync env job_id file_path w) = Classified c notified ->
       processed_count c = created_count c + updated_count c
       /\ (forall p, notified = Some p -> pl_count p = pl_created p + pl_updated p)
       /\ exists j,
            import_jobs (db (snd (process_csv_import_sync env job_id file_path w)))
              !! job_id = Some j
            /\ (ImportJob.status j = completed_with_errors ->
                exists msg,
                  ImportJob.error_message j = Some msg
                  /\ occurs_in ("Successfully processed: "
                                ++ Py.str_int_comma (created_count c + updated_count c)
                                ++ "/") msg
                  /\ occurs_in ("✓ Created: " ++ Py.str_int_comma (created_count c)) msg
                  /\ occurs_in ("✓ Updated: " ++ Py.str_int_comma (updated_count c)) msg).
Proof.
  split; [reflexivity|]. split.
  - intros idx row c w Hc.
    destruct (process_row_step env idx row c w) as (c' & w' & E & S).
    exists c', w'. split; [exact E|]. eapply row_step_counts_agree; eauto.
  - intros job_id file_path w c notified Hf Ho.
    destruct (run_spec env job_id file_path w Hf) as (j & Hj & _ & P).
    rewrite Ho in P. destruct P as (Hc & Hcl & _ & Hn & _).
    split; [exact Hc|]. split.
    + intros p ->. destruct (is_success (ImportJob.status j)); [|discriminate].
      injection Hn as ->. exact Hc.
    + exists j. split; [exact Hj|]. intros Hs.
      unfold classify in Hcl.
      destruct ((0 <? error_count c) && (processed_count c =? 0));
        [rewrite Hs in Hcl; discriminate|].
      destruct (0 <? error_count c); [|rewrite Hs in Hcl; discriminate].
      injection Hcl as _ Hm. eexists. split; [exact Hm|].
      destruct (partial_summary_shows c (ImportJob.total_rows j)) as (A & B & C & _).
      unfold counts_agree in Hc. rewrite <- Hc. auto.
Qed.

(** ** C6: checkpoint failures *)

(** A failing every-50 checkpoint: one line, one error, and the row loop
    goes on with the next row. *)
Lemma row_checkpoint_failure_recorded env idx row c w c' w' msg
    sku name description ps' c1 :
  validate_row idx row = Accepted sku name description ->
  db_fault env (db_ops (db w)) = None ->
  upsert (utcnow env) sku name description (session_products (db w)) c = (ps', c1) ->
  processed_count c1 mod 50 = 0 ->
  db_fault env (S (db_ops (db w))) = Some msg ->
  process_row env idx row c w = (Ok c', w') ->
  errors c' = (errors c ++ [checkpoint_error_line idx (SQLAlchemyError msg)])%list
  /\ error_count c' = error_count c + 1.
Proof.
  intros V F U N F2 E.
  rewrite (process_row_checkpoint env idx row c w _ _ _ _ _ V F U N), F2 in E.
  injection E as <- _. apply upsert_counters in U as (_ & _ & He & Hl).
  simpl. rewrite He, Hl. auto.
Qed.

(** A failing end-of-chunk commit: one line, but the error count moves by
    [chunk_size - processed_count], and the chunk goes on to its progress
    write. *)
Lemma chunk_commit_failure_recorded env df total i c w c1 w1 msg :
  rows_loop env i (take (Z.to_nat chunk_size) (drop (Z.to_nat i) (rows df))) c w
  = (Ok c1, w1) ->
  db_fault env (db_ops (db w1)) = Some msg ->
  match process_chunk env df total i c w with
  | (Ok c2, _) =>
      errors c2 = (errors c1 ++ [chunk_error_line i (SQLAlchemyError msg)])%list
      /\ error_count c2 = error_count c1 + (chunk_size - processed_count c1)
  | (Raise _, _) => db_fault env (S (db_ops (db w1))) <> None
  end.
Proof.
  intros E F. unfold process_chunk. unfold bind at 1. rewrite E.
  unfold bind at 1. unfold catch. unfold bind at 1. unfold commit at 1. rewrite F.
  unfold bind at 1. cbn [rollback modify ret].
  unfold bind at 1. cbn [set_job modify]. unfold bind at 1.
  unfold commit. cbn [with_db db revert bump db_ops put_session_job].
  destruct (db_fault env (S (db_ops (db w1)))); [discriminate|].
  cbn [ret]. split; reflexivity.
Qed.

(** ** C7: the staged file *)

(** A run that is classified removes the staged file, or logs why it could
    not; the job row is the classified one either way. *)
Lemma classified_run_removes_file env job_id file_path w c notified :
  fresh_run job_id w ->
  fst (process_csv_import_sync env job_id file_path w) = Classified c notified ->
  let w' := snd (process_csv_import_sync env job_id file_path w) in
  match remove_fault env with
  | None => files (sys w') !! file_path = None
  | Some msg =>
      files (sys w') = files (sys w)
      /\ exists earlier,
           log (sys w')
           = (earlier ++ [("WARNING: Could not delete temp file: " ++ msg)%string])%list
  end.
Proof.
  intros Hf Ho w'.
  destruct (run_spec env job_id file_path w Hf) as (j & _ & _ & P).
  fold w' in P. rewrite Ho in P. destruct P as (_ & _ & _ & _ & Hfiles & Hlog & _).
  destruct (remove_fault env) as [msg|].
  - split; [exact Hfiles | apply Hlog; reflexivity].
  - rewrite Hfiles. apply lookup_delete_eq.
Qed.

(** A run that is refused before the rows, or that ends in the handler,
    leaves the staged files as they are. *)
Lemma other_runs_keep_files env job_id file_path w :
  fresh_run job_id w ->
  match fst (process_csv_import_sync env job_id file_path w) with
  | Classified _ _ => True
  | _ => files (sys (snd (process_csv_import_sync env job_id file_path w)))
         = files (sys w)
  end.
Proof.
  intros Hf.
  destruct (run_spec env job_id file_path w Hf) as (j & _ & _ & P).
  destruct (fst (process_csv_import_sync env job_id file_path w)); simpl in P.
  - destruct P.
  - destruct P as (_ & _ & _ & ->). reflexivity.
  - exact I.
  - destruct P as ((Hfiles & _) & _). exact Hfiles.
Qed.

(** * Further properties of the code *)

(** ** A run on a database that answers every call *)

Lemma apply_rows_app now idx l1 l2 s :
  apply_rows now idx (l1 ++ l2) s
  = apply_rows now (idx + Z.of_nat (length l1)) l2 (apply_rows now idx l1 s).
Proof.
  revert idx s. induction l1 as [|r l1 IH]; intros idx s; simpl.
  - f_equal. lia.
  - rewrite IH. f_equal. lia.
Qed.

Lemma apply_rows_chunks now i m (table : list (gmap string cell)) s :
  apply_rows now i (take (100 + m) table) s
  = apply_rows now (i + 100) (take m (drop 100 table))
      (apply_rows now i (take 100 table) s).
Proof.
  rewrite <- take_take_drop, apply_rows_app.
  destruct (le_lt_dec 100 (length table)) as [H | H].
  - rewrite length_take_le by lia. reflexivity.
  - rewrite (drop_ge table 100) by lia. rewrite take_nil. reflexivity.
Qed.

Section Healthy.
Variable env : Env.
Hypothesis up : db_up env.

Lemma commit_up w : commit env w = (Ok tt, with_db (fun d => persist (bump d)) w).
Proof. unfold commit. rewrite up. reflexivity. Qed.

Lemma session_call_up w : session_call env w = (Ok tt, with_db bump w).
Proof. unfold session_call. rewrite up. reflexivity. Qed.

(** One row: the session's table and the counters move as [apply_row]
    says; the loaded job, the files, the queue and the log stay. *)
Lemma process_row_up idx row c w :
  exists w',
    process_row env idx row c w
    = (Ok (snd (apply_row (utcnow env) idx row (session_products (db w), c))), w')
    /\ session_products (db w')
       = fst (apply_row (utcnow env) idx row (session_products (db w), c))
    /\ session_job (db w') = session_job (db w)
    /\ sys w' = sys w /\ webhooks (db w') = webhooks (db w).
Proof.
  unfold apply_row. cbn [fst snd].
  destruct (validate_row idx row) as [msg | sku name description] eqn:V.
  - exists w. rewrite (process_row_rejected env idx row c w msg V). auto.
  - destruct (upsert (utcnow env) sku name description (session_products (db w)) c)
      as [ps' c'] eqn:U.
    destruct (Z.eq_dec (processed_count c' mod 50) 0) as [N | N].
    + rewrite (process_row_checkpoint env idx row c w _ _ _ _ _ V (up _) U N), up.
      eexists. split; [reflexivity|]. simpl. auto.
    + rewrite (process_row_no_checkpoint env idx row c w _ _ _ _ _ V (up _) U N).
      eexists. split; [reflexivity|]. simpl. auto.
Qed.

Lemma rows_loop_up chunk : forall idx c w,
  exists w',
    rows_loop env idx chunk c w
    = (Ok (snd (apply_rows (utcnow env) idx chunk (session_products (db w), c))), w')
    /\ session_products (db w')
       = fst (apply_rows (utcnow env) idx chunk (session_products (db w), c))
    /\ session_job (db w') = session_job (db w)
    /\ sys w' = sys w /\ webhooks (db w') = webhooks (db w).
Proof.
  induction chunk as [|row rest IH]; intros idx c w.
  - exists w. simpl. auto.
  - destruct (process_row_up idx row c w) as (w1 & E1 & P1 & J1 & S1 & W1).
    set (s1 := apply_row (utcnow env) idx row (session_products (db w), c)) in *.
    destruct (IH (idx + 1) (snd s1) w1) as (w2 & E2 & P2 & J2 & S2 & W2).
    exists w2. cbn [rows_loop apply_rows]. unfold bind. rewrite E1, E2.
    fold s1. rewrite P1 in *. rewrite <- surjective_pairing in *.
    repeat split; congruence.
Qed.

Lemma process_chunk_up df total i c w :
  exists w',
    process_chunk env df total i c w
    = (Ok (snd (apply_rows (utcnow env) i
                  (take 100 (drop (Z.to_nat i) (rows df)))
                  (session_products (db w), c))), w')
    /\ session_products (db w')
       = fst (apply_rows (utcnow env) i (take 100 (drop (Z.to_nat i) (rows df)))
                (session_products (db w), c))
    /\ session_job (db w')
       = option_map (ImportJob.set_processed_rows (Z.min (i + chunk_size) total))
           (session_job (db w))
    /\ sys w' = sys w /\ webhooks (db w') = webhooks (db w).
Proof.
  unfold process_chunk. change (Z.to_nat chunk_size) with 100%nat.
  destruct (rows_loop_up (take 100 (drop (Z.to_nat i) (rows df))) i c w)
    as (w1 & E1 & P1 & J1 & S1 & W1).
  unfold bind at 1. rewrite E1.
  unfold bind at 1. unfold catch. unfold bind at 1. rewrite commit_up. cbn [ret].
  unfold bind at 1. cbn [set_job modify]. unfold bind at 1. rewrite commit_up.
  cbn [ret]. eexists. split; [reflexivity|]. simpl.
  rewrite P1, J1, S1, W1. auto.
Qed.

Lemma chunks_loop_S df total n i c w :
  chunks_loop env df total (S n) i c w
  = bind (process_chunk env df total i c)
      (fun c' => chunks_loop env df total n (i + chunk_size) c') w.
Proof. reflexivity. Qed.

Lemma chunks_loop_up df total n : forall i c w,
  0 <= i ->
  exists w',
    chunks_loop env df total n i c w
    = (Ok (snd (apply_rows (utcnow env) i
                  (take (n * 100) (drop (Z.to_nat i) (rows df)))
                  (session_products (db w), c))), w')
    /\ session_products (db w')
       = fst (apply_rows (utcnow env) i (take (n * 100) (drop (Z.to_nat i) (rows df)))
                (session_products (db w), c))
    /\ (is_Some (session_job (db w)) -> is_Some (session_job (db w')))
    /\ sys w' = sys w /\ webhooks (db w') = webhooks (db w).
Proof.
  induction n as [|n IH]; intros i c w Hi.
  - exists w. change (chunks_loop env df total 0 i c w) with (Ok c, w).
    simpl. auto.
  - destruct (process_chunk_up df total i c w) as (w1 & E1 & P1 & J1 & S1 & W1).
    set (s1 := apply_rows (utcnow env) i (take 100 (drop (Z.to_nat i) (rows df)))
                 (session_products (db w), c)) in *.
    assert (Hi1 : 0 <= i + chunk_size) by (unfold chunk_size; lia).
    destruct (IH (i + chunk_size) (snd s1) w1 Hi1) as (w2 & E2 & P2 & J2 & S2 & W2).
    exists w2. rewrite chunks_loop_S. unfold bind. rewrite E1, E2.
    assert (Hs : apply_rows (utcnow env) i
                   (take (S n * 100) (drop (Z.to_nat i) (rows df)))
                   (session_products (db w), c)
                 = apply_rows (utcnow env) (i + chunk_size)
                     (take (n * 100) (drop (Z.to_nat (i + chunk_size)) (rows df)))
                     (session_products (db w1), snd s1)).
    { change (S n * 100)%nat with (100 + n * 100)%nat.
      rewrite apply_rows_chunks. fold s1. rewrite drop_drop.
      replace (Z.to_nat (i + chunk_size)) with (Z.to_nat i + 100)%nat
        by (unfold chunk_size; lia).
      rewrite P1, <- surjective_pairing. reflexivity. }
    rewrite Hs. split; [reflexivity|]. split; [exact P2|].
    split; [|split; congruence].
    intros [j Hj]. apply J2. rewrite J1, Hj. simpl. eauto.
Qed.

Lemma chunk_count_covers (table : list (gmap string cell)) :
  (length table <= chunk_count (Z.of_nat (length table)) * 100)%nat.
Proof.
  unfold chunk_count, chunk_size.
  set (t := Z.of_nat (length table)).
  assert (Ht : 0 <= t) by (unfold t; lia).
  assert (Hq : t <= (t + 100 - 1) / 100 * 100).
  { pose proof (Z.div_mod (t + 100 - 1) 100 ltac:(lia)) as Hd.
    pose proof (Z.mod_pos_bound (t + 100 - 1) 100 ltac:(lia)) as Hm. lia. }
  assert (H0 : 0 <= (t + 100 - 1) / 100) by (apply Z.div_pos; lia).
  unfold t in *. lia.
Qed.

(** Lines 108-286 on a healthy database: the rows are imported as the
    fold says, and the table is committed. *)
Lemma import_rows_up job_id file_path df w :
  exists notified w',
    import_rows env job_id file_path df w
    = (Ok (Classified
             (snd (apply_rows (utcnow env) 0 (rows df)
                     (session_products (db w), counters0)))
             notified), w')
    /\ products (db w')
       = fst (apply_rows (utcnow env) 0 (rows df) (session_products (db w), counters0))
    /\ session_products (db w') = products (db w').
Proof.
  unfold import_rows.
  set (total := Z.of_nat (length (rows df))).
  unfold set_job at 1 2. rewrite !bind_modify.
  unfold bind at 1. rewrite commit_up.
  match goal with
  | |- context [bind (chunks_loop env df total _ 0 counters0) _ ?x] => set (wa := x)
  end.
  assert (Pa : session_products (db wa) = session_products (db w)) by reflexivity.
  clearbody wa.
  destruct (chunks_loop_up df total (chunk_count total) 0 counters0 wa (Z.le_refl 0))
    as (w2 & E2 & P2 & _ & _ & _).
  change (Z.to_nat 0) with 0%nat in E2, P2. rewrite drop_0 in E2, P2.
  rewrite take_ge in E2, P2 by apply chunk_count_covers.
  rewrite Pa in E2, P2.
  set (s := apply_rows (utcnow env) 0 (rows df) (session_products (db w), counters0)) in *.
  unfold bind at 1. rewrite E2.
  unfold bind at 1. unfold catch. rewrite commit_up.
  destruct (classify (snd s) total) as [st msg].
  unfold set_job at 1 2 3. rewrite !bind_modify.
  unfold bind at 1. rewrite commit_up.
  rewrite bind_gets.
  match goal with
  | |- context [bind _ _ ?x] => set (w4 := x)
  end.
  assert (P4 : products (db w4) = fst s /\ session_products (db w4) = fst s).
  { unfold w4. simpl. rewrite P2. auto. }
  destruct P4 as [P4 P4'].
  generalize (session_job (db w4)). intros job. clearbody w4.
  assert (exists notified w5,
             forall k : option Payload -> M outcome,
               bind
                 match job with
                 | Some j =>
                     match ImportJob.status j with
                     | completed | completed_with_errors =>
                         notify env (payload_of job_id (snd s)) ;;
                         ret (Some (payload_of job_id (snd s)))
                     | _ => ret None
                     end
                 | None => ret None
                 end k w4 = k notified w5
               /\ products (db w5) = fst s /\ session_products (db w5) = fst s)
    as (notified & w5 & H5).
  { destruct (notify_spec env (payload_of job_id (snd s)) w4) as (w5 & E & Hd & _).
    assert (Hp : products (db w5) = fst s /\ session_products (db w5) = fst s)
      by (destruct Hd as [-> | ->]; auto).
    destruct job as [j|]; [destruct (ImportJob.status j)|].
    1-3, 6, 7: exists None, w4; intros k; rewrite bind_ret; auto.
    all: exists (Some (payload_of job_id (snd s))), w5; intros k;
      rewrite bind_bind; unfold bind at 1; rewrite E; rewrite bind_ret; tauto. }
  destruct (H5 (fun notified => cleanup env file_path ;; ret (Classified (snd s) notified)))
    as (E5 & P5 & P5').
  rewrite E5.
  destruct (cleanup_spec env file_path w5) as (w6 & E6 & Hd6 & _).
  unfold bind at 1. rewrite E6. cbn [ret].
  exists notified, w6. rewrite Hd6. split; [reflexivity|]. split; congruence.
Qed.

Lemma refuse_up msg w :
  exists w',
    refuse env msg w = (Ok (Refused msg), w')
    /\ products (db w') = session_products (db w)
    /\ session_products (db w') = session_products (db w).
Proof.
  unfold refuse, set_job. rewrite !bind_modify. unfold bind at 1. rewrite commit_up.
  cbn [ret]. eexists. split; [reflexivity|]. simpl. auto.
Qed.

(** The body of the outer [try] on a healthy database, for a job that is
    there: refused with the message of the early exit that applies, or
    classified with the counters and the table of the fold. *)
Lemma pipeline_up job_id file_path w j :
  import_jobs (db w) !! job_id = Some j ->
  exists o w',
    pipeline env job_id file_path w = (Ok o, w')
    /\ session_products (db w') = products (db w')
    /\ match refusal file_path (files (sys w) !! file_path) with
       | Some msg => o = Refused msg /\ products (db w') = session_products (db w)
       | None =>
           exists notified,
             o = Classified
                   (snd (apply_rows (utcnow env) 0
                           (parsed_rows (files (sys w) !! file_path))
                           (session_products (db w), counters0)))
                   notified
             /\ products (db w')
                = fst (apply_rows (utcnow env) 0
                         (parsed_rows (files (sys w) !! file_path))
                         (session_products (db w), counters0))
       end.
Proof.
  intros Hj. unfold pipeline, query_job.
  rewrite bind_bind. unfold bind at 1. rewrite session_call_up.
  rewrite bind_bind, bind_gets. cbn [with_db db bump import_jobs]. rewrite Hj.
  rewrite bind_bind, bind_modify, bind_ret.
  unfold set_job at 1. rewrite bind_modify.
  unfold bind at 1. rewrite commit_up. rewrite bind_gets.
  match goal with
  | |- context [files (sys ?x) !! file_path] =>
      change (files (sys x) !! file_path) with (files (sys w) !! file_path);
      set (w1 := x)
  end.
  assert (P1 : session_products (db w1) = session_products (db w)) by reflexivity.
  clearbody w1.
  assert (R : forall msg,
             exists o w',
               refuse env msg w1 = (Ok o, w')
               /\ session_products (db w') = products (db w')
               /\ o = Refused msg /\ products (db w') = session_products (db w)).
  { intros msg. destruct (refuse_up msg w1) as (w' & E & A & B).
    exists (Refused msg), w'. rewrite E. repeat split; congruence. }
  unfold refusal, parsed_rows.
  destruct (files (sys w) !! file_path) as [[df | e]|]; [| |apply R].
  - destruct (List.filter (fun col => negb (Py.str_in col (columns df))) required_cols);
      [|apply R].
    destruct (import_rows_up job_id file_path df w1) as (notified & w' & E & A & B).
    rewrite P1 in E, A. eexists _, w'. split; [exact E|]. split; [exact B|].
    exists notified. auto.
  - destruct e; apply R.
Qed.

(** The whole task on a healthy database. *)
Lemma run_up job_id file_path w j :
  import_jobs (db w) !! job_id = Some j ->
  match refusal file_path (files (sys w) !! file_path) with
  | Some msg =>
      fst (process_csv_import_sync env job_id file_path w) = Refused msg
      /\ products (db (snd (process_csv_import_sync env job_id file_path w)))
         = products (db w)
  | None =>
      exists notified,
        fst (process_csv_import_sync env job_id file_path w)
        = Classified
            (snd (apply_rows (utcnow env) 0 (parsed_rows (files (sys w) !! file_path))
                    (products (db w), counters0)))
            notified
        /\ products (db (snd (process_csv_import_sync env job_id file_path w)))
           = fst (apply_rows (utcnow env) 0 (parsed_rows (files (sys w) !! file_path))
                    (products (db w), counters0))
  end.
Proof.
  intros Hj. unfold process_csv_import_sync.
  destruct (pipeline_up job_id file_path (with_db SessionLocal w) j Hj)
    as (o & w' & E & S & P).
  rewrite E. cbn [fst snd].
  change (files (sys (with_db SessionLocal w))) with (files (sys w)) in P.
  change (session_products (db (with_db SessionLocal w))) with (products (db w)) in P.
  change (products (db (close w'))) with (products (db w')).
  exact P.
Qed.

End Healthy.

(** ** The fold *)

Lemma validate_row_label idx idx' row :
  match validate_row idx row, validate_row idx' row with
  | Rejected _, Rejected _ => True
  | Accepted sku name d, Accepted sku' name' d' => sku = sku' /\ name = name' /\ d = d'
  | _, _ => False
  end.
Proof.
  unfold validate_row.
  destruct (is_null_token _); [exact I|].
  destruct (is_null_token _); [exact I|]. auto.
Qed.

Lemma valid_row_accepted idx row :
  valid_row row = true ->
  exists sku name d, validate_row idx row = Accepted sku name d.
Proof.
  unfold valid_row. pose proof (validate_row_label idx 0 row) as H.
  destruct (validate_row idx row), (validate_row 0 row); try contradiction;
    try discriminate; eauto.
Qed.

Lemma valid_row_rejected idx row :
  valid_row row = false -> exists msg, validate_row idx row = Rejected msg.
Proof.
  unfold valid_row. pose proof (validate_row_label idx 0 row) as H.
  destruct (validate_row idx row), (validate_row 0 row); try contradiction;
    try discriminate; eauto.
Qed.

Lemma upsert_table now sku name d ps c :
  keys (fst (upsert now sku name d ps c))
  = (keys ps ++ match first_by_sku (Py.lower sku) ps with
                | Some _ => []
                | None => [Py.lower sku]
                end)%list
  /\ created_count (snd (upsert now sku name d ps c))
     = created_count c + match first_by_sku (Py.lower sku) ps with
                         | Some _ => 0
                         | None => 1
                         end
  /\ updated_count (snd (upsert now sku name d ps c))
     = updated_count c + match first_by_sku (Py.lower sku) ps with
                         | Some _ => 1
                         | None => 0
                         end.
Proof.
  destruct (first_by_sku (Py.lower sku) ps) as [p|] eqn:F.
  - destruct (upsert_found now name d sku ps c p F) as (b & a & -> & _ & ->).
    simpl. unfold keys. rewrite !map_app. simpl. rewrite app_nil_r.
    repeat split; lia.
  - rewrite (upsert_missing now name d sku ps c F). simpl.
    unfold keys. rewrite map_app. simpl. repeat split; lia.
Qed.

Lemma first_by_sku_keys key ps :
  is_Some (first_by_sku key ps) <-> In key (keys ps).
Proof.
  unfold first_by_sku, keys. induction ps as [|p ps IH]; simpl.
  - split; [intros [? ?]; discriminate | tauto].
  - destruct (Py.lower (Product.sku p) =? key)%string eqn:E.
    + apply String.eqb_eq in E. split; eauto.
    + apply String.eqb_neq in E. rewrite IH. tauto.
Qed.

(** What the fold does to the counters and to the size of the table. *)
Lemma apply_rows_counters now table : forall idx ps c,
  let s := apply_rows now idx table (ps, c) in
  processed_count (snd s)
  = processed_count c + Z.of_nat (length (List.filter valid_row table))
  /\ error_count (snd s)
     = error_count c
       + Z.of_nat (length (List.filter (fun row => negb (valid_row row)) table))
  /\ Z.of_nat (length (errors (snd s))) - error_count (snd s)
     = Z.of_nat (length (errors c)) - error_count c
  /\ created_count (snd s) + updated_count (snd s)
     = created_count c + updated_count c
       + Z.of_nat (length (List.filter valid_row table))
  /\ Z.of_nat (length (fst s)) - created_count (snd s)
     = Z.of_nat (length ps) - created_count c
  /\ created_count c <= created_count (snd s).
Proof.
  induction table as [|row rest IH]; intros idx ps c; cbn [apply_rows].
  - simpl. lia.
  - cbn [List.filter].
    destruct (valid_row row) eqn:V.
    + destruct (valid_row_accepted idx row V) as (sku & name & d & E).
      destruct (upsert now sku name d ps c) as [ps1 c1] eqn:U.
      assert (A : apply_row now idx row (ps, c) = (ps1, c1))
        by (unfold apply_row; rewrite E; exact U).
      rewrite A.
      pose proof (upsert_counters _ _ _ _ _ _ _ _ U) as (Hp & Hcu & He & Hl).
      pose proof (upsert_table now sku name d ps c) as (Hk & Hc & Hu).
      rewrite U in Hk, Hc, Hu. cbn [fst snd] in Hk, Hc, Hu.
      assert (Hlen : Z.of_nat (length ps1) - created_count c1
                     = Z.of_nat (length ps) - created_count c).
      { apply (f_equal (@length string)) in Hk. unfold keys in Hk.
        rewrite length_app, !length_map in Hk.
        destruct (first_by_sku (Py.lower sku) ps); simpl in Hk; lia. }
      assert (Hcr : created_count c <= created_count c1)
        by (destruct (first_by_sku (Py.lower sku) ps); lia).
      specialize (IH (idx + 1) ps1 c1). cbn zeta in IH. cbn [negb length].
      rewrite Hl, He in *. lia.
    + destruct (valid_row_rejected idx row V) as (msg & E).
      assert (A : apply_row now idx row (ps, c) = (ps, record_error msg 1 c))
        by (unfold apply_row; rewrite E; reflexivity).
      rewrite A.
      specialize (IH (idx + 1) ps (record_error msg 1 c)). cbn zeta in IH.
      cbn [negb length] in *. simpl in IH. rewrite length_app in IH. simpl in IH. lia.
Qed.

(** The fold never drops a key, and it holds the key of every row it
    accepted. *)
Lemma apply_rows_keys now table : forall idx ps c,
  let s := apply_rows now idx table (ps, c) in
  (exists extra, keys (fst s) = (keys ps ++ extra)%list)
  /\ forall row sku name d,
       In row table -> validate_row 0 row = Accepted sku name d ->
       In (Py.lower sku) (keys (fst s)).
Proof.
  induction table as [|row rest IH]; intros idx ps c; cbn [apply_rows].
  - split; [exists []; rewrite app_nil_r; reflexivity | intros ? ? ? ? []].
  - destruct (apply_row now idx row (ps, c)) as [ps1 c1] eqn:A.
    destruct (IH (idx + 1) ps1 c1) as [(extra & Hk) Hin]. cbn zeta.
    assert (H1 : exists e1, keys ps1 = (keys ps ++ e1)%list
                 /\ forall sku name d,
                      validate_row 0 row = Accepted sku name d ->
                      In (Py.lower sku) (keys ps1)).
    { unfold apply_row in A. cbn [fst snd] in A.
      pose proof (validate_row_label idx 0 row) as L.
      destruct (validate_row idx row) as [msg | sku name d].
      - injection A as <- _. exists []. rewrite app_nil_r. split; [reflexivity|].
        intros sku name d E. rewrite E in L. destruct L.
      - pose proof (upsert_table now sku name d ps c) as (Hk1 & _).
        rewrite A in Hk1. cbn [fst] in Hk1. eexists. split; [exact Hk1|].
        intros sku' name' d' E. rewrite E in L. destruct L as (-> & _ & _).
        rewrite Hk1. destruct (first_by_sku (Py.lower sku') ps) eqn:F.
        + rewrite app_nil_r. apply first_by_sku_keys. rewrite F. eauto.
        + apply in_or_app. right. left. reflexivity. }
    destruct H1 as (e1 & Hk1 & Hrow). split.
    + exists (e1 ++ extra)%list. rewrite Hk, Hk1, app_assoc. reflexivity.
    + intros r sku name d [<- | Hr] E.
      * rewrite Hk. apply in_or_app. left. eapply Hrow; eauto.
      * eapply Hin; eauto.
Qed.

(** Rows whose keys are all there already only update: nothing is
    created, no key is added. *)
Lemma apply_rows_known now table : forall idx ps c,
  (forall row sku name d,
     In row table -> validate_row 0 row = Accepted sku name d ->
     In (Py.lower sku) (keys ps)) ->
  let s := apply_rows now idx table (ps, c) in
  keys (fst s) = keys ps
  /\ created_count (snd s) = created_count c
  /\ updated_count (snd s)
     = updated_count c + Z.of_nat (length (List.filter valid_row table)).
Proof.
  induction table as [|row rest IH]; intros idx ps c Hknown; cbn [apply_rows].
  - simpl. repeat split; lia.
  - unfold apply_row. cbn [fst snd List.filter].
    pose proof (validate_row_label idx 0 row) as L.
    destruct (valid_row row) eqn:V.
    + destruct (valid_row_accepted idx row V) as (sku & name & d & E).
      rewrite E in *.
      destruct (validate_row 0 row) as [|sku' name' d'] eqn:E0; [destruct L|].
      destruct L as (<- & <- & <-).
      assert (Hin : In (Py.lower sku) (keys ps))
        by (eapply Hknown; eauto; left; reflexivity).
      apply first_by_sku_keys in Hin. destruct Hin as [p F].
      pose proof (upsert_table now sku name d ps c) as (Hk & Hc & Hu).
      rewrite F in Hk, Hc, Hu. rewrite app_nil_r in Hk.
      destruct (upsert now sku name d ps c) as [ps1 c1]. cbn [fst snd] in *.
      destruct (IH (idx + 1) ps1 c1) as (Hk' & Hc' & Hu').
      { intros r s n dd Hr Er. rewrite Hk. eapply Hknown; eauto. right. exact Hr. }
      cbn [length]. repeat split; try congruence; lia.
    + destruct (valid_row_rejected idx row V) as (msg & E). rewrite E.
      destruct (IH (idx + 1) ps (record_error msg 1 c)) as (Hk' & Hc' & Hu').
      { intros r s n dd Hr Er. eapply Hknown; eauto. right. exact Hr. }
      simpl in *. repeat split; try congruence; lia.
Qed.

Lemma str_in_In (x : string) (l : list string) : Py.str_in x l = true <-> In x l.
Proof.
  unfold Py.str_in. rewrite existsb_exists. split.
  - intros (y & Hy & E). apply String.eqb_eq in E. subst. exact Hy.
  - intros H. exists x. split; [exact H | apply String.eqb_refl].
Qed.

(** The rows are imported exactly when the staged file parses and shows
    both required columns. *)
Lemma refusal_none file_path file :
  refusal file_path file = None
  <-> exists df, file = Some (Parsed df)
                 /\ forall col, In col required_cols -> In col (columns df).
Proof.
  unfold refusal. destruct file as [[df | e]|].
  - split.
    + intros H. exists df. split; [reflexivity|]. intros col Hc.
      destruct (List.filter _ required_cols) eqn:F; [|discriminate].
      destruct (Py.str_in col (columns df)) eqn:S; [apply str_in_In, S|].
      assert (Hin : In col (List.filter
                              (fun col => negb (Py.str_in col (columns df)))
                              required_cols)).
      { apply filter_In. rewrite S. auto. }
      rewrite F in Hin. destruct Hin.
    + intros (df' & [= <-] & Hc).
      destruct (List.filter _ required_cols) as [|col l] eqn:F; [reflexivity|].
      assert (Hin : In col (List.filter
                              (fun col => negb (Py.str_in col (columns df)))
                              required_cols)) by (rewrite F; left; reflexivity).
      apply filter_In in Hin as [Hr Hn]. apply Hc, str_in_In in Hr.
      rewrite Hr in Hn. discriminate.
  - split; [destruct e; discriminate | intros (df & [=] & _)].
  - split; [discriminate | intros (df & [=] & _)].
Qed.

(** ** C3: the upsert in the row loop and in a run *)

(** The label of a row does not change what an accepted row is upserted
    as. *)
Lemma apply_row_accepted now idx idx' row s sku name description :
  validate_row idx' row = Accepted sku name description ->
  apply_row now idx row s = upsert now sku name description (fst s) (snd s).
Proof.
  intros V. unfold apply_row.
  pose proof (validate_row_label idx idx' row) as L. rewrite V in L.
  destruct (validate_row idx row) as [msg | sku' name' d']; [destruct L|].
  destruct L as (-> & -> & ->). reflexivity.
Qed.

(** A row whose key was added by an earlier row updates the record that
    was added. *)
Lemma upsert_after_created now2 sku name description sku2 name2 description2 ps c2 :
  Py.lower sku2 = Py.lower sku ->
  first_by_sku (Py.lower sku) ps = None ->
  upsert now2 sku2 name2 description2
    (ps ++ [Product.mk sku name description true None]) c2
  = ((ps ++ [Product.mk sku name2 description2 true (Some now2)])%list,
     count_updated c2).
Proof.
  intros Hk Hnone. unfold upsert. rewrite Hk.
  rewrite first_by_sku_app_none by exact Hnone.
  unfold first_by_sku at 1. cbn [List.find Product.sku]. rewrite String.eqb_refl.
  rewrite (update_first_split now2 name2 description2 (Py.lower sku) ps
             (Product.mk sku name description true None) [] Hnone eq_refl).
  reflexivity.
Qed.

(** Two rows with the same key on a table without it: the first is added,
    the second updates the record that the first added. *)
Lemma upsert_pair now now2 sku name description sku2 name2 description2 ps c :
  Py.lower sku2 = Py.lower sku ->
  first_by_sku (Py.lower sku) ps = None ->
  upsert now2 sku2 name2 description2
    (fst (upsert now sku name description ps c))
    (snd (upsert now sku name description ps c))
  = ((ps ++ [Product.mk sku name2 description2 true (Some now2)])%list,
     count_updated (count_created c)).
Proof.
  intros Hk Hnone. rewrite (upsert_missing now name description sku ps c Hnone).
  cbn [fst snd]. apply upsert_after_created; assumption.
Qed.

(** A healthy run of a staged file with the required columns is the fold
    of its rows. *)
Lemma run_rows env job_id file_path w j df :
  db_up env ->
  import_jobs (db w) !! job_id = Some j ->
  files (sys w) !! file_path = Some (Parsed df) ->
  (forall col, In col required_cols -> In col (columns df)) ->
  exists notified,
    fst (process_csv_import_sync env job_id file_path w)
    = Classified
        (snd (apply_rows (utcnow env) 0 (rows df) (products (db w), counters0)))
        notified
    /\ products (db (snd (process_csv_import_sync env job_id file_path w)))
       = fst (apply_rows (utcnow env) 0 (rows df) (products (db w), counters0)).
Proof.
  intros Hup Hj Hf Hc.
  pose proof (run_up env Hup job_id file_path w j Hj) as R.
  assert (Hr : refusal file_path (files (sys w) !! file_path) = None)
    by (apply refusal_none; eauto).
  rewrite Hr in R. rewrite Hf in R. exact R.
Qed.

(** C3.  The upsert of a valid row looks its sku up without regard to
    case.  A record that is found keeps its place and its sku and takes
    the row's name and description and the current time, and the row is
    counted as updated; otherwise a record is added with the sku as
    written, and the row is counted as created.  Hence a second row with
    the same key, in whatever case, is counted as updated, leaves one
    record under the key where there was at most one, and that record
    carries the second row's values; on a table without the key the two
    rows count one created and one updated.

    The row loop does exactly this to the session's table: for a row that
    validation accepts, when the lookup and the checkpoint commit (if one
    is due) are answered, [process_row] leaves the table and the counters
    of the upsert.  And so does a run: on a database that answers every
    call, a file whose one row has a key of the catalog replaces that
    record's name and description in place and reports one update and no
    creation; a file of two rows with the same key, on a catalog without
    it, commits one new record with the first row's sku and the second
    row's values, and reports one created and one updated; and the two
    rows imported by two successive runs leave the same record, the second
    run reporting one update and no creation. *)
Theorem C3_upsert_by_key (now : Z) (sku name description : string)
    (ps : list Product.t) (c : Counters) :
  (forall p, first_by_sku (Py.lower sku) ps = Some p ->
     exists before after,
       ps = (before ++ p :: after)%list
       /\ first_by_sku (Py.lower sku) before = None
       /\ upsert now sku name description ps c
          = ((before ++ Product.mk (Product.sku p) name description
                          (Product.active p) (Some now) :: after)%list,
             count_updated c))
  /\ (first_by_sku (Py.lower sku) ps = None ->
      upsert now sku name description ps c
      = ((ps ++ [Product.mk sku name description true None])%list, count_created c))
  /\ (forall now2 sku2 name2 description2,
        Py.lower sku2 = Py.lower sku ->
        let first := upsert now sku name description ps c in
        let second := upsert now2 sku2 name2 description2 (fst first) (snd first) in
        updated_count (snd second) = updated_count (snd first) + 1
        /\ created_count (snd second) = created_count (snd first)
        /\ processed_count (snd second) = processed_count (snd first) + 1
        /\ ((count_sku sku ps <= 1)%nat -> count_sku sku (fst second) = 1%nat))
  /\ (forall now2 sku2 name2 description2,
        Py.lower sku2 = Py.lower sku ->
        count_sku sku ps = 0%nat ->
        let first := upsert now sku name description ps c in
        let second := upsert now2 sku2 name2 description2 (fst first) (snd first) in
        created_count (snd second) = created_count c + 1
        /\ updated_count (snd second) = updated_count c + 1
        /\ count_sku sku (fst second) = 1%nat
        /\ first_by_sku (Py.lower sku) (fst second)
           = Some (Product.mk sku name2 description2 true (Some now2)))
  /\ (forall env idx row w,
        validate_row idx row = Accepted sku name description ->
        utcnow env = now ->
        session_products (db w) = ps ->
        db_fault env (db_ops (db w)) = None ->
        db_fault env (S (db_ops (db w))) = None ->
        exists w',
          process_row env idx row c w
          = (Ok (snd (upsert now sku name description ps c)), w')
          /\ session_products (db w') = fst (upsert now sku name description ps c))
  /\ (forall env job_id file_path w j df row p,
        db_up env ->
        utcnow env = now ->
        import_jobs (db w) !! job_id = Some j ->
        products (db w) = ps ->
        files (sys w) !! file_path = Some (Parsed df) ->
        (forall col, In col required_cols -> In col (columns df)) ->
        rows df = [row] ->
        validate_row 0 row = Accepted sku name description ->
        first_by_sku (Py.lower sku) ps = Some p ->
        exists before after notified,
          ps = (before ++ p :: after)%list
          /\ first_by_sku (Py.lower sku) before = None
          /\ fst (process_csv_import_sync env job_id file_path w)
             = Classified (count_updated counters0) notified
          /\ products (db (snd (process_csv_import_sync env job_id file_path w)))
             = (before ++ Product.mk (Product.sku p) name description
                            (Product.active p) (Some now) :: after)%list)
  /\ (forall env job_id file_path w j df row1 row2 sku2 name2 description2,
        db_up env ->
        utcnow env = now ->
        import_jobs (db w) !! job_id = Some j ->
        products (db w) = ps ->
        files (sys w) !! file_path = Some (Parsed df) ->
        (forall col, In col required_cols -> In col (columns df)) ->
        rows df = [row1; row2] ->
        validate_row 0 row1 = Accepted sku name description ->
        validate_row 1 row2 = Accepted sku2 name2 description2 ->
        Py.lower sku2 = Py.lower sku ->
        first_by_sku (Py.lower sku) ps = None ->
        exists notified,
          fst (process_csv_import_sync env job_id file_path w)
          = Classified (count_updated (count_created counters0)) notified
          /\ products (db (snd (process_csv_import_sync env job_id file_path w)))
             = (ps ++ [Product.mk sku name2 description2 true (Some now)])%list)
  /\ (forall env env2 job_id job_id2 file_path file_path2 w j j2 df df2 row1 row2
             sku2 name2 description2,
        db_up env -> db_up env2 ->
        utcnow env = now ->
        import_jobs (db w) !! job_id = Some j ->
        products (db w) = ps ->
        files (sys w) !! file_path = Some (Parsed df) ->
        (forall col, In col required_cols -> In col (columns df)) ->
        rows df = [row1] ->
        validate_row 0 row1 = Accepted sku name description ->
        first_by_sku (Py.lower sku) ps = None ->
        let w1 := snd (process_csv_import_sync env job_id file_path w) in
        import_jobs (db w1) !! job_id2 = Some j2 ->
        files (sys w1) !! file_path2 = Some (Parsed df2) ->
        (forall col, In col required_cols -> In col (columns df2)) ->
        rows df2 = [row2] ->
        validate_row 0 row2 = Accepted sku2 name2 description2 ->
        Py.lower sku2 = Py.lower sku ->
        exists notified notified2,
          fst (process_csv_import_sync env job_id file_path w)
          = Classified (count_created counters0) notified
          /\ fst (process_csv_import_sync env2 job_id2 file_path2 w1)
             = Classified (count_updated counters0) notified2
          /\ products (db (snd (process_csv_import_sync env2 job_id2 file_path2 w1)))
             = (ps ++ [Product.mk sku name2 description2 true (Some (utcnow env2))])%list).
Proof.
  destruct (upsert_by_key now sku name description ps c) as (K1 & K2 & K3 & K4).
  split; [exact K1|]. split; [exact K2|]. split; [exact K3|]. split; [exact K4|].
  split; [|split; [|split]].
  - intros env idx row w V <- <- F F'.
    destruct (upsert (utcnow env) sku name description (session_products (db w)) c)
      as [ps' c'] eqn:U.
    cbn [fst snd].
    destruct (Z.eq_dec (processed_count c' mod 50) 0) as [N | N].
    + rewrite (process_row_checkpoint env idx row c w sku name description ps' c' V F U N).
      rewrite F'. eexists. split; reflexivity.
    + rewrite (process_row_no_checkpoint env idx row c w sku name description ps' c' V F U N).
      eexists. split; reflexivity.
  - intros env job_id file_path w j df row p Hup <- Hj <- Hf Hc Hr V Hp.
    destruct (run_rows env job_id file_path w j df Hup Hj Hf Hc) as (notified & Ho & Hps).
    rewrite Hr in Ho, Hps. cbn [apply_rows] in Ho, Hps.
    rewrite (apply_row_accepted _ 0 0 row _ sku name description V) in Ho, Hps.
    cbn [fst snd] in Ho, Hps.
    destruct (upsert_found (utcnow env) name description sku (products (db w)) counters0 p Hp)
      as (before & after & Hsplit & Hb & E).
    rewrite E in Ho, Hps. cbn [fst snd] in Ho, Hps.
    exists before, after, notified.
    split; [exact Hsplit|]. split; [exact Hb|]. split; [exact Ho | exact Hps].
  - intros env job_id file_path w j df row1 row2 sku2 name2 description2
           Hup <- Hj <- Hf Hc Hr V1 V2 Hk Hnone.
    destruct (run_rows env job_id file_path w j df Hup Hj Hf Hc) as (notified & Ho & Hps).
    rewrite Hr in Ho, Hps. cbn [apply_rows] in Ho, Hps.
    rewrite (apply_row_accepted _ 0 0 row1 _ sku name description V1) in Ho, Hps.
    rewrite (apply_row_accepted _ (0 + 1) 1 row2 _ sku2 name2 description2 V2) in Ho, Hps.
    cbn [fst snd] in Ho, Hps.
    rewrite (upsert_pair _ _ sku name description sku2 name2 description2 _ _ Hk Hnone)
      in Ho, Hps.
    exists notified. split; [exact Ho | exact Hps].
  - intros env env2 job_id job_id2 file_path file_path2 w j j2 df df2 row1 row2
           sku2 name2 description2
           Hup Hup2 <- Hj <- Hf Hc Hr V1 Hnone w1 Hj2 Hf2 Hc2 Hr2 V2 Hk.
    destruct (run_rows env job_id file_path w j df Hup Hj Hf Hc) as (notified & Ho & Hps).
    rewrite Hr in Ho, Hps. cbn [apply_rows] in Ho, Hps.
    rewrite (apply_row_accepted _ 0 0 row1 _ sku name description V1) in Ho, Hps.
    cbn [fst snd] in Ho, Hps.
    destruct (run_rows env2 job_id2 file_path2 w1 j2 df2 Hup2 Hj2 Hf2 Hc2)
      as (notified2 & Ho2 & Hps2).
    rewrite Hr2 in Ho2, Hps2. cbn [apply_rows] in Ho2, Hps2.
    rewrite (apply_row_accepted _ 0 0 row2 _ sku2 name2 description2 V2) in Ho2, Hps2.
    cbn [fst snd] in Ho2, Hps2.
    fold w1 in Hps.
    rewrite (upsert_missing (utcnow env) name description sku _ counters0 Hnone)
      in Ho, Hps.
    cbn [fst snd] in Ho, Hps.
    rewrite Hps in Ho2, Hps2.
    rewrite (upsert_after_created (utcnow env2) sku name description
               sku2 name2 description2 _ counters0 Hk Hnone) in Ho2, Hps2.
    cbn [fst snd] in Ho2, Hps2.
    exists notified, notified2. split; [exact Ho|]. split; [exact Ho2 | exact Hps2].
Qed.

(** X1.  On a database that answers every call, the task imports a
    staged file that parses and has both required columns as one fold over
    its rows in file order: each row is validated and, if valid, upserted
    into the catalog.  The task ends classified with the counters of the
    fold, and the committed catalog is the table of the fold: the chunking
    and the checkpoints do not show. *)
Theorem X1_healthy_run_is_fold (env : Env) (job_id file_path : string) (w : World)
    (j : ImportJob.t) (df : DataFrame) :
  db_up env ->
  import_jobs (db w) !! job_id = Some j ->
  files (sys w) !! file_path = Some (Parsed df) ->
  (forall col, In col required_cols -> In col (columns df)) ->
  exists notified,
    fst (process_csv_import_sync env job_id file_path w)
    = Classified
        (snd (apply_rows (utcnow env) 0 (rows df) (products (db w), counters0)))
        notified
    /\ products (db (snd (process_csv_import_sync env job_id file_path w)))
       = fst (apply_rows (utcnow env) 0 (rows df) (products (db w), counters0)).
Proof.
  intros Hup Hj Hf Hc.
  pose proof (run_up env Hup job_id file_path w j Hj) as R.
  assert (Hr : refusal file_path (files (sys w) !! file_path) = None)
    by (apply refusal_none; eauto).
  rewrite Hr in R. rewrite Hf in R. exact R.
Qed.

(** X2.  On a database that answers every call, the task is refused before
    any row exactly when the staged file is missing, cannot be decoded or
    parsed, or lacks a required column.  The job is then committed as
    [failed] with the message of that early exit, no product is touched,
    nothing is dispatched, and the files are left as they were. *)
Theorem X2_refused_before_rows (env : Env) (job_id file_path : string) (w : World) :
  db_up env ->
  fresh_run job_id w ->
  let o := fst (process_csv_import_sync env job_id file_path w) in
  let w' := snd (process_csv_import_sync env job_id file_path w) in
  ((exists msg, o = Refused msg)
   <-> ~ exists df, files (sys w) !! file_path = Some (Parsed df)
                    /\ forall col, In col required_cols -> In col (columns df))
  /\ forall msg,
       o = Refused msg ->
       refusal file_path (files (sys w) !! file_path) = Some msg
       /\ products (db w') = products (db w)
       /\ sys w' = sys w
       /\ exists j', import_jobs (db w') !! job_id = Some j'
                     /\ ImportJob.status j' = failed
                     /\ ImportJob.error_message j' = Some msg.
Proof.
  intros Hup Hf o w'.
  pose proof (run_up env Hup job_id file_path w _ (proj1 Hf)) as R.
  destruct (run_spec env job_id file_path w Hf) as (j' & Hj' & _ & P).
  fold o w' in R, P, Hj'.
  pose proof (refusal_none file_path (files (sys w) !! file_path)) as N.
  destruct (refusal file_path (files (sys w) !! file_path)) as [msg|].
  - destruct R as [Ho Hp]. split.
    + split; [|eauto]. intros _ H. apply N in H. discriminate.
    + intros msg' E. rewrite Ho in E. injection E as <-.
      rewrite Ho in P. destruct P as (A & B & _ & D).
      split; [reflexivity|]. split; [exact Hp|]. split; [exact D|]. eauto.
  - destruct R as (notified & Ho & _). split.
    + split.
      * intros (msg & E). rewrite Ho in E. discriminate.
      * intros H. exfalso. apply H, N. reflexivity.
    + intros msg E. rewrite Ho in E. discriminate.
Qed.

Lemma length_filter_split {A} (f : A -> bool) (l : list A) :
  (length (List.filter f l) + length (List.filter (fun x => negb (f x)) l))%nat
  = length l.
Proof.
  induction l as [|x l IH]; simpl; [reflexivity|].
  destruct (f x); simpl; lia.
Qed.

(** X3.  On a database that answers every call, every row of a classified
    run is accounted for exactly once: [processed_count] is the number of
    rows that pass validation, [error_count] the number of rows that do
    not, one error line is kept per error, the two counts add up to the
    number of rows, and the catalog has grown by [created_count]
    products. *)
Theorem X3_every_row_accounted (env : Env) (job_id file_path : string) (w : World)
    (j : ImportJob.t) (df : DataFrame) (c : Counters) (notified : option Payload) :
  db_up env ->
  import_jobs (db w) !! job_id = Some j ->
  files (sys w) !! file_path = Some (Parsed df) ->
  fst (process_csv_import_sync env job_id file_path w) = Classified c notified ->
  processed_count c = Z.of_nat (length (List.filter valid_row (rows df)))
  /\ error_count c
     = Z.of_nat (length (List.filter (fun row => negb (valid_row row)) (rows df)))
  /\ Z.of_nat (length (errors c)) = error_count c
  /\ processed_count c + error_count c = Z.of_nat (length (rows df))
  /\ Z.of_nat (length (products
                         (db (snd (process_csv_import_sync env job_id file_path w)))))
     = Z.of_nat (length (products (db w))) + created_count c.
Proof.
  intros Hup Hj Hf Ho.
  pose proof (run_up env Hup job_id file_path w j Hj) as R.
  rewrite Hf in R. cbn [parsed_rows] in R.
  destruct (refusal file_path (Some (Parsed df))).
  - destruct R as [E _]. rewrite E in Ho. discriminate.
  - destruct R as (n & E & Hp). rewrite E in Ho. injection Ho as <- _.
    rewrite Hp.
    pose proof (apply_rows_counters (utcnow env) (rows df) 0 (products (db w)) counters0)
      as (A & B & C & _ & D & _).
    cbn zeta in *. simpl in A, B, C, D.
    pose proof (length_filter_split valid_row (rows df)). lia.
Qed.

Lemma apply_rows_none_valid now table : forall idx ps c,
  Forall (fun row => valid_row row = false) table ->
  fst (apply_rows now idx table (ps, c)) = ps
  /\ processed_count (snd (apply_rows now idx table (ps, c))) = processed_count c
  /\ created_count (snd (apply_rows now idx table (ps, c))) = created_count c
  /\ updated_count (snd (apply_rows now idx table (ps, c))) = updated_count c
  /\ error_count (snd (apply_rows now idx table (ps, c)))
     = error_count c + Z.of_nat (length table).
Proof.
  induction table as [|row rest IH]; intros idx ps c H; cbn [apply_rows].
  - simpl. repeat split; lia.
  - inversion H as [|? ? Hr Hrest]; subst.
    destruct (valid_row_rejected idx row Hr) as (msg & E).
    assert (A : apply_row now idx row (ps, c) = (ps, record_error msg 1 c))
      by (unfold apply_row; rewrite E; reflexivity).
    rewrite A. destruct (IH (idx + 1) ps (record_error msg 1 c) Hrest)
      as (-> & -> & -> & -> & ->).
    simpl. repeat split; lia.
Qed.

(** X4.  On a database that answers every call, a table with rows of which
    none passes validation ends [failed]: one error is counted per row,
    nothing is counted as processed, created or updated, the catalog is
    exactly as before, and the webhooks are not notified. *)
Theorem X4_no_valid_row_fails (env : Env) (job_id file_path : string) (w : World)
    (df : DataFrame) :
  db_up env ->
  fresh_run job_id w ->
  files (sys w) !! file_path = Some (Parsed df) ->
  (forall col, In col required_cols -> In col (columns df)) ->
  rows df <> [] ->
  Forall (fun row => valid_row row = false) (rows df) ->
  let o := fst (process_csv_import_sync env job_id file_path w) in
  let w' := snd (process_csv_import_sync env job_id file_path w) in
  (exists c,
     o = Classified c None
     /\ error_count c = Z.of_nat (length (rows df))
     /\ processed_count c = 0 /\ created_count c = 0 /\ updated_count c = 0)
  /\ products (db w') = products (db w)
  /\ celery_queue (sys w') = celery_queue (sys w)
  /\ outbox (sys w') = outbox (sys w)
  /\ exists j', import_jobs (db w') !! job_id = Some j'
                /\ ImportJob.status j' = failed.
Proof.
  intros Hup Hf Hfile Hc Hne Hall o w'.
  pose proof (run_up env Hup job_id file_path w _ (proj1 Hf)) as R.
  assert (Hr : refusal file_path (files (sys w) !! file_path) = None)
    by (apply refusal_none; eauto).
  rewrite Hr, Hfile in R. cbn [parsed_rows] in R. destruct R as (n & Ho & Hp).
  destruct (apply_rows_none_valid (utcnow env) (rows df) 0 (products (db w)) counters0
              Hall) as (A & B & C & D & E).
  destruct (run_spec env job_id file_path w Hf) as (j' & Hj' & _ & P).
  fold o w' in Ho, Hp, P, Hj'. rewrite Ho in P.
  destruct P as (_ & Hcl & _ & Hn & _ & _ & Hq).
  set (c := snd (apply_rows (utcnow env) 0 (rows df) (products (db w), counters0))) in *.
  assert (Hpos : 0 < error_count c).
  { rewrite E. simpl. destruct (rows df); [contradiction | simpl; lia]. }
  unfold classify in Hcl. apply Z.ltb_lt in Hpos. rewrite Hpos, B in Hcl.
  simpl in Hcl. injection Hcl as Hs _.
  rewrite Hs in Hn. simpl in Hn. subst n.
  split; [exists c; simpl in *; auto|].
  split; [congruence|]. split; [apply Hq|]. split; [apply Hq|]. eauto.
Qed.

(** X5.  On a database that answers every call, a file with a header and
    no data row ends [completed] without message: all counters are zero,
    the catalog is as before, and the webhooks are still notified, with a
    count of zero. *)
Theorem X5_empty_table_completes (env : Env) (job_id file_path : string) (w : World)
    (df : DataFrame) :
  db_up env ->
  fresh_run job_id w ->
  files (sys w) !! file_path = Some (Parsed df) ->
  (forall col, In col required_cols -> In col (columns df)) ->
  rows df = [] ->
  let o := fst (process_csv_import_sync env job_id file_path w) in
  let w' := snd (process_csv_import_sync env job_id file_path w) in
  o = Classified counters0
        (Some {| pl_job_id := job_id; pl_count := 0; pl_created := 0;
                 pl_updated := 0; pl_errors := 0 |})
  /\ products (db w') = products (db w)
  /\ exists j', import_jobs (db w') !! job_id = Some j'
                /\ ImportJob.status j' = completed
                /\ ImportJob.error_message j' = None.
Proof.
  intros Hup Hf Hfile Hc Hrows o w'.
  pose proof (run_up env Hup job_id file_path w _ (proj1 Hf)) as R.
  assert (Hr : refusal file_path (files (sys w) !! file_path) = None)
    by (apply refusal_none; eauto).
  rewrite Hr, Hfile in R. cbn [parsed_rows] in R. rewrite Hrows in R.
  cbn [apply_rows fst snd] in R. destruct R as (n & Ho & Hp).
  destruct (run_spec env job_id file_path w Hf) as (j' & Hj' & _ & P).
  fold o w' in Ho, Hp, P, Hj'. rewrite Ho in P.
  destruct P as (_ & Hcl & _ & Hn & _).
  change (classify counters0 (ImportJob.total_rows j')) with (completed, @None string)
    in Hcl.
  injection Hcl as Hs Hm. rewrite Hs in Hn. simpl in Hn. subst n.
  split; [exact Ho|]. split; [exact Hp|]. eauto.
Qed.

(** X6.  Importing the same rows a second time, both times on a database
    that answers every call, creates nothing: every valid row of the
    second run is counted as updated, and the catalog keeps exactly the
    keys it had after the first run, in the same order. *)
Theorem X6_second_import_creates_nothing (env1 env2 : Env)
    (job1 path1 job2 path2 : string) (w : World) (j1 j2 : ImportJob.t)
    (df1 df2 : DataFrame) :
  db_up env1 -> db_up env2 ->
  import_jobs (db w) !! job1 = Some j1 ->
  files (sys w) !! path1 = Some (Parsed df1) ->
  (forall col, In col required_cols -> In col (columns df1)) ->
  let w1 := snd (process_csv_import_sync env1 job1 path1 w) in
  import_jobs (db w1) !! job2 = Some j2 ->
  files (sys w1) !! path2 = Some (Parsed df2) ->
  (forall col, In col required_cols -> In col (columns df2)) ->
  rows df2 = rows df1 ->
  exists c2 notified,
    fst (process_csv_import_sync env2 job2 path2 w1) = Classified c2 notified
    /\ created_count c2 = 0
    /\ updated_count c2 = Z.of_nat (length (List.filter valid_row (rows df1)))
    /\ keys (products (db (snd (process_csv_import_sync env2 job2 path2 w1))))
       = keys (products (db w1)).
Proof.
  intros Hup1 Hup2 Hj1 Hf1 Hc1 w1 Hj2 Hf2 Hc2 Hrows.
  pose proof (run_up env1 Hup1 job1 path1 w j1 Hj1) as R1.
  assert (Hr1 : refusal path1 (files (sys w) !! path1) = None)
    by (apply refusal_none; eauto).
  rewrite Hr1, Hf1 in R1. cbn [parsed_rows] in R1. destruct R1 as (n1 & _ & Hp1).
  fold w1 in Hp1.
  pose proof (run_up env2 Hup2 job2 path2 w1 j2 Hj2) as R2.
  assert (Hr2 : refusal path2 (files (sys w1) !! path2) = None)
    by (apply refusal_none; eauto).
  rewrite Hr2, Hf2 in R2. cbn [parsed_rows] in R2. destruct R2 as (n2 & Ho2 & Hp2).
  rewrite Hrows in Ho2, Hp2.
  pose proof (apply_rows_keys (utcnow env1) (rows df1) 0 (products (db w)) counters0)
    as [_ Hin].
  cbn zeta in Hin. rewrite <- Hp1 in Hin.
  destruct (apply_rows_known (utcnow env2) (rows df1) 0 (products (db w1)) counters0 Hin)
    as (Hk & Hcr & Hu).
  eexists _, n2. split; [exact Ho2|]. rewrite Hp2.
  split; [exact Hcr|]. split; [rewrite Hu; simpl; lia | exact Hk].
Qed.

(** ** Properties that every step of a run preserves *)

Section Keeps.
Variable env : Env.
Variables job_id file_path : string.
Variable I : World -> Prop.
Variable Q : gmap string cell -> Prop.
Hypothesis I_file :
  forall w df, I w -> files (sys w) !! file_path = Some (Parsed df) -> Forall Q (rows df).
Hypothesis I_bump : forall w, I w -> I (with_db bump w).
Hypothesis I_persist : forall w, I w -> I (with_db persist w).
Hypothesis I_revert : forall w, I w -> I (with_db revert w).
Hypothesis I_load :
  forall w, I w -> I (with_db (put_session_job (import_jobs (db w) !! job_id)) w).
Variable F : (ImportJob.t -> ImportJob.t) -> Prop.
Hypothesis I_set :
  forall f w,
    F f ->
    I w -> I (with_db (fun d => put_session_job (option_map f (session_job d)) d) w).
Hypothesis F_status : forall st, F (ImportJob.set_status st).
Hypothesis F_message : forall msg, F (ImportJob.set_error_message msg).
Hypothesis F_completed : forall ts, F (ImportJob.set_completed_at ts).
Hypothesis F_total : forall n, F (ImportJob.set_total_rows n).
Hypothesis F_processed : forall n, F (ImportJob.set_processed_rows n).
Hypothesis I_upsert :
  forall idx row sku name description c w,
    Q row -> validate_row idx row = Accepted sku name description ->
    I w ->
    I (with_db
         (put_session_products
            (fst (upsert (utcnow env) sku name description (session_products (db w)) c)))
         w).
Hypothesis I_log : forall line w, I w -> I (with_sys (push_log line) w).
Hypothesis I_queue : forall t w, I w -> I (with_sys (push_queue t) w).
Hypothesis I_outbox : forall p w, I w -> I (with_sys (push_outbox p) w).
Hypothesis I_remove :
  forall w, I w -> I (with_sys (fun s => put_files (delete file_path (files s)) s) w).
Hypothesis I_open : forall w, I w -> I (with_db SessionLocal w).

Lemma keeps_ret {A} (a : A) : keeps I (ret a).
Proof. intros w H. exact H. Qed.

Lemma keeps_raise {A} (e : exn) : keeps I (@raise A e).
Proof. intros w H. exact H. Qed.

Lemma keeps_gets {A} (f : World -> A) : keeps I (gets f).
Proof. intros w H. exact H. Qed.

Lemma keeps_modify (f : World -> World) :
  (forall w, I w -> I (f w)) -> keeps I (modify f).
Proof. intros Hf w H. apply Hf, H. Qed.

Lemma keeps_bind {A B} (m : M A) (k : A -> M B) :
  keeps I m -> (forall a, keeps I (k a)) -> keeps I (bind m k).
Proof.
  intros Hm Hk w H. unfold bind. specialize (Hm w H).
  destruct (m w) as [[a|e] w1]; [apply Hk, Hm | exact Hm].
Qed.

Lemma keeps_catch {A} (m : M A) (h : exn -> M A) :
  keeps I m -> (forall e, keeps I (h e)) -> keeps I (catch m h).
Proof.
  intros Hm Hh w H. unfold catch. specialize (Hm w H).
  destruct (m w) as [[a|e] w1]; [exact Hm | apply Hh, Hm].
Qed.

Lemma keeps_session_call : keeps I (session_call env).
Proof.
  intros w H. unfold session_call.
  destruct (db_fault env (db_ops (db w))); apply I_bump, H.
Qed.

Lemma keeps_commit : keeps I (commit env).
Proof.
  intros w H. unfold commit.
  destruct (db_fault env (db_ops (db w))); cbn [snd].
  - apply (I_revert (with_db bump w)), I_bump, H.
  - apply (I_persist (with_db bump w)), I_bump, H.
Qed.

Lemma keeps_rollback : keeps I rollback.
Proof. apply keeps_modify, I_revert. Qed.

Lemma keeps_set_job f : F f -> keeps I (set_job f).
Proof. intros Hf. apply keeps_modify. intros w. apply I_set, Hf. Qed.

Lemma keeps_logger level line : keeps I (logger level line).
Proof. apply keeps_modify. intros w. apply I_log. Qed.

Lemma keeps_query_job : keeps I (query_job env job_id).
Proof.
  unfold query_job. apply keeps_bind; [apply keeps_session_call|]. intros _.
  intros w H. unfold bind, gets, modify, ret. cbn [snd]. apply I_load, H.
Qed.

Lemma keeps_deliver event_type payload whs :
  keeps I (deliver env event_type payload whs).
Proof.
  induction whs as [|wh whs IH]; [apply keeps_ret|].
  cbn [deliver]. apply keeps_bind; [|intros _; exact IH].
  apply keeps_catch; [|intros e; apply keeps_logger].
  unfold post. destruct (post_fault env (Webhook.url wh)); [apply keeps_raise|].
  apply keeps_modify. intros w. apply I_outbox.
Qed.

Lemma keeps_trigger_webhooks_sync event_type payload :
  keeps I (trigger_webhooks_sync env event_type payload).
Proof.
  unfold trigger_webhooks_sync. apply keeps_catch; [|intros e; apply keeps_logger].
  apply keeps_bind.
  - unfold query_webhooks. apply keeps_bind; [apply keeps_session_call|].
    intros _. apply keeps_gets.
  - intros [|wh whs]; [apply keeps_ret | apply keeps_deliver].
Qed.

Lemma keeps_checkpoint {A} (c c' : A) :
  keeps I (catch (commit env ;; ret c) (fun _ => rollback ;; ret c')).
Proof.
  apply keeps_catch.
  - apply keeps_bind; [apply keeps_commit | intros _; apply keeps_ret].
  - intros e. apply keeps_bind; [apply keeps_rollback | intros _; apply keeps_ret].
Qed.

Lemma keeps_process_row idx row c : Q row -> keeps I (process_row env idx row c).
Proof.
  intros Hq. unfold process_row. apply keeps_catch; [|intros e; apply keeps_ret].
  destruct (validate_row idx row) as [msg|sku name description] eqn:V;
    [apply keeps_ret|].
  apply keeps_bind; [apply keeps_session_call|]. intros _ w H.
  unfold bind at 1. unfold gets.
  pose proof (I_upsert idx row sku name description c w Hq V H) as U.
  destruct (upsert (utcnow env) sku name description (session_products (db w)) c)
    as [ps' c'].
  cbn [fst] in U. unfold bind at 1. unfold modify at 1.
  destruct (processed_count c' mod 50 =? 0).
  - apply (keeps_catch (commit env ;; ret c')); [|intros e|exact U].
    + apply keeps_bind; [apply keeps_commit | intros _; apply keeps_ret].
    + apply keeps_bind; [apply keeps_rollback | intros _; apply keeps_ret].
  - exact U.
Qed.

Lemma keeps_rows_loop chunk : forall idx c,
  Forall Q chunk -> keeps I (rows_loop env idx chunk c).
Proof.
  induction chunk as [|row rest IH]; intros idx c Hq; [apply keeps_ret|].
  inversion Hq; subst.
  cbn [rows_loop]. apply keeps_bind; [apply keeps_process_row; assumption|].
  intros c'. apply IH. assumption.
Qed.

Lemma keeps_process_chunk df total i c :
  Forall Q (rows df) -> keeps I (process_chunk env df total i c).
Proof.
  intros Hq. unfold process_chunk. apply keeps_bind.
  { apply keeps_rows_loop. apply Forall_take, Forall_drop, Hq. }
  intros c1.
  apply keeps_bind.
  - apply keeps_catch.
    + apply keeps_bind; [apply keeps_commit | intros _; apply keeps_ret].
    + intros e. apply keeps_bind; [apply keeps_rollback | intros _; apply keeps_ret].
  - intros c2. apply keeps_bind; [apply keeps_set_job; auto|]. intros _.
    apply keeps_bind; [apply keeps_commit | intros _; apply keeps_ret].
Qed.

Lemma keeps_chunks_loop df total n : forall i c,
  Forall Q (rows df) -> keeps I (chunks_loop env df total n i c).
Proof.
  induction n as [|n IH]; intros i c Hq; [apply keeps_ret|].
  change (keeps I (c' <- process_chunk env df total i c ;;
                   chunks_loop env df total n (i + chunk_size) c')).
  apply keeps_bind; [apply keeps_process_chunk, Hq|]. intros c'. apply IH, Hq.
Qed.

Lemma keeps_refuse msg : keeps I (refuse env msg).
Proof.
  unfold refuse.
  repeat (apply keeps_bind; [apply keeps_set_job; auto | intros _]).
  apply keeps_bind; [apply keeps_commit | intros _; apply keeps_ret].
Qed.

Lemma keeps_notify payload : keeps I (notify env payload).
Proof.
  unfold notify. apply keeps_catch; [|intros e; apply keeps_trigger_webhooks_sync].
  unfold delay. destruct (broker_fault env); [apply keeps_raise|].
  apply keeps_modify. intros w. apply I_queue.
Qed.

Lemma keeps_cleanup : keeps I (cleanup env file_path).
Proof.
  unfold cleanup. apply keeps_bind; [apply keeps_gets|]. intros [|]; [|apply keeps_ret].
  apply keeps_catch; [|intros e; apply keeps_logger].
  unfold os_remove. destruct (remove_fault env); [apply keeps_raise|].
  apply keeps_modify, I_remove.
Qed.

Lemma keeps_import_rows df :
  Forall Q (rows df) -> keeps I (import_rows env job_id file_path df).
Proof.
  intros Hq. unfold import_rows.
  repeat (apply keeps_bind; [apply keeps_set_job; auto | intros _]).
  apply keeps_bind; [apply keeps_commit | intros _].
  apply keeps_bind; [apply keeps_chunks_loop, Hq | intros c].
  apply keeps_bind;
    [apply keeps_catch; [apply keeps_commit | intros e; apply keeps_logger] | intros _].
  destruct (classify c (Z.of_nat (length (rows df)))) as [st msg].
  repeat (apply keeps_bind; [apply keeps_set_job; auto | intros _]).
  apply keeps_bind; [apply keeps_commit | intros _].
  apply keeps_bind; [apply keeps_gets | intros job].
  apply keeps_bind.
  - destruct job as [j|]; [|apply keeps_ret].
    destruct (ImportJob.status j); try apply keeps_ret;
      (apply keeps_bind; [apply keeps_notify | intros _; apply keeps_ret]).
  - intros notified. apply keeps_bind; [apply keeps_cleanup | intros _; apply keeps_ret].
Qed.

Lemma keeps_pipeline : keeps I (pipeline env job_id file_path).
Proof.
  unfold pipeline. apply keeps_bind; [apply keeps_query_job|].
  intros [j|]; [|apply keeps_ret].
  apply keeps_bind; [apply keeps_set_job; auto | intros _].
  apply keeps_bind; [apply keeps_commit | intros _].
  intros w H. unfold bind at 1. unfold gets.
  destruct (files (sys w) !! file_path) as [[df|e]|] eqn:Hfile.
  - destruct (List.filter _ required_cols);
      [apply keeps_import_rows; [eapply I_file; eauto | exact H]
      | apply keeps_refuse, H].
  - destruct e; apply keeps_refuse, H.
  - apply keeps_refuse, H.
Qed.

Lemma keeps_on_fatal e w : I w -> I (snd (on_fatal env e w)).
Proof.
  intros H. unfold on_fatal.
  pose proof (I_log "ERROR: Fatal error while processing CSV import" w H) as H1.
  set (w1 := with_sys (push_log "ERROR: Fatal error while processing CSV import") w) in *.
  destruct (session_job (db w1)); [|exact H1].
  assert (K : keeps I (set_job (ImportJob.set_status failed) ;;
                       set_job (ImportJob.set_error_message (Some (fatal_message env e))) ;;
                       set_job (ImportJob.set_completed_at (utcnow env)) ;;
                       commit env)).
  { repeat (apply keeps_bind; [apply keeps_set_job; auto | intros _]).
    apply keeps_commit. }
  specialize (K w1 H1).
  destruct ((set_job (ImportJob.set_status failed) ;;
             set_job (ImportJob.set_error_message (Some (fatal_message env e))) ;;
             set_job (ImportJob.set_completed_at (utcnow env)) ;;
             commit env) w1) as [[u|db_error] w2]; cbn [snd] in *.
  - exact K.
  - apply I_log, K.
Qed.

(** A property the session's steps preserve holds after the whole run. *)
Lemma run_keeps w :
  I w -> I (snd (process_csv_import_sync env job_id file_path w)).
Proof.
  intros H. unfold process_csv_import_sync.
  pose proof (keeps_pipeline (with_db SessionLocal w) (I_open w H)) as P.
  destruct (pipeline env job_id file_path (with_db SessionLocal w)) as [[o|e] w1];
    cbn [snd] in *.
  - apply I_open, P.
  - pose proof (keeps_on_fatal e w1 P) as Hf.
    destruct (on_fatal env e w1) as [o w2]. cbn [snd] in *. apply I_open, Hf.
Qed.

End Keeps.

(** ** The product table only grows *)

Lemma same_slot_refl p : same_slot p p.
Proof. split; reflexivity. Qed.

Lemma settled_refl named ps : Forall2 (settled named) ps ps.
Proof.
  induction ps; constructor; [|assumption].
  split; [apply same_slot_refl | reflexivity].
Qed.

Lemma settled_trans named ps : forall qs rs,
  Forall2 (settled named) ps qs -> Forall2 (settled named) qs rs ->
  Forall2 (settled named) ps rs.
Proof.
  induction ps as [|p ps IH]; intros qs rs H1 H2.
  - inversion H1; subst. inversion H2; subst. constructor.
  - inversion H1 as [|? q ? qs' [[Hs Ha] Hu] Hr]; subst.
    inversion H2 as [|? r ? rs' [[Hs' Ha'] Hu'] Hr']; subst.
    constructor; [|eapply IH; eauto].
    split; [split; congruence|].
    intros Hn. rewrite <- (Hu Hn). apply Hu'. rewrite Hs. exact Hn.
Qed.

Lemma grows_refl named ps : grows named ps ps.
Proof.
  exists ps, []. rewrite app_nil_r.
  split; [reflexivity|]. split; [apply settled_refl | constructor].
Qed.

Lemma grows_trans named ps qs rs :
  grows named ps qs -> grows named qs rs -> grows named ps rs.
Proof.
  intros (k1 & a1 & -> & H1 & N1) (k2 & a2 & -> & H2 & N2).
  apply Forall2_app_inv_l in H2 as (k2a & k2b & Ha & Hb & ->).
  exists k2a, (k2b ++ a2)%list. rewrite app_assoc. split; [reflexivity|].
  split; [eapply settled_trans; eauto|].
  apply Forall_app. split; [|exact N2].
  clear - N1 Hb. induction Hb as [|a b a1 k2b [[Hs _] _] _ IH]; [constructor|].
  inversion N1; subst. constructor; [rewrite Hs; assumption | apply IH; assumption].
Qed.

Lemma update_first_settled (named : string -> Prop) key name d now ps :
  named key -> Forall2 (settled named) ps (update_first key name d now ps).
Proof.
  intros Hk. induction ps as [|p ps IH]; simpl; [constructor|].
  destruct (Py.lower (Product.sku p) =? key)%string eqn:E.
  - constructor; [|apply settled_refl].
    apply String.eqb_eq in E. split; [split; reflexivity|].
    intros Hn. rewrite E in Hn. contradiction.
  - constructor; [|exact IH]. split; [apply same_slot_refl | reflexivity].
Qed.

Lemma grows_upsert (named : string -> Prop) now sku name d ps c :
  named (Py.lower sku) -> grows named ps (fst (upsert now sku name d ps c)).
Proof.
  intros Hk. unfold upsert. destruct (first_by_sku (Py.lower sku) ps); cbn [fst].
  - exists (update_first (Py.lower sku) name d now ps), []. rewrite app_nil_r.
    split; [reflexivity|]. split; [apply update_first_settled, Hk | constructor].
  - eexists ps, _. split; [reflexivity|]. split; [apply settled_refl|].
    constructor; [exact Hk | constructor].
Qed.

Lemma accepted_named table idx row sku name d :
  In row table -> validate_row idx row = Accepted sku name d ->
  named_in table (Py.lower sku).
Proof.
  intros Hin V. pose proof (validate_row_label idx 0 row) as L. rewrite V in L.
  destruct (validate_row 0 row) as [|sku' name' d'] eqn:V0; [contradiction|].
  destruct L as (-> & _ & _). exists row, sku', name', d'. auto.
Qed.

(** X7.  Whatever fails during a run, and however it ends, no product is
    deleted or moved and no sku or active flag is changed: the committed
    table after the run holds the products of the table before it, in
    their places, with their sku and active flag; a product whose
    case-folded sku no valid row of the staged file carries is not changed
    in any column; and every product after them carries the case-folded
    sku of a valid row of the file. *)
Theorem X7_products_only_grow (env : Env) (job_id file_path : string) (w : World) :
  grows (named_in (parsed_rows (files (sys w) !! file_path)))
        (products (db w))
        (products (db (snd (process_csv_import_sync env job_id file_path w)))).
Proof.
  set (table := parsed_rows (files (sys w) !! file_path)).
  pose (I := fun w' : World =>
               grows (named_in table) (products (db w)) (products (db w'))
               /\ grows (named_in table) (products (db w)) (session_products (db w'))
               /\ (files (sys w') = files (sys w)
                   \/ files (sys w') !! file_path = None)).
  assert (R : I (snd (process_csv_import_sync env job_id file_path
                        (with_db SessionLocal w)))).
  { apply (run_keeps env job_id file_path I) with
      (Q := fun row => In row table) (F := fun _ => True); unfold I;
      try (intros; exact Logic.I).
    - intros w' df (_ & _ & [Hf | Hf]) E; [|congruence].
      apply List.Forall_forall. intros row Hin. unfold table. rewrite <- Hf, E. exact Hin.
    - intros w' H. exact H.
    - intros w' (_ & H & F). split; [exact H|]. split; [exact H | exact F].
    - intros w' (H & _ & F). split; [exact H|]. split; [exact H | exact F].
    - intros w' H. exact H.
    - intros f w' _ H. exact H.
    - intros idx row sku name d c w' Hin V (H1 & H2 & F).
      split; [exact H1|]. split; [|exact F].
      eapply grows_trans; [exact H2|]. apply grows_upsert.
      eapply accepted_named; eauto.
    - intros line w' H. exact H.
    - intros t w' H. exact H.
    - intros p w' H. exact H.
    - intros w' (H1 & H2 & _). split; [exact H1|]. split; [exact H2|].
      right. cbn. apply lookup_delete_eq.
    - intros w' (H & _ & F). split; [exact H|]. split; [exact H | exact F].
    - split; [apply grows_refl|]. split; [apply grows_refl | left; reflexivity]. }
  exact (proj1 R).
Qed.

(** ** The rest of the world *)

Lemma others_kept_refl job_id file_path w : others_kept job_id file_path w w.
Proof. unfold others_kept. auto 10. Qed.

(** X8.  Whatever fails during a run, and however it ends, the run
    changes no webhook and no job row but its own, stages no file and
    removes none but its own, and takes nothing back from the broker
    queue, the listeners' inboxes or the log: these only grow at the
    end. *)
Theorem X8_run_leaves_the_rest (env : Env) (job_id file_path : string) (w : World) :
  keyed job_id w ->
  others_kept job_id file_path w
    (snd (process_csv_import_sync env job_id file_path w)).
Proof.
  intros Hk0.
  pose (I := fun w' : World =>
               others_kept job_id file_path w w'
               /\ keyed job_id w' /\ holds_only job_id w').
  assert (R : I (snd (process_csv_import_sync env job_id file_path
                        (with_db SessionLocal w)))).
  { apply (run_keeps env job_id file_path I) with
      (Q := fun _ => True) (F := fun f => forall j, ImportJob.id (f j) = ImportJob.id j);
      unfold I; try (intros; reflexivity).
    - intros w' df _ _. apply List.Forall_forall. intros; exact Logic.I.
    - intros w' H. exact H.
    - intros w' ((Hw & Hj & Hrest) & Hk & Hh).
      unfold others_kept, keyed, holds_only. cbn.
      destruct (session_job (db w')) as [j|] eqn:S.
      + pose proof (Hh j S) as Hi. rewrite Hi.
        split; [split; [exact Hw|split; [|exact Hrest]]|split].
        * intros k Hne. rewrite lookup_insert_ne by congruence. apply Hj, Hne.
        * intros j'. rewrite lookup_insert_eq. intros [= <-]. exact Hi.
        * intros j' [= <-]. exact Hi.
      + split; [split; [exact Hw|split; [exact Hj|exact Hrest]]|split].
        * exact Hk.
        * intros j' [=].
    - intros w' (Ho & Hk & Hh). split; [exact Ho|]. split; [exact Hk|].
      unfold holds_only. cbn. destruct (session_job (db w')) as [j|] eqn:S; [|intros j' [=]].
      pose proof (Hh j S) as Hi.
      destruct (import_jobs (db w') !! ImportJob.id j) as [j1|] eqn:L.
      + intros j' [= <-]. apply Hk. rewrite <- Hi. exact L.
      + intros j' [= <-]. exact Hi.
    - intros w' (Ho & Hk & Hh). split; [exact Ho|]. split; [exact Hk|].
      unfold holds_only. cbn. intros j Hj. apply Hk, Hj.
    - intros f w' Hf (Ho & Hk & Hh). split; [exact Ho|]. split; [exact Hk|].
      unfold holds_only. cbn. destruct (session_job (db w')) as [j|] eqn:S; [|intros j' [=]].
      intros j' [= <-]. rewrite Hf. apply Hh, S.
    - intros idx row sku name d c w' _ _ H. exact H.
    - intros line w' ((Hw & Hj & Hf & Hq & Hb & Hl) & Hk & Hh).
      split; [|split; [exact Hk | exact Hh]].
      unfold others_kept. cbn.
      split; [exact Hw|]. split; [exact Hj|]. split; [exact Hf|].
      split; [exact Hq|]. split; [exact Hb|].
      etrans; [exact Hl | apply prefix_app_r; reflexivity].
    - intros t w' ((Hw & Hj & Hf & Hq & Hb & Hl) & Hk & Hh).
      split; [|split; [exact Hk | exact Hh]].
      unfold others_kept. cbn.
      split; [exact Hw|]. split; [exact Hj|]. split; [exact Hf|].
      split; [|split; [exact Hb | exact Hl]].
      etrans; [exact Hq | apply prefix_app_r; reflexivity].
    - intros p w' ((Hw & Hj & Hf & Hq & Hb & Hl) & Hk & Hh).
      split; [|split; [exact Hk | exact Hh]].
      unfold others_kept. cbn.
      split; [exact Hw|]. split; [exact Hj|]. split; [exact Hf|].
      split; [exact Hq|]. split; [|exact Hl].
      etrans; [exact Hb | apply prefix_app_r; reflexivity].
    - intros w' ((Hw & Hj & Hf & Hq & Hb & Hl) & Hk & Hh).
      split; [|split; [exact Hk | exact Hh]].
      unfold others_kept. cbn.
      split; [exact Hw|]. split; [exact Hj|].
      split; [|split; [exact Hq|split; [exact Hb | exact Hl]]].
      right. destruct Hf as [-> | ->]; [reflexivity|].
      apply delete_delete_eq.
    - intros w' (Ho & Hk & Hh). split; [exact Ho|]. split; [exact Hk|].
      intros j' [=].
    - split; [exact (others_kept_refl job_id file_path w)|].
      split; [exact Hk0 | intros j' [=]]. }
  exact (proj1 R).
Qed.

(** ** Case-folded skus stay distinct *)

Lemma upsert_distinct now sku name d ps c :
  NoDup (keys ps) -> NoDup (keys (fst (upsert now sku name d ps c))).
Proof.
  intros H. destruct (upsert_table now sku name d ps c) as (-> & _).
  destruct (first_by_sku (Py.lower sku) ps) eqn:F.
  - rewrite app_nil_r. exact H.
  - apply NoDup_app. split; [exact H|]. split; [|apply NoDup_singleton].
    intros k Hk Hin. apply list_elem_of_singleton in Hin. subst k.
    apply list_elem_of_In, first_by_sku_keys in Hk. rewrite F in Hk.
    destruct Hk as [? [=]].
Qed.

(** If no two products of the table share a case-folded sku before a
    run, none do after it, whatever fails during the run and however it
    ends. *)
Lemma run_keys_distinct (env : Env) (job_id file_path : string) (w : World) :
  NoDup (keys (products (db w))) ->
  NoDup (keys (products (db (snd (process_csv_import_sync env job_id file_path w))))).
Proof.
  intros H0.
  assert (R : distinct_keys (snd (process_csv_import_sync env job_id file_path
                                    (with_db SessionLocal w)))).
  { apply (run_keeps env job_id file_path distinct_keys) with
      (Q := fun _ => True) (F := fun _ => True); unfold distinct_keys;
      try (intros; exact Logic.I).
    - intros w' df _ _. apply List.Forall_forall. intros; exact Logic.I.
    - intros w' H. exact H.
    - intros w' [_ H]. split; exact H.
    - intros w' [H _]. split; exact H.
    - intros w' H. exact H.
    - intros f w' _ H. exact H.
    - intros idx row sku name d c w' _ _ [H1 H2]. split; [exact H1|].
      cbn. apply upsert_distinct, H2.
    - intros line w' H. exact H.
    - intros t w' H. exact H.
    - intros p w' H. exact H.
    - intros w' H. exact H.
    - intros w' [H _]. split; exact H.
    - split; exact H0. }
  exact (proj1 R).
Qed.

(** X9.  When imports run one after the other, each task's session
    opening on what the earlier tasks committed and no other session
    writing to the catalog while a task runs, the case-folded skus of the
    catalog stay distinct: if no two products share one before the runs,
    none do after them, whatever the files hold, whatever fails during a
    run and however each run ends.  Two tasks that run at the same time
    are outside this statement: each looks a key up and then writes it in
    a session of its own. *)
Theorem X9_keys_stay_distinct (runs : list (Env * string * string)) (w : World) :
  NoDup (keys (products (db w))) ->
  NoDup (keys (products (db (run_serially runs w)))).
Proof.
  revert w. induction runs as [|[[env job_id] file_path] rest IH]; intros w H.
  - exact H.
  - cbn [run_serially]. apply IH. apply run_keys_distinct, H.
Qed.

(** ** A job id that is not in the table *)

(** X10.  A run for a job id that has no row is a no-op: when the lookup
    is answered the function returns at once (line 51) and nothing but
    the session's call count has changed; when the lookup raises, the
    handler finds no job to mark, writes one line to the log and changes
    nothing else.  In neither case is a job row created, a product
    touched, the file read or removed, or a webhook notified. *)
Theorem X10_unknown_job_is_noop (env : Env) (job_id file_path : string) (w : World) :
  import_jobs (db w) !! job_id = None ->
  let o := fst (process_csv_import_sync env job_id file_path w) in
  let w' := snd (process_csv_import_sync env job_id file_path w) in
  import_jobs (db w') = import_jobs (db w)
  /\ products (db w') = products (db w)
  /\ webhooks (db w') = webhooks (db w)
  /\ job_trace (db w') = job_trace (db w)
  /\ files (sys w') = files (sys w)
  /\ celery_queue (sys w') = celery_queue (sys w)
  /\ outbox (sys w') = outbox (sys w)
  /\ match db_fault env (db_ops (db w)) with
     | None => o = JobMissing /\ log (sys w') = log (sys w)
     | Some msg =>
         o = Fatal (SQLAlchemyError msg) false
         /\ log (sys w')
            = (log (sys w) ++ ["ERROR: Fatal error while processing CSV import"])%list
     end.
Proof.
  intros H o w'. subst o w'.
  assert (P : pipeline env job_id file_path (with_db SessionLocal w)
              = match db_fault env (db_ops (db w)) with
                | Some msg =>
                    (Raise (SQLAlchemyError msg), with_db bump (with_db SessionLocal w))
                | None =>
                    (Ok JobMissing,
                     with_db (put_session_job None) (with_db bump (with_db SessionLocal w)))
                end).
  { unfold pipeline, query_job, bind, session_call, gets, modify, ret.
    change (db_ops (db (with_db SessionLocal w))) with (db_ops (db w)).
    destruct (db_fault env (db_ops (db w))); [reflexivity|].
    cbn [with_db db import_jobs bump SessionLocal put_session_job put_session_products].
    rewrite H. reflexivity. }
  unfold process_csv_import_sync. rewrite P.
  destruct (db_fault env (db_ops (db w))) as [msg|].
  - unfold on_fatal. cbn. auto 10.
  - cbn. auto 10.
Qed.

(** ** Progress at the end of a run *)

Lemma on_fatal_is_fatal env e w : exists recorded, fst (on_fatal env e w) = Fatal e recorded.
Proof.
  unfold on_fatal.
  destruct (session_job _); [|eexists; reflexivity].
  match goal with
  | |- context [match ?m ?x with _ => _ end] => destruct (m x) as [[?|?] ?]
  end; eexists; reflexivity.
Qed.

Section FullProgress.
Variable env : Env.
Variable job_id : string.

Lemma at_progress_persist total p w :
  at_progress job_id total p w -> at_progress job_id total p (with_db persist w).
Proof.
  intros (j & jc & Hs & Hj & Hi & Hic & Ht & Hp & Htc & Hpc).
  exists j, j. cbn. rewrite Hs, Hi, lookup_insert_eq. auto 10.
Qed.

Lemma at_progress_revert total p w :
  at_progress job_id total p w -> at_progress job_id total p (with_db revert w).
Proof.
  intros (j & jc & Hs & Hj & Hi & Hic & Ht & Hp & Htc & Hpc).
  exists jc, jc. cbn. rewrite Hs, Hi, Hj. auto 10.
Qed.

Lemma at_progress_set total p f w :
  keeps_rows f ->
  at_progress job_id total p w ->
  at_progress job_id total p
    (with_db (fun d => put_session_job (option_map f (session_job d)) d) w).
Proof.
  intros Hf (j & jc & Hs & Hj & Hi & Hic & Ht & Hp & Htc & Hpc).
  destruct (Hf j) as (F1 & F2 & F3).
  exists (f j), jc. cbn. rewrite Hs. cbn. rewrite F1, F2, F3. auto 10.
Qed.

(** What the trace has shown stays shown: no step removes a committed
    state from it. *)
Lemma all_shown_trace total (P : Z -> Prop) w w' :
  (forall j, In j (job_trace (db w)) -> In j (job_trace (db w'))) ->
  all_shown total P w -> all_shown total P w'.
Proof.
  intros Hsub H v Hv. destruct (H v Hv) as (j & Hin & Hp).
  exists j. split; [apply Hsub, Hin | exact Hp].
Qed.

Lemma tracked_weaken total p (P Q : Z -> Prop) w :
  (forall v, Q v -> P v) -> tracked job_id total p P w -> tracked job_id total p Q w.
Proof. intros H [A S]. split; [exact A|]. intros v Hv. apply S, H, Hv. Qed.

Lemma tracked_persist total p P w :
  tracked job_id total p P w -> tracked job_id total p P (with_db persist w).
Proof.
  intros [A S]. split; [apply at_progress_persist, A|].
  eapply all_shown_trace; [|exact S].
  intros j Hj. cbn. destruct (session_job (db w)); [right|]; exact Hj.
Qed.

Lemma tracked_revert total p P w :
  tracked job_id total p P w -> tracked job_id total p P (with_db revert w).
Proof. intros [A S]. split; [apply at_progress_revert, A | exact S]. Qed.

Lemma tracked_set total p P f w :
  keeps_rows f ->
  tracked job_id total p P w ->
  tracked job_id total p P
    (with_db (fun d => put_session_job (option_map f (session_job d)) d) w).
Proof. intros Hf [A S]. split; [apply at_progress_set; assumption | exact S]. Qed.

(** A commit that goes through shows the job as the session holds it. *)
Lemma commit_ok_tracked (P : Z -> Prop) j w w' :
  session_job (db w) = Some j -> ImportJob.id j = job_id ->
  all_shown (ImportJob.total_rows j) P w ->
  commit env w = (Ok tt, w') ->
  tracked job_id (ImportJob.total_rows j) (ImportJob.processed_rows j)
    (fun v => P v \/ v = ImportJob.processed_rows j) w'.
Proof.
  intros Hs Hi S. unfold commit.
  destruct (db_fault env (db_ops (db w))); [discriminate|].
  intros [= <-]. split.
  - exists j, j. cbn. rewrite Hs, Hi, lookup_insert_eq. auto 10.
  - intros v [Hv | ->].
    + destruct (S v Hv) as (j' & Hin & Hp). exists j'. cbn. rewrite Hs.
      split; [right; exact Hin | exact Hp].
    + exists j. cbn. rewrite Hs. split; [left; reflexivity | auto].
Qed.

Lemma rows_loop_tracked total p P chunk idx c w :
  tracked job_id total p P w ->
  tracked job_id total p P (snd (rows_loop env idx chunk c w)).
Proof.
  apply (keeps_rows_loop env (tracked job_id total p P) (fun _ => True)).
  - intros w' H. exact H.
  - apply tracked_persist.
  - apply tracked_revert.
  - intros i row sku name d c' w' _ _ H. exact H.
  - apply List.Forall_forall. intros; exact I.
Qed.

Lemma process_chunk_tracked total p P df total' i c w c' w' :
  tracked job_id total p P w ->
  process_chunk env df total' i c w = (Ok c', w') ->
  tracked job_id total (Z.min (i + chunk_size) total')
    (fun v => P v \/ v = Z.min (i + chunk_size) total') w'.
Proof.
  intros H. unfold process_chunk.
  pose proof (rows_loop_tracked total p P
                (take (Z.to_nat chunk_size) (drop (Z.to_nat i) (rows df))) i c w H) as H1.
  unfold bind at 1.
  destruct (rows_loop env i (take (Z.to_nat chunk_size) (drop (Z.to_nat i) (rows df))) c w)
    as [[c1|e1] w1]; [|discriminate].
  cbn [snd] in H1. unfold bind at 1.
  match goal with
  | |- context [catch ?m ?h w1] =>
      assert (K : keeps (tracked job_id total p P) (catch m h))
  end.
  { apply keeps_catch.
    - apply keeps_bind; [|intros _; apply keeps_ret].
      apply keeps_commit; [intros w0 H0; exact H0 | apply tracked_persist
                          | apply tracked_revert].
    - intros e. apply keeps_bind; [|intros _; apply keeps_ret].
      apply keeps_rollback, tracked_revert. }
  specialize (K w1 H1).
  match goal with
  | |- context [catch ?m ?h w1] => destruct (catch m h w1) as [[c2|e2] w2]
  end; [|discriminate].
  cbn [snd] in K.
  destruct K as [(j & jc & Hs & Hj & Hi & Hic & Ht & Hp & Htc & Hpc) S].
  unfold bind at 1. cbn [set_job modify]. unfold bind at 1.
  match goal with
  | |- context [commit env ?w3] =>
      pose proof (commit_ok_tracked P
                    (ImportJob.set_processed_rows (Z.min (i + chunk_size) total') j) w3)
        as C;
      destruct (commit env w3) as [[[]|e3] w4]; [|discriminate]
  end.
  cbn [ret]. intros [= _ <-].
  rewrite <- Ht. apply (C w4); [cbn; rewrite Hs; reflexivity | exact Hi | | reflexivity].
  cbn. rewrite Ht. exact S.
Qed.

Lemma chunks_loop_tracked total df total' n : forall p (P : Z -> Prop) i c w c' w',
  tracked job_id total p P w ->
  chunks_loop env df total' n i c w = (Ok c', w') ->
  tracked job_id total
    (match n with
     | O => p
     | S _ => Z.min (i + Z.of_nat n * chunk_size) total'
     end)
    (fun v => P v \/ exists k, (k < n)%nat
                               /\ v = Z.min (i + Z.of_nat (S k) * chunk_size) total') w'.
Proof.
  induction n as [|n IH]; intros p P i c w c' w' H.
  - change (chunks_loop env df total' 0 i c w) with (Ok c, w).
    intros [= _ <-]. eapply tracked_weaken; [|exact H].
    intros v [Hv | (k & Hk & _)]; [exact Hv | lia].
  - rewrite chunks_loop_S. unfold bind.
    destruct (process_chunk env df total' i c w) as [[c1|e1] w1] eqn:E1; [|discriminate].
    pose proof (process_chunk_tracked total p P df total' i c w c1 w1 H E1) as H1.
    intros E2. pose proof (IH _ _ _ _ _ _ _ H1 E2) as H2.
    assert (H3 : tracked job_id total
                   (match n with
                    | O => Z.min (i + chunk_size) total'
                    | S _ => Z.min (i + chunk_size + Z.of_nat n * chunk_size) total'
                    end)
                   (fun v => P v \/ exists k, (k < S n)%nat
                                              /\ v = Z.min (i + Z.of_nat (S k) * chunk_size)
                                                       total') w').
    { eapply tracked_weaken; [|exact H2].
      intros v [Hv | (k & Hk & ->)]; [left; left; exact Hv|].
      destruct k as [|k].
      - left. right. f_equal; unfold chunk_size; lia.
      - right. exists k. split; [lia|]. f_equal; unfold chunk_size; lia. }
    destruct n as [|n].
    + replace (i + Z.of_nat 1 * chunk_size) with (i + chunk_size) by lia. exact H3.
    + replace (i + Z.of_nat (S (S n)) * chunk_size)
        with (i + chunk_size + Z.of_nat (S n) * chunk_size) by lia.
      exact H3.
Qed.

Lemma chunk_count_reaches total :
  0 < total -> exists n, chunk_count total = S n /\ total <= Z.of_nat (S n) * chunk_size.
Proof.
  intros H. unfold chunk_count, chunk_size.
  pose proof (Z.div_mod (total + 100 - 1) 100 ltac:(lia)) as D.
  pose proof (Z.mod_pos_bound (total + 100 - 1) 100 ltac:(lia)) as B.
  destruct (Z.to_nat ((total + 100 - 1) / 100)) as [|n] eqn:E; [lia|].
  exists n. split; [reflexivity|]. lia.
Qed.

(** Every chunk that starts below [total] is one of the loop's. *)
Lemma chunk_count_holds total k :
  0 < k -> (k - 1) * chunk_size < total -> (Z.to_nat (k - 1) < chunk_count total)%nat.
Proof.
  intros Hk H. unfold chunk_count, chunk_size in *.
  pose proof (Z.div_mod (total + 100 - 1) 100 ltac:(lia)) as D.
  pose proof (Z.mod_pos_bound (total + 100 - 1) 100 ltac:(lia)) as B.
  apply Z2Nat.inj_lt; lia.
Qed.

Lemma import_rows_tracked file_path df j w o w' :
  session_job (db w) = Some j -> ImportJob.id j = job_id ->
  import_rows env job_id file_path df w = (Ok o, w') ->
  tracked job_id (Z.of_nat (length (rows df)))
    (match rows df with
     | [] => ImportJob.processed_rows j
     | _ :: _ => Z.of_nat (length (rows df))
     end)
    (chunk_end (Z.of_nat (length (rows df)))) w'.
Proof.
  intros Hs Hi. unfold import_rows.
  set (total := Z.of_nat (length (rows df))).
  set (p := match rows df with
            | [] => ImportJob.processed_rows j
            | _ :: _ => total
            end).
  unfold set_job at 1 2. rewrite !bind_modify. unfold bind at 1.
  match goal with
  | |- context [commit env ?wa] =>
      pose proof (commit_ok_tracked (fun _ => False)
                    (ImportJob.set_status importing (ImportJob.set_total_rows total j)) wa)
        as C;
      destruct (commit env wa) as [[[]|e1] w1]; [|discriminate]
  end.
  specialize (C w1). cbn in C. rewrite Hs in C.
  specialize (C eq_refl Hi ltac:(intros v []) eq_refl).
  unfold bind at 1.
  destruct (chunks_loop env df total (chunk_count total) 0 counters0 w1)
    as [[c|e2] w2] eqn:L; [|discriminate].
  apply (chunks_loop_tracked total df total (chunk_count total)
           (ImportJob.processed_rows j)
           (fun v => False \/ v = ImportJob.processed_rows j)) in L; [|exact C].
  assert (H2 : tracked job_id total p (chunk_end total) w2).
  { assert (Hw : forall v, chunk_end total v ->
                   (False \/ v = ImportJob.processed_rows j)
                   \/ exists k, (k < chunk_count total)%nat
                                /\ v = Z.min (0 + Z.of_nat (S k) * chunk_size) total).
    { intros v (k & Hk & Hlt & ->). right. exists (Z.to_nat (k - 1)).
      split; [apply chunk_count_holds; assumption|]. f_equal; unfold chunk_size; lia. }
    unfold p. destruct (rows df) as [|row rest] eqn:R.
    - change (chunk_count total) with 0%nat in L. change (chunk_count total) with 0%nat in Hw.
      eapply tracked_weaken; [exact Hw | exact L].
    - assert (Hpos : 0 < total) by (unfold total; simpl; lia).
      destruct (chunk_count_reaches total Hpos) as (n & En & Hn). rewrite En in L, Hw.
      replace (Z.min (0 + Z.of_nat (S n) * chunk_size) total) with total in L by lia.
      eapply tracked_weaken; [exact Hw | exact L]. }
  clear L C.
  match goal with
  | |- ?m w2 = _ -> _ => assert (K : keeps (tracked job_id total p (chunk_end total)) m)
  end.
  { assert (Kc : keeps (tracked job_id total p (chunk_end total)) (commit env)).
    { apply keeps_commit; [intros w0 H0; exact H0 | apply tracked_persist
                          | apply tracked_revert]. }
    assert (Kl : forall level line,
               keeps (tracked job_id total p (chunk_end total)) (logger level line)).
    { intros level line. apply keeps_logger. intros l0 w0 H0. exact H0. }
    assert (Ks : forall f, keeps_rows f ->
                   keeps (tracked job_id total p (chunk_end total)) (set_job f)).
    { intros f Hf.
      apply (keeps_set_job (tracked job_id total p (chunk_end total)) keeps_rows);
        [|exact Hf]. intros f0 w0. apply tracked_set. }
    apply keeps_bind; [apply keeps_catch; [exact Kc | intros e; apply Kl] | intros _].
    destruct (classify c total) as [st msg].
    repeat (apply keeps_bind; [apply Ks; intros j0; cbn; auto | intros _]).
    apply keeps_bind; [exact Kc | intros _].
    apply keeps_bind; [apply keeps_gets | intros job].
    apply keeps_bind.
    - assert (Kn : keeps (tracked job_id total p (chunk_end total))
                     (notify env (payload_of job_id c) ;; ret (Some (payload_of job_id c)))).
      { apply keeps_bind; [|intros _; apply keeps_ret].
        apply keeps_notify; intros; assumption. }
      destruct job as [j1|]; [|apply keeps_ret].
      destruct (ImportJob.status j1); try apply keeps_ret; exact Kn.
    - intros notified. apply keeps_bind; [|intros _; apply keeps_ret].
      apply keeps_cleanup; intros; assumption. }
  intros E. specialize (K w2 H2). rewrite E in K. exact K.
Qed.

(** A run that returns with the rows classified has committed its job
    with every row counted as processed, after it has shown the end of
    every chunk. *)
Lemma pipeline_tracked file_path w c notified w' :
  import_jobs (db w) !! job_id = Some (new_job job_id) ->
  pipeline env job_id file_path w = (Ok (Classified c notified), w') ->
  exists df,
    files (sys w) !! file_path = Some (Parsed df)
    /\ tracked job_id (Z.of_nat (length (rows df))) (Z.of_nat (length (rows df)))
         (chunk_end (Z.of_nat (length (rows df)))) w'.
Proof.
  intros Hj. unfold pipeline, query_job. rewrite bind_bind. unfold bind at 1.
  unfold session_call.
  destruct (db_fault env (db_ops (db w))); [discriminate|].
  rewrite bind_bind, bind_gets. cbn [with_db db import_jobs bump]. rewrite Hj.
  rewrite bind_bind, bind_modify, bind_ret.
  unfold set_job at 1. rewrite bind_modify. unfold bind at 1.
  match goal with
  | |- context [commit env ?wa] => destruct (commit env wa) as [[[]|e1] w1] eqn:C
  end; [|discriminate].
  assert (Hsys : sys w1 = sys w).
  { revert C. unfold commit. cbn.
    destruct (db_fault env (S (db_ops (db w)))); [discriminate|].
    intros [= <-]. reflexivity. }
  assert (Hs1 : session_job (db w1) = Some (ImportJob.set_status parsing (new_job job_id))).
  { revert C. unfold commit. cbn.
    destruct (db_fault env (S (db_ops (db w)))); [discriminate|].
    intros [= <-]. reflexivity. }
  rewrite bind_gets. rewrite Hsys.
  destruct (files (sys w) !! file_path) as [[df|e]|].
  - destruct (List.filter _ required_cols).
    + intros E. exists df. split; [reflexivity|].
      pose proof (import_rows_tracked file_path df _ w1 _ w' Hs1 eq_refl E) as P.
      destruct (rows df); exact P.
    + unfold refuse. unfold bind.
      repeat match goal with
             | |- context [match ?m ?x with _ => _ end] => destruct (m x) as [[?|?] ?]
             end; discriminate.
  - unfold refuse, bind.
    destruct e;
      repeat match goal with
             | |- context [match ?m ?x with _ => _ end] => destruct (m x) as [[?|?] ?]
             end; discriminate.
  - unfold refuse, bind.
    repeat match goal with
           | |- context [match ?m ?x with _ => _ end] => destruct (m x) as [[?|?] ?]
           end; discriminate.
Qed.

(** The same of the whole task, on what it has committed. *)
Lemma run_tracked file_path w c notified :
  import_jobs (db w) !! job_id = Some (new_job job_id) ->
  fst (process_csv_import_sync env job_id file_path w) = Classified c notified ->
  exists df j,
    files (sys w) !! file_path = Some (Parsed df)
    /\ import_jobs (db (snd (process_csv_import_sync env job_id file_path w))) !! job_id
       = Some j
    /\ ImportJob.total_rows j = Z.of_nat (length (rows df))
    /\ ImportJob.processed_rows j = Z.of_nat (length (rows df))
    /\ all_shown (Z.of_nat (length (rows df))) (chunk_end (Z.of_nat (length (rows df))))
         (snd (process_csv_import_sync env job_id file_path w)).
Proof.
  intros Hj. unfold process_csv_import_sync.
  destruct (pipeline env job_id file_path (with_db SessionLocal w)) as [[o|e] w1] eqn:P.
  - cbn [fst snd]. intros ->.
    destruct (pipeline_tracked file_path (with_db SessionLocal w) c notified w1 Hj P)
      as (df & Hf & (j & jc & _ & Hc & _ & _ & _ & _ & Ht & Hp) & S).
    exists df, jc. split; [exact Hf|]. split; [exact Hc|]. split; [exact Ht|].
    split; [exact Hp | exact S].
  - pose proof (on_fatal_is_fatal env e w1) as Hfatal.
    destruct (on_fatal env e w1) as [o w2]. cbn [fst]. intros ->.
    destruct Hfatal as (r & [=]).
Qed.

End FullProgress.

(** C4.  Over a whole run every committed state of the job has
    [0 <= processed_rows <= total_rows], each state showing at least the
    progress of every earlier one.  A run that gets through its rows has
    committed, for every chunk of the file (the [k]-th chunk starts at row
    [(k - 1) * chunk_size], below the number of rows), a state of the job
    whose [processed_rows] is the smaller of the chunk's end offset
    [k * chunk_size] and [total_rows], whatever happened to the rows of
    the chunk, and ends with the last of them as the job's progress.  And
    each chunk that is processed from a loaded job commits that value as
    the latest state of the job. *)
Theorem C4_processed_rows (env : Env) (job_id file_path : string) (w : World) :
  fresh_run job_id w ->
  let o := fst (process_csv_import_sync env job_id file_path w) in
  let w' := snd (process_csv_import_sync env job_id file_path w) in
  let states := (job_trace (db w') ++ [new_job job_id])%list in
  Forall (fun j => 0 <= ImportJob.processed_rows j <= ImportJob.total_rows j) states
  /\ StronglySorted no_less_progress states
  /\ (forall c notified,
        o = Classified c notified ->
        exists df,
          files (sys w) !! file_path = Some (Parsed df)
          /\ (forall k,
                0 < k -> (k - 1) * chunk_size < Z.of_nat (length (rows df)) ->
                exists j,
                  In j (job_trace (db w'))
                  /\ ImportJob.total_rows j = Z.of_nat (length (rows df))
                  /\ ImportJob.processed_rows j
                     = Z.min (k * chunk_size) (Z.of_nat (length (rows df))))
          /\ (exists j,
                import_jobs (db w') !! job_id = Some j
                /\ ImportJob.total_rows j = Z.of_nat (length (rows df))
                /\ ImportJob.processed_rows j = Z.of_nat (length (rows df))))
  /\ forall df total i c wi j,
       loaded (new_job job_id) j j wi -> steady total j ->
       0 <= i -> ImportJob.processed_rows j <= i ->
       match process_chunk env df total i c wi with
       | (Ok _, wi') =>
           exists j',
             import_jobs (db wi') !! job_id = Some j'
             /\ hd (new_job job_id) (job_trace (db wi')) = j'
             /\ ImportJob.processed_rows j' = Z.min (i + chunk_size) total
       | (Raise _, wi') => import_jobs (db wi') !! job_id = Some j
       end.
Proof.
  intros Hf o w' states.
  destruct (progress_bounds env job_id file_path w Hf) as (Hb & Hs & Hc).
  split; [exact Hb|]. split; [exact Hs|]. split; [|exact Hc].
  intros c notified Ho.
  destruct (run_tracked env job_id file_path w c notified (proj1 Hf) Ho)
    as (df & j & Hfile & Hj & Ht & Hp & Hall).
  exists df. split; [exact Hfile|]. split.
  - intros k Hk Hlt.
    destruct (Hall (Z.min (k * chunk_size) (Z.of_nat (length (rows df)))))
      as (jk & Hin & Hpk & Htk).
    { exists k. split; [exact Hk|]. split; [exact Hlt | reflexivity]. }
    exists jk. split; [exact Hin|]. split; [exact Htk | exact Hpk].
  - exists j. split; [exact Hj|]. split; [exact Ht | exact Hp].
Qed.

(** X11.  A run that ends with the rows classified has committed its job
    with [processed_rows = total_rows = ] the number of data rows of the
    file, whatever failed on the way: rows that were rejected, rows whose
    lookup raised and chunks whose commit was rolled back all count as
    processed in the progress the job shows. *)
Theorem X11_classified_run_shows_all_rows (env : Env) (job_id file_path : string)
    (w : World) (c : Counters) (notified : option Payload) :
  import_jobs (db w) !! job_id = Some (new_job job_id) ->
  fst (process_csv_import_sync env job_id file_path w) = Classified c notified ->
  exists df j,
    files (sys w) !! file_path = Some (Parsed df)
    /\ import_jobs (db (snd (process_csv_import_sync env job_id file_path w))) !! job_id
       = Some j
    /\ ImportJob.total_rows j = Z.of_nat (length (rows df))
    /\ ImportJob.processed_rows j = Z.of_nat (length (rows df)).
Proof.
  intros Hj Ho.
  destruct (run_tracked env job_id file_path w c notified Hj Ho)
    as (df & j & Hf & Hc & Ht & Hp & _).
  exists df, j. auto.
Qed.

(** ** Who is posted to *)

Lemma deliveries_only env event_type payload whs url e :
  In (url, e) (deliveries env event_type payload (listeners event_type whs)) ->
  exists wh,
    In wh whs /\ url = Webhook.url wh
    /\ Webhook.enabled wh = true /\ Webhook.event_type wh = event_type
    /\ post_fault env url = None
    /\ e = envelope_of env event_type payload.
Proof.
  unfold deliveries, listeners. rewrite in_map_iff.
  intros (wh & [= <- <-] & Hin).
  apply filter_In in Hin as [Hin Hr]. apply filter_In in Hin as [Hin Hl].
  unfold listens in Hl. apply andb_prop in Hl as [He Hen].
  apply String.eqb_eq in He. unfold reachable in Hr.
  exists wh. repeat split; auto.
  destruct (post_fault env (Webhook.url wh)); [discriminate | reflexivity].
Qed.

(** X12.  A run posts to nobody but the listeners of its own event: every
    envelope a run adds to the listeners' inboxes went to the url of an
    enabled webhook subscribed to "product.imported", carries that event
    and the run's own counters, and was sent by a run that ended
    [completed] or [completed_with_errors] while the broker refused the
    task.  A run that could hand the task to the broker, or that ended
    otherwise, posts nothing itself. *)
Theorem X12_only_listeners_are_posted (env : Env) (job_id file_path : string)
    (w : World) :
  fresh_run job_id w ->
  let o := fst (process_csv_import_sync env job_id file_path w) in
  let w' := snd (process_csv_import_sync env job_id file_path w) in
  exists posted,
    outbox (sys w') = (outbox (sys w) ++ posted)%list
    /\ ((broker_fault env = None \/ dispatched o = None) -> posted = [])
    /\ forall url e,
         In (url, e) posted ->
         exists wh c,
           In wh (webhooks (db w)) /\ url = Webhook.url wh
           /\ Webhook.enabled wh = true
           /\ Webhook.event_type wh = "product.imported"
           /\ post_fault env url = None
           /\ o = Classified c (Some (payload_of job_id c))
           /\ e = envelope_of env "product.imported" (payload_of job_id c).
Proof.
  intros Hf o w'.
  destruct (run_spec env job_id file_path w Hf) as (j & _ & _ & P).
  fold o w' in P. destruct o as [|msg|c notified|e recorded]; cbn [run_post] in P.
  - contradiction.
  - destruct P as (_ & _ & _ & ->). exists []. rewrite app_nil_r.
    split; [reflexivity|]. split; [reflexivity | intros ? ? []].
  - destruct P as (_ & _ & _ & Hn & _ & _ & Hd).
    destruct notified as [p|].
    + destruct (broker_fault env) as [bmsg|].
      * destruct Hd as (_ & n & Ho). eexists. split; [exact Ho|].
        split; [intros [[=] | [=]]|].
        intros url e Hin. destruct (db_fault env n); [destruct Hin|].
        apply deliveries_only in Hin as (wh & H1 & H2 & H3 & H4 & H5 & H6).
        destruct (is_success (ImportJob.status j)); [|discriminate].
        injection Hn as ->. exists wh, c. auto 10.
      * destruct Hd as (_ & Ho). exists []. rewrite app_nil_r.
        split; [exact Ho|]. split; [reflexivity | intros ? ? []].
    + destruct Hd as (_ & Ho). exists []. rewrite app_nil_r.
      split; [exact Ho|]. split; [reflexivity | intros ? ? []].
  - destruct P as ((_ & _ & Ho & _) & _). exists []. rewrite app_nil_r.
    split; [exact Ho|]. split; [reflexivity | intros ? ? []].
Qed.

(** ** The progress stream, poll by poll *)

Section Polls.
Variable table_at : nat -> gmap string ImportJob.t.
Variable poll_fault : nat -> option string.
Variable job_id : string.

Lemma poll_S remaining k :
  poll table_at poll_fault job_id (S remaining) k
  = match poll_fault k with
    | Some msg => ([], 1%nat, Some (SQLAlchemyError msg))
    | None =>
        match table_at k !! job_id with
        | None => ([NotFound], 1%nat, None)
        | Some job =>
            if is_terminal (ImportJob.status job)
            then ([snapshot job], 1%nat, None)
            else
              let '(evs, n, err) := poll table_at poll_fault job_id remaining (S k) in
              (snapshot job :: evs, S n, err)
        end
    end.
Proof. reflexivity. Qed.

(** Each event is what the poll of its turn read; the events before the
    last show a status that is not terminal; a lookup that raises ends the
    stream without an event of its own. *)
Lemma poll_faithful remaining : forall k,
  let '(evs, n, err) := poll table_at poll_fault job_id remaining k in
  (forall i ev,
     evs !! i = Some ev ->
     poll_fault (k + i)%nat = None
     /\ match table_at (k + i)%nat !! job_id with
        | Some job =>
            ev = snapshot job
            /\ (S i < length evs -> is_terminal (ImportJob.status job) = false)%nat
        | None => ev = NotFound /\ S i = length evs
        end)
  /\ n = (length evs + match err with Some _ => 1 | None => 0 end)%nat
  /\ (forall e, err = Some e ->
      exists msg, e = SQLAlchemyError msg
                  /\ poll_fault (k + length evs)%nat = Some msg).
Proof.
  induction remaining as [|r IH]; intros k.
  - simpl. split; [intros i ev H; destruct i; discriminate|].
    split; [reflexivity | intros e [=]].
  - rewrite poll_S. destruct (poll_fault k) as [msg|] eqn:Fk.
    + split; [intros i ev H; destruct i; discriminate|].
      split; [reflexivity|]. intros e [= <-]. exists msg.
      simpl. rewrite Nat.add_0_r. auto.
    + destruct (table_at k !! job_id) as [job|] eqn:Tk.
      * destruct (is_terminal (ImportJob.status job)) eqn:Term.
        -- split; [|split; [reflexivity | intros e [=]]].
           intros [|i] ev H; [|destruct i; discriminate].
           injection H as <-. rewrite Nat.add_0_r, Fk, Tk.
           split; [reflexivity|]. split; [reflexivity | simpl; lia].
        -- specialize (IH (S k)).
           destruct (poll table_at poll_fault job_id r (S k)) as [[evs n] err].
           destruct IH as (Hev & Hn & He).
           split; [|split].
           ++ intros [|i] ev H.
              ** injection H as <-. rewrite Nat.add_0_r, Fk, Tk. auto.
              ** simpl in H. specialize (Hev i ev H).
                 replace (k + S i)%nat with (S k + i)%nat by lia.
                 destruct Hev as [Hf Ht]. split; [exact Hf|].
                 destruct (table_at (S k + i)%nat !! job_id).
                 --- destruct Ht as [Hs Hl]. split; [exact Hs|].
                     intros Hlt. apply Hl. simpl in Hlt. lia.
                 --- destruct Ht as [Hs Hl]. split; [exact Hs | simpl; lia].
           ++ simpl. lia.
           ++ intros e Hee. destruct (He e Hee) as (msg & -> & Hm).
              exists msg. split; [reflexivity|].
              replace (k + length (snapshot job :: evs))%nat
                with (S k + length evs)%nat by (simpl; lia).
              exact Hm.
      * split; [|split; [reflexivity | intros e [=]]].
        intros [|i] ev H; [|destruct i; discriminate].
        injection H as <-. rewrite Nat.add_0_r, Fk, Tk. auto.
Qed.

(** While the job is there, is not finished and every lookup is answered,
    the loop runs to its end. *)
Lemma poll_never_terminal remaining : forall k,
  (forall i, (i < remaining)%nat ->
     poll_fault (k + i)%nat = None
     /\ exists job, table_at (k + i)%nat !! job_id = Some job
                    /\ is_terminal (ImportJob.status job) = false) ->
  let '(evs, n, err) := poll table_at poll_fault job_id remaining k in
  length evs = remaining /\ n = remaining /\ err = None
  /\ Forall (fun ev => shows_terminal ev = false) evs.
Proof.
  induction remaining as [|r IH]; intros k H.
  - simpl. repeat split; constructor.
  - rewrite poll_S. destruct (H 0%nat ltac:(lia)) as (Hf & job & Hj & Ht).
    rewrite Nat.add_0_r in Hf, Hj. rewrite Hf, Hj, Ht.
    specialize (IH (S k)).
    destruct (poll table_at poll_fault job_id r (S k)) as [[evs n] err].
    destruct IH as (Hl & Hn & He & Hall).
    { intros i Hi. replace (S k + i)%nat with (k + S i)%nat by lia.
      apply H. lia. }
    simpl. split; [lia|]. split; [lia|]. split; [exact He|].
    constructor; [simpl; exact Ht | exact Hall].
Qed.

Lemma snapshot_denominator job :
  exists st processed total numerator denominator error,
    snapshot job = Progress st processed total (numerator, denominator) error
    /\ 0 < denominator.
Proof.
  unfold snapshot. do 6 eexists. split; [reflexivity|].
  destruct (0 <? ImportJob.total_rows job) eqn:E; [apply Z.ltb_lt in E; exact E | lia].
Qed.

End Polls.

(** X13.  For an identifier of 36 characters the stream reports the polls
    in turn: the i-th event is what the i-th lookup read, the job's
    status, counts and message, or "not_found", which ends the stream;
    every event before the last shows a status that is not terminal; a
    lookup that raises ends the stream with no event of its own; and the
    percentage is never a division by zero. *)
Theorem X13_stream_reports_each_poll (table_at : nat -> gmap string ImportJob.t)
    (poll_fault : nat -> option string) (job_id : string) :
  Py.len job_id = 36%nat ->
  let '(evs, lookups, err) := event_generator table_at poll_fault job_id in
  (forall i ev,
     evs !! i = Some ev ->
     poll_fault i = None
     /\ match table_at i !! job_id with
        | Some job =>
            ev = snapshot job
            /\ (S i < length evs -> is_terminal (ImportJob.status job) = false)%nat
        | None => ev = NotFound /\ S i = length evs
        end)
  /\ lookups = (length evs + match err with Some _ => 1 | None => 0 end)%nat
  /\ (forall e, err = Some e ->
      exists msg, e = SQLAlchemyError msg /\ poll_fault (length evs) = Some msg)
  /\ forall job,
       exists st processed total numerator denominator error,
         snapshot job = Progress st processed total (numerator, denominator) error
         /\ 0 < denominator.
Proof.
  intros H. unfold event_generator.
  destruct (job_id =? EmptyString)%string eqn:E.
  { apply String.eqb_eq in E. subst. discriminate. }
  apply Nat.eqb_eq in H. rewrite H. cbn [negb orb].
  pose proof (poll_faithful table_at poll_fault job_id 600 0) as P.
  destruct (poll table_at poll_fault job_id 600 0) as [[evs n] err].
  destruct P as (A & B & C). split; [exact A|]. split; [exact B|].
  split; [exact C | apply snapshot_denominator].
Qed.

(** X14.  The stream gives up after 600 polls: while the job is there,
    shows no terminal status and every lookup is answered, the stream
    yields exactly 600 events from 600 lookups, none of them terminal,
    and ends without saying why. *)
Theorem X14_stream_gives_up_after_600 (table_at : nat -> gmap string ImportJob.t)
    (poll_fault : nat -> option string) (job_id : string) :
  Py.len job_id = 36%nat ->
  (forall k, (k < 600)%nat ->
     poll_fault k = None
     /\ exists job, table_at k !! job_id = Some job
                    /\ is_terminal (ImportJob.status job) = false) ->
  let '(evs, lookups, err) := event_generator table_at poll_fault job_id in
  length evs = 600%nat /\ lookups = 600%nat /\ err = None
  /\ Forall (fun ev => shows_terminal ev = false) evs.
Proof.
  intros H Hall. unfold event_generator.
  destruct (job_id =? EmptyString)%string eqn:E.
  { apply String.eqb_eq in E. subst. discriminate. }
  apply Nat.eqb_eq in H. rewrite H. cbn [negb orb].
  apply (poll_never_terminal table_at poll_fault job_id 600 0). exact Hall.
Qed.

(** X15.  The stream after a run.  A client that opens the stream once
    the run has returned gets a single event, the job's terminal status
    with its counts and message, from a single lookup; unless the run
    ended in a fatal error that could not be recorded: then the job still
    shows a status that is not terminal and the stream polls it 600 times
    before it ends. *)
Theorem X15_stream_after_run (env : Env) (job_id file_path : string) (w : World) :
  fresh_run job_id w ->
  Py.len job_id = 36%nat ->
  let o := fst (process_csv_import_sync env job_id file_path w) in
  let w' := snd (process_csv_import_sync env job_id file_path w) in
  let stream := event_generator (fun _ => import_jobs (db w')) (fun _ => None) job_id in
  exists j,
    import_jobs (db w') !! job_id = Some j
    /\ match o with
       | Fatal _ false =>
           is_terminal (ImportJob.status j) = false
           /\ length (fst (fst stream)) = 600%nat
           /\ Forall (fun ev => shows_terminal ev = false) (fst (fst stream))
       | _ =>
           is_terminal (ImportJob.status j) = true
           /\ stream = ([snapshot j], 1%nat, None)
       end.
Proof.
  intros Hf Hlen o w' stream.
  destruct (run_spec env job_id file_path w Hf) as (j & Hj & _ & P).
  fold o w' in P, Hj. exists j. split; [exact Hj|].
  assert (Hgen : stream = poll (fun _ => import_jobs (db w')) (fun _ => None) job_id 600 0).
  { unfold stream, event_generator.
    destruct (job_id =? EmptyString)%string eqn:E.
    { apply String.eqb_eq in E. subst. discriminate. }
    apply Nat.eqb_eq in Hlen. rewrite Hlen. reflexivity. }
  assert (Done : is_terminal (ImportJob.status j) = true ->
                 is_terminal (ImportJob.status j) = true
                 /\ stream = ([snapshot j], 1%nat, None)).
  { intros Ht. split; [exact Ht|]. rewrite Hgen, poll_S, Hj, Ht. reflexivity. }
  destruct o as [|msg|c notified|e recorded]; cbn [run_post] in P.
  - contradiction.
  - apply Done. destruct P as (-> & _). reflexivity.
  - apply Done. destruct P as (_ & Hc & _).
    pose proof (classify_terminal c (ImportJob.total_rows j)) as [Ht _].
    rewrite <- Hc in Ht. exact Ht.
  - destruct P as (_ & P). destruct recorded.
    + apply Done. destruct P as (-> & _). reflexivity.
    + split; [exact P|]. rewrite Hgen.
      pose proof (poll_never_terminal (fun _ => import_jobs (db w')) (fun _ => None)
                    job_id 600 0) as N.
      destruct (poll (fun _ => import_jobs (db w')) (fun _ => None) job_id 600 0)
        as [[evs n] err].
      destruct N as (Hl & _ & _ & Hall); [|split; assumption].
      intros i _. split; [reflexivity|]. exists j. split; [exact Hj | exact P].
Qed.

(** * The routes of main.py *)

(** ** The product table under the routes *)

Lemma row_by_sku_catalog key table :
  is_Some (row_by_sku key table) <-> In key (keys (catalog table)).
Proof.
  unfold row_by_sku, keys, catalog, ProductRow.sku.
  induction table as [|r table IH]; simpl.
  - split; [intros [? [=]] | tauto].
  - destruct (Py.lower (Product.sku (ProductRow.product r)) =? key)%string eqn:E.
    + apply String.eqb_eq in E. split; eauto.
    + apply String.eqb_neq in E. rewrite IH. tauto.
Qed.

Lemma row_by_id_ids product_id table :
  is_Some (row_by_id product_id table) <-> In product_id (ids table).
Proof.
  unfold row_by_id, ids. induction table as [|r table IH]; simpl.
  - split; [intros [? [=]] | tauto].
  - destruct (ProductRow.id r =? product_id) eqn:E.
    + apply Z.eqb_eq in E. split; eauto.
    + apply Z.eqb_neq in E. rewrite IH. tauto.
Qed.

(** With a primary key, the row a lookup by id finds is the only one with
    that id. *)
Lemma row_by_id_split product_id table product :
  NoDup (ids table) ->
  row_by_id product_id table = Some product ->
  exists before after,
    table = (before ++ product :: after)%list
    /\ ProductRow.id product = product_id
    /\ Forall (fun r => ProductRow.id r <> product_id) (before ++ after).
Proof.
  unfold row_by_id, ids. induction table as [|r table IH]; simpl; [discriminate|].
  intros Hnd. apply NoDup_cons in Hnd as [Hr Hnd].
  destruct (ProductRow.id r =? product_id) eqn:E.
  - intros [= ->]. apply Z.eqb_eq in E. exists [], table. simpl.
    split; [reflexivity|]. split; [exact E|].
    apply List.Forall_forall. intros q Hq Heq. apply Hr.
    rewrite E, <- Heq. apply list_elem_of_In, in_map, Hq.
  - intros H. destruct (IH Hnd H) as (b & a & -> & Hi & Hall).
    exists (r :: b), a. simpl. split; [reflexivity|]. split; [exact Hi|].
    constructor; [apply Z.eqb_neq, E | exact Hall].
Qed.

Lemma map_at_id (f : ProductRow.t -> ProductRow.t) product_id rows :
  Forall (fun r => ProductRow.id r <> product_id) rows ->
  map (fun r => if ProductRow.id r =? product_id then f r else r) rows = rows.
Proof.
  induction 1 as [|r rows Hr _ IH]; simpl; [reflexivity|].
  apply Z.eqb_neq in Hr. rewrite Hr, IH. reflexivity.
Qed.

Lemma filter_at_id product_id rows :
  Forall (fun r => ProductRow.id r <> product_id) rows ->
  List.filter (fun r => negb (ProductRow.id r =? product_id)) rows = rows.
Proof.
  induction 1 as [|r rows Hr _ IH]; simpl; [reflexivity|].
  apply Z.eqb_neq in Hr. rewrite Hr, IH. reflexivity.
Qed.

(** X16.  [create_product] keeps the table sound and never touches what
    is there: with a fresh key from the database, ids stay distinct and
    case-folded skus stay distinct, the old rows are a prefix of the new
    table, and the request is refused with 400, the table left as it
    was, exactly when a row already carries the stripped sku in some
    letter case; otherwise exactly one row is appended, with the stripped
    sku and name. *)
Theorem X16_create_product_sound (now new_id : Z) (product : ProductCreate.t)
    (table : list ProductRow.t) :
  ~ In new_id (ids table) ->
  NoDup (ids table) ->
  NoDup (keys (catalog table)) ->
  let r := fst (create_product now new_id product table) in
  let table' := snd (create_product now new_id product table) in
  NoDup (ids table') /\ NoDup (keys (catalog table'))
  /\ table `prefix_of` table'
  /\ ((exists detail, r = HTTPException 400 detail)
      <-> In (Py.lower (Py.strip (ProductCreate.sku product))) (keys (catalog table)))
  /\ match r with
     | HTTPException _ _ => table' = table
     | Returned (i, sku, name) =>
         i = new_id /\ sku = Py.strip (ProductCreate.sku product)
         /\ name = Py.strip (ProductCreate.name product)
         /\ exists row,
              table' = (table ++ [row])%list /\ ProductRow.id row = new_id
              /\ ProductRow.sku row = sku
              /\ Product.updated_at (ProductRow.product row) = None
     end.
Proof.
  intros Hnew Hids Hkeys r table'. subst r table'. unfold create_product.
  pose proof (row_by_sku_catalog (Py.lower (Py.strip (ProductCreate.sku product))) table)
    as Hk.
  destruct (row_by_sku (Py.lower (Py.strip (ProductCreate.sku product))) table) as [q|];
    cbn [fst snd].
  - split; [exact Hids|]. split; [exact Hkeys|]. split; [reflexivity|].
    split; [|reflexivity]. split; [intros _; apply Hk; eauto | eauto].
  - assert (Hnot : ~ In (Py.lower (Py.strip (ProductCreate.sku product)))
                     (keys (catalog table))).
    { intros Hin. apply Hk in Hin. destruct Hin as [? [=]]. }
    split; [|split; [|split; [|split]]].
    + unfold ids. rewrite map_app. apply NoDup_app. split; [exact Hids|].
      split; [|apply NoDup_singleton].
      intros i Hi Hin. apply list_elem_of_singleton in Hin. subst i.
      apply Hnew. apply list_elem_of_In, Hi.
    + unfold keys, catalog. rewrite !map_app. apply NoDup_app.
      split; [exact Hkeys|]. split; [|apply NoDup_singleton].
      intros k Hkin Hin. apply list_elem_of_singleton in Hin. subst k.
      apply Hnot. apply list_elem_of_In, Hkin.
    + apply prefix_app_r. reflexivity.
    + split; [intros (d & [=]) | intros Hin; contradiction].
    + split; [reflexivity|]. split; [reflexivity|]. split; [reflexivity|].
      eexists. split; [reflexivity|]. split; [reflexivity|]. split; reflexivity.
Qed.

(** X17.  Once [create_product] has been called with a sku, whether it
    created the row or found it taken, every later call with the same
    sku up to letter case and surrounding whitespace is refused with 400
    and changes nothing. *)
Theorem X17_create_product_twice (now1 id1 now2 id2 : Z)
    (first second : ProductCreate.t) (table : list ProductRow.t) :
  Py.lower (Py.strip (ProductCreate.sku second))
  = Py.lower (Py.strip (ProductCreate.sku first)) ->
  let table1 := snd (create_product now1 id1 first table) in
  create_product now2 id2 second table1
  = (HTTPException 400
       ("Product with SKU '" ++ ProductCreate.sku second ++ "' already exists"),
     table1).
Proof.
  intros Hsame table1.
  assert (Hin : is_Some (row_by_sku (Py.lower (Py.strip (ProductCreate.sku first)))
                           table1)).
  { unfold table1, create_product.
    destruct (row_by_sku (Py.lower (Py.strip (ProductCreate.sku first))) table)
      as [q|] eqn:E; cbn [snd].
    - rewrite E. eauto.
    - apply row_by_sku_catalog. unfold keys, catalog. rewrite !map_app.
      apply in_or_app. right. left. reflexivity. }
  unfold create_product at 1. rewrite Hsame. destruct Hin as [q ->]. reflexivity.
Qed.

Lemma NoDup_replace {A} (l k : list A) (x y : A) :
  NoDup (l ++ x :: k) -> (y = x \/ ~ In y (l ++ k)) -> NoDup (l ++ y :: k).
Proof.
  intros H [-> | Hy]; [exact H|].
  apply NoDup_app in H as (Hl & Hlk & Hk). apply NoDup_cons in Hk as [Hx Hk].
  apply NoDup_app. split; [exact Hl|]. split.
  - intros z Hz Hin. apply elem_of_cons in Hin as [-> | Hin].
    + apply Hy, in_or_app. left. apply list_elem_of_In, Hz.
    + apply (Hlk z Hz). apply elem_of_cons. right. exact Hin.
  - apply NoDup_cons. split; [|exact Hk].
    intros Hin. apply Hy, in_or_app. right. apply list_elem_of_In, Hin.
Qed.

(** X18.  [update_product] keeps the table sound.  With distinct ids and
    distinct case-folded skus before, and a request that passed
    validation (a sku, if given, is not empty), the ids are as before and
    the case-folded skus are still distinct after; a request that is
    refused (404 exactly when no row has the id, otherwise 400) changes
    nothing; one that succeeds changes the row with that id, by the
    fields given, and no other row. *)
Theorem X18_update_product_sound (now product_id : Z)
    (product_update : ProductUpdate.t) (table : list ProductRow.t) :
  NoDup (ids table) ->
  NoDup (keys (catalog table)) ->
  ProductUpdate.sku product_update <> Some EmptyString ->
  let r := fst (update_product now product_id product_update table) in
  let table' := snd (update_product now product_id product_update table) in
  ids table' = ids table
  /\ NoDup (keys (catalog table'))
  /\ match r with
     | Returned i =>
         i = product_id
         /\ exists before old after,
              table = (before ++ old :: after)%list
              /\ table' = (before ++ apply_update now product_update old :: after)%list
              /\ ProductRow.id old = product_id
     | HTTPException code _ =>
         table' = table
         /\ (code = 404 \/ code = 400)
         /\ (code = 404 <-> ~ In product_id (ids table))
     end.
Proof.
  intros Hids Hkeys Hsku r table'. subst r table'. unfold update_product.
  pose proof (row_by_id_ids product_id table) as Hin.
  destruct (row_by_id product_id table) as [old|] eqn:E; cbn [fst snd].
  - destruct (row_by_id_split product_id table old Hids E) as (b & a & -> & Hi & Hall).
    destruct (sku_conflict product_id product_update old (b ++ old :: a)) as [q|] eqn:C;
      cbn [fst snd].
    + split; [reflexivity|]. split; [exact Hkeys|]. split; [reflexivity|].
      split; [right; reflexivity|]. split; [discriminate|].
      intros Hn. exfalso. apply Hn, Hin. eauto.
    + apply Forall_app in Hall as [Hb Ha].
      assert (Hmap : map (fun r => if ProductRow.id r =? product_id
                                   then apply_update now product_update r else r)
                       (b ++ old :: a)
                     = (b ++ apply_update now product_update old :: a)%list).
      { rewrite map_app. cbn [map]. rewrite !map_at_id by assumption.
        apply Z.eqb_eq in Hi. rewrite Hi. reflexivity. }
      rewrite Hmap. split; [|split].
      * unfold ids. rewrite !map_app. reflexivity.
      * unfold keys, catalog in *. rewrite !map_app in *. cbn [map] in *.
        eapply NoDup_replace; [exact Hkeys|].
        unfold sku_conflict in C. unfold apply_update. cbn.
        destruct (ProductUpdate.sku product_update) as [s|]; [|left; reflexivity].
        destruct (s =? EmptyString)%string eqn:Es.
        { apply String.eqb_eq in Es. subst s. contradiction. }
        cbn [negb andb] in C. unfold ProductRow.sku in C.
        destruct (Py.lower (Py.strip s)
                  =? Py.lower (Product.sku (ProductRow.product old)))%string eqn:Ek.
        { left. apply String.eqb_eq in Ek. exact Ek. }
        cbn [negb] in C. right. intros Hk.
        rewrite <- map_app, <- map_app in Hk.
        rewrite map_map in Hk. apply in_map_iff in Hk as (q & Hq & Hqin).
        pose proof (find_none _ _ C q) as N. cbn beta in N.
        rewrite Hq, String.eqb_refl in N.
        assert (Hne : ProductRow.id q <> product_id).
        { apply in_app_or in Hqin as [Hqin | Hqin].
          - rewrite List.Forall_forall in Hb. apply Hb, Hqin.
          - rewrite List.Forall_forall in Ha. apply Ha, Hqin. }
        apply Z.eqb_neq in Hne. rewrite Hne in N. cbn in N.
        assert (Hqt : In q (b ++ old :: a)).
        { apply in_app_or in Hqin as [Hqin | Hqin]; apply in_or_app;
            [left | right; right]; exact Hqin. }
        specialize (N Hqt). discriminate.
      * split; [exact Hi|]. exists b, old, a. auto.
  - split; [reflexivity|]. split; [exact Hkeys|]. split; [reflexivity|].
    split; [left; reflexivity|]. split; [|reflexivity].
    intros _ Hn. apply Hin in Hn. destruct Hn as [? [=]].
Qed.

(** X19.  [delete_product] removes the row with the id and nothing else,
    and frees its sku: with distinct ids and distinct case-folded skus,
    deleting an existing row leaves the other rows in their order, makes
    [get_product] and a second [delete_product] for that id answer 404,
    and lets a [create_product] with the deleted row's sku, in any letter
    case, go through. *)
Theorem X19_delete_product_frees_sku (product_id : Z) (table : list ProductRow.t)
    (old : ProductRow.t) :
  NoDup (ids table) ->
  NoDup (keys (catalog table)) ->
  row_by_id product_id table = Some old ->
  let table' := snd (delete_product product_id table) in
  fst (delete_product product_id table) = Returned tt
  /\ (exists before after,
        table = (before ++ old :: after)%list /\ table' = (before ++ after)%list)
  /\ get_product product_id table' = HTTPException 404 "Product not found"
  /\ delete_product product_id table'
     = (HTTPException 404 "Product not found", table')
  /\ forall now new_id product,
       Py.lower (Py.strip (ProductCreate.sku product)) = Py.lower (ProductRow.sku old) ->
       exists body, fst (create_product now new_id product table') = Returned body.
Proof.
  intros Hids Hkeys E table'. subst table'. unfold delete_product. rewrite E.
  cbn [fst snd].
  destruct (row_by_id_split product_id table old Hids E) as (b & a & -> & Hi & Hall).
  assert (Hf : List.filter (fun r => negb (ProductRow.id r =? product_id)) (b ++ old :: a)
               = (b ++ a)%list).
  { apply Forall_app in Hall as [Hb Ha].
    rewrite List.filter_app. cbn [List.filter].
    apply Z.eqb_eq in Hi. rewrite Hi. cbn [negb].
    rewrite !filter_at_id by assumption. reflexivity. }
  rewrite Hf.
  assert (Hgone : row_by_id product_id (b ++ a) = None).
  { destruct (row_by_id product_id (b ++ a)) as [q|] eqn:Q; [|reflexivity].
    unfold row_by_id in Q. apply find_some in Q as [Hq Hid].
    apply Z.eqb_eq in Hid. rewrite List.Forall_forall in Hall.
    exfalso. exact (Hall q Hq Hid). }
  split; [reflexivity|]. split; [eauto|]. split; [|split].
  - unfold get_product. rewrite Hgone. reflexivity.
  - rewrite Hgone. reflexivity.
  - intros now new_id product Hk. unfold create_product. rewrite Hk.
    destruct (row_by_sku (Py.lower (ProductRow.sku old)) (b ++ a)) as [q|] eqn:Q;
      [|eexists; reflexivity].
    exfalso. assert (Hin : In (Py.lower (ProductRow.sku old)) (keys (catalog (b ++ a))))
      by (apply row_by_sku_catalog; eauto).
    unfold keys, catalog in Hkeys, Hin. rewrite !map_app in Hkeys, Hin.
    cbn [map] in Hkeys. apply NoDup_app in Hkeys as (_ & Hlk & Hk2).
    apply NoDup_cons in Hk2 as [Hx _].
    apply in_app_or in Hin as [Hin | Hin].
    + apply (Hlk _ (proj2 (list_elem_of_In _ _) Hin)). apply elem_of_cons. left.
      reflexivity.
    + apply Hx, list_elem_of_In, Hin.
Qed.

(** ** Pages *)

Lemma pages_concat {A} (n : nat) : forall (m : nat) (l : list A),
  (length l <= m * n)%nat ->
  flat_map (fun k => take n (drop (k * n) l)) (seq 0 m) = l.
Proof.
  induction m as [|m IH]; intros l Hl.
  - destruct l; [reflexivity | simpl in Hl; lia].
  - cbn [seq flat_map]. rewrite <- seq_shift, flat_map_concat_map, map_map.
    rewrite <- flat_map_concat_map.
    rewrite (flat_map_ext _ (fun k => take n (drop (k * n) (drop n l)))).
    + rewrite IH by (rewrite length_drop; lia). simpl. apply take_drop.
    + intros k. rewrite drop_drop.
      replace (S k * n)%nat with (n + k * n)%nat by lia. reflexivity.
Qed.

Section Pages.
Variable ilike : string -> string -> bool.
Variable newest_first : list ProductRow.t -> list ProductRow.t.
Hypothesis newest_first_length : forall l, length (newest_first l) = length l.
Variable per_page : Z.
Hypothesis per_page_ge : 1 <= per_page.
Variables search active : option string.
Variable table : list ProductRow.t.

Lemma page_length page :
  1 <= page ->
  Z.of_nat (length (pg_products
                      (get_products ilike newest_first page per_page search active table)))
  = Z.min per_page
      (Z.max 0 (Z.of_nat (length (select ilike search active table))
                - (page - 1) * per_page)).
Proof.
  intros Hp. unfold get_products. cbn [pg_products].
  rewrite length_take, length_drop, newest_first_length.
  assert (0 <= (page - 1) * per_page) by nia. lia.
Qed.

Lemma total_pages_ceiling total :
  0 <= total ->
  (if 0 <? total then (total + per_page - 1) / per_page else 0)
  = (total + per_page - 1) / per_page
  /\ total <= (total + per_page - 1) / per_page * per_page
  /\ (0 < total -> ((total + per_page - 1) / per_page - 1) * per_page < total)
  /\ (total = 0 -> (total + per_page - 1) / per_page = 0)
  /\ 0 <= (total + per_page - 1) / per_page.
Proof.
  intros Ht.
  pose proof (Z.div_mod (total + per_page - 1) per_page ltac:(lia)) as D.
  pose proof (Z.mod_pos_bound (total + per_page - 1) per_page ltac:(lia)) as B.
  set (q := (total + per_page - 1) / per_page) in *.
  set (r := (total + per_page - 1) mod per_page) in *.
  assert (Hz : total = 0 -> q = 0) by (intros ->; nia).
  split; [|split; [|split; [|split]]].
  - destruct (0 <? total) eqn:E; [reflexivity|].
    apply Z.ltb_ge in E. symmetry. apply Hz. lia.
  - nia.
  - intros Hpos. nia.
  - exact Hz.
  - nia.
Qed.

End Pages.

(** X20.  The pages of [get_products] cover the result once.  For a page
    size of at least 1 and a database whose ordering returns the rows it
    was given: [total] is the number of rows that pass the two filters;
    [total_pages] is the smallest number of pages that holds them (the
    special case for an empty result changes nothing); page [p] holds
    [min(per_page, max(0, total - (p-1)*per_page))] rows, so it is empty
    exactly when it lies beyond [total_pages]; and the pages 1 to
    [total_pages], one after the other, are the ordered result. *)
Theorem X20_pages_cover_the_result (ilike : string -> string -> bool)
    (newest_first : list ProductRow.t -> list ProductRow.t) (per_page : Z)
    (search active : option string) (table : list ProductRow.t) :
  (forall l, length (newest_first l) = length l) ->
  1 <= per_page ->
  let page p := get_products ilike newest_first p per_page search active table in
  let total := Z.of_nat (length (select ilike search active table)) in
  let total_pages := (total + per_page - 1) / per_page in
  (forall p, pg_total (page p) = total /\ pg_total_pages (page p) = total_pages)
  /\ total <= total_pages * per_page
  /\ (0 < total -> (total_pages - 1) * per_page < total)
  /\ (forall p, 1 <= p ->
        Z.of_nat (length (pg_products (page p)))
        = Z.min per_page (Z.max 0 (total - (p - 1) * per_page)))
  /\ (forall p, 1 <= p -> (pg_products (page p) = [] <-> total_pages < p))
  /\ flat_map (fun k => pg_products (page (Z.of_nat k + 1)))
       (seq 0 (Z.to_nat total_pages))
     = newest_first (select ilike search active table).
Proof.
  intros Hlen Hpp page total total_pages.
  destruct (total_pages_ceiling per_page Hpp total ltac:(unfold total; lia))
    as (Hif & Hup & Hlow & Hz & Hnn).
  fold total_pages in Hif, Hup, Hlow, Hz, Hnn.
  assert (Hpl := page_length ilike newest_first Hlen per_page Hpp search active table).
  fold total in Hpl.
  split; [|split; [|split; [|split; [|split]]]].
  - intros p. split; [reflexivity|]. unfold page, get_products. cbn [pg_total_pages].
    exact Hif.
  - exact Hup.
  - exact Hlow.
  - intros p Hp. apply Hpl, Hp.
  - intros p Hp. specialize (Hpl p Hp). fold (page p) in Hpl.
    destruct (Z.eq_dec total 0) as [E | E].
    + specialize (Hz E).
      split; [intros _; lia|]. intros _.
      destruct (pg_products (page p)); [reflexivity | simpl in Hpl; nia].
    + assert (Hpos : 0 < total) by (unfold total in *; lia).
      specialize (Hlow Hpos). split.
      * intros Hnil. rewrite Hnil in Hpl. simpl in Hpl. nia.
      * intros Hlt. destruct (pg_products (page p)); [reflexivity|].
        simpl in Hpl. nia.
  - unfold page, get_products. cbn [pg_products].
    rewrite (flat_map_ext _
               (fun k => take (Z.to_nat per_page)
                           (drop (k * Z.to_nat per_page)
                              (newest_first (select ilike search active table))))).
    + apply pages_concat. rewrite Hlen.
      apply Nat2Z.inj_le. rewrite Nat2Z.inj_mul, !Z2Nat.id by lia. exact Hup.
    + intros k. f_equal. f_equal.
      rewrite Z.add_simpl_r, Z2Nat.inj_mul, Nat2Z.id by lia. reflexivity.
Qed.

(** ** The upload *)

Lemma import_products_ok env job_id filename content w :
  py_endswith filename ".csv" = true ->
  db_fault env (db_ops (db w)) = None ->
  import_jobs (db w) !! job_id = None ->
  import_products env None job_id filename content w
  = (Ok (Returned job_id, Some (job_id, upload_path job_id)),
     with_sys (fun s => put_files (<[upload_path job_id := content]> (files s)) s)
       (with_db (fun d => put_import_jobs (<[job_id := new_job job_id]> (import_jobs d)) d)
          (with_db bump w))).
Proof.
  intros Hcsv Hdb Hnew. unfold import_products. rewrite Hcsv. cbn [negb].
  unfold bind at 1. unfold add_job. rewrite Hdb. cbn [new_job ImportJob.id].
  rewrite Hnew. reflexivity.
Qed.

(** X21.  An accepted upload sets the run up.  For a file name that ends
    in ".csv", a new job id, a database that answers and a disk that
    takes the file, [import_products] returns the job id and starts the
    thread on that id and on the path under which it has just staged the
    file; the job row the thread will find is the pending one with zero
    counts; no product, webhook or other job is touched. *)
Theorem X21_upload_sets_up_the_run (env : Env) (job_id filename : string)
    (content : read_result) (w : World) :
  py_endswith filename ".csv" = true ->
  db_fault env (db_ops (db w)) = None ->
  import_jobs (db w) !! job_id = None ->
  job_trace (db w) = [] ->
  exists w',
    import_products env None job_id filename content w
    = (Ok (Returned job_id, Some (job_id, upload_path job_id)), w')
    /\ fresh_run job_id w'
    /\ files (sys w') !! upload_path job_id = Some content
    /\ (forall path, path <> upload_path job_id ->
        files (sys w') !! path = files (sys w) !! path)
    /\ (forall k, k <> job_id -> import_jobs (db w') !! k = import_jobs (db w) !! k)
    /\ products (db w') = products (db w)
    /\ webhooks (db w') = webhooks (db w)
    /\ celery_queue (sys w') = celery_queue (sys w)
    /\ outbox (sys w') = outbox (sys w).
Proof.
  intros Hcsv Hdb Hnew Htrace. eexists.
  split; [apply import_products_ok; assumption|]. cbn.
  split; [split; [apply lookup_insert_eq | exact Htrace]|].
  split; [apply lookup_insert_eq|].
  split; [intros path Hp; apply lookup_insert_ne; congruence|].
  split; [intros k Hk; apply lookup_insert_ne; congruence|]. auto.
Qed.

(** X22.  Upload and import, end to end, on a database that answers every
    call.  The run that an accepted upload starts always finds its job
    and its file: it never ends with "File not found".  It is refused
    exactly when the upload does not parse or lacks a required column, and
    the catalog is then as it was; otherwise it ends with the rows
    classified, and the counters and the catalog are those of the fold of
    the uploaded rows over the catalog as it was before the upload. *)
Theorem X22_upload_then_run (env : Env) (job_id filename : string)
    (content : read_result) (w : World) :
  db_up env ->
  py_endswith filename ".csv" = true ->
  import_jobs (db w) !! job_id = None ->
  let o := fst (upload_and_run env None job_id filename content w) in
  let w' := snd (upload_and_run env None job_id filename content w) in
  match refusal (upload_path job_id) (Some content) with
  | Some msg =>
      o = Some (Refused msg)
      /\ msg <> "File not found at path: " ++ upload_path job_id
      /\ products (db w') = products (db w)
  | None =>
      exists notified,
        o = Some (Classified
                    (snd (apply_rows (utcnow env) 0 (parsed_rows (Some content))
                            (products (db w), counters0)))
                    notified)
        /\ products (db w')
           = fst (apply_rows (utcnow env) 0 (parsed_rows (Some content))
                    (products (db w), counters0))
  end.
Proof.
  intros Hup Hcsv Hnew o w'. subst o w'. unfold upload_and_run.
  rewrite (import_products_ok env job_id filename content w Hcsv (Hup _) Hnew).
  set (w1 := with_sys _ _).
  assert (Hj : import_jobs (db w1) !! job_id = Some (new_job job_id))
    by apply lookup_insert_eq.
  assert (Hf : files (sys w1) !! upload_path job_id = Some content)
    by apply lookup_insert_eq.
  pose proof (run_up env Hup job_id (upload_path job_id) w1 _ Hj) as R.
  rewrite Hf in R.
  destruct (process_csv_import_sync env job_id (upload_path job_id) w1) as [o w2].
  cbn [fst snd] in *.
  destruct (refusal (upload_path job_id) (Some content)) as [msg|] eqn:Eref.
  - destruct R as [-> Hp]. split; [reflexivity|]. split; [|exact Hp].
    intros ->. revert Eref. unfold refusal.
    destruct content as [df|e].
    + destruct (List.filter _ required_cols); [discriminate|].
      unfold missing_columns_message. cbv [append]. intros [=].
    + destruct e; cbv [append]; intros [=].
  - destruct R as (n & -> & Hp). exists n. split; [reflexivity | exact Hp].
Qed.

(** X23.  A job without a run.  The job row is committed (line 73) before
    the file is written (lines 82-85) and before the thread is started
    (line 95): when staging the file raises, the request fails with that
    error and no thread is started, whatever the failed write has left on
    disk; the job row stays in the table, [pending] with zero counts, with
    nothing left to move it on, and a progress stream on it ends only
    after its 600 polls. *)
Theorem X23_failed_staging_leaves_pending_job (env : Env) (msg : string)
    (left_behind : option read_result) (job_id filename : string)
    (content : read_result) (w : World) :
  py_endswith filename ".csv" = true ->
  db_fault env (db_ops (db w)) = None ->
  import_jobs (db w) !! job_id = None ->
  Py.len job_id = 36%nat ->
  let r := fst (import_products env (Some (msg, left_behind)) job_id filename content w) in
  let w' := snd (import_products env (Some (msg, left_behind)) job_id filename content w) in
  r = Raise (OSError msg)
  /\ import_jobs (db w') !! job_id = Some (new_job job_id)
  /\ products (db w') = products (db w)
  /\ celery_queue (sys w') = celery_queue (sys w)
  /\ outbox (sys w') = outbox (sys w)
  /\ let '(evs, lookups, err) :=
       event_generator (fun _ => import_jobs (db w')) (fun _ => None) job_id in
     length evs = 600%nat /\ Forall (fun ev => shows_terminal ev = false) evs.
Proof.
  intros Hcsv Hdb Hnew Hlen r w'. subst r w'.
  assert (E : exists s',
             import_products env (Some (msg, left_behind)) job_id filename content w
             = (Raise (OSError msg),
                {| db := put_import_jobs (<[job_id := new_job job_id]> (import_jobs (db w)))
                           (bump (db w));
                   sys := s' |})
             /\ celery_queue s' = celery_queue (sys w)
             /\ outbox s' = outbox (sys w)).
  { unfold import_products. rewrite Hcsv. cbn [negb]. unfold bind at 1.
    unfold add_job. rewrite Hdb. cbn [new_job ImportJob.id]. rewrite Hnew.
    destruct left_behind; eexists; (split; [reflexivity|]); split; reflexivity. }
  destruct E as (s' & -> & Hq & Ho). cbn [fst snd db sys].
  assert (Hj : import_jobs (put_import_jobs (<[job_id := new_job job_id]>
                                               (import_jobs (db w))) (bump (db w)))
               !! job_id = Some (new_job job_id)) by apply lookup_insert_eq.
  split; [reflexivity|]. split; [exact Hj|]. split; [reflexivity|].
  split; [exact Hq|]. split; [exact Ho|].
  unfold event_generator.
  destruct (job_id =? EmptyString)%string eqn:Ee.
  { apply String.eqb_eq in Ee. subst. discriminate. }
  apply Nat.eqb_eq in Hlen. rewrite Hlen. cbn [negb orb].
  match goal with
  | |- context [poll ?t ?f job_id 600 0] =>
      pose proof (poll_never_terminal t f job_id 600 0) as N;
      destruct (poll t f job_id 600 0) as [[evs n] err]
  end.
  destruct N as (Hl & _ & _ & Hall); [|split; assumption].
  intros i _. split; [reflexivity|]. exists (new_job job_id). split; [exact Hj | reflexivity].
Qed.

(** ** The webhook routes and the dispatch *)

Lemma sys_eq (s1 s2 : Sys) :
  files s1 = files s2 -> celery_queue s1 = celery_queue s2 ->
  outbox s1 = outbox s2 -> log s1 = log s2 -> s1 = s2.
Proof. destruct s1, s2. simpl. intros -> -> -> ->. reflexivity. Qed.

Lemma dispatch_by_listeners env event_type payload whs1 whs2 w :
  listeners event_type whs1 = listeners event_type whs2 ->
  sys (snd (trigger_webhooks_sync env event_type payload (with_db (put_webhooks whs1) w)))
  = sys (snd (trigger_webhooks_sync env event_type payload
                (with_db (put_webhooks whs2) w))).
Proof.
  intros Hl.
  destruct (trigger_webhooks_sync_spec env event_type payload
              (with_db (put_webhooks whs1) w)) as (s1 & -> & F1 & Q1 & R1).
  destruct (trigger_webhooks_sync_spec env event_type payload
              (with_db (put_webhooks whs2) w)) as (s2 & -> & F2 & Q2 & R2).
  cbn [with_db db sys put_webhooks webhooks db_ops snd] in *.
  apply sys_eq; [congruence | congruence | |];
    destruct (db_fault env (db_ops (db w))); destruct R1 as [O1 L1], R2 as [O2 L2];
    rewrite ?Hl in *; congruence.
Qed.

(** X24.  For the dispatch, a webhook switched off through
    [update_webhook] is as good as deleted: whatever the event, the
    payload and the failures of the environment, [trigger_webhooks_sync]
    posts and logs the same against the table in which the webhook was
    disabled as against the table from which it was deleted. *)
Theorem X24_disabled_is_as_deleted (env : Env) (event_type : string) (payload : Payload)
    (webhook_id : Z) (table : list WebhookRow.t) (w : World) :
  let disabled :=
    snd (update_webhook webhook_id (WebhookUpdate.mk None None (Some false)) table) in
  let deleted := snd (delete_webhook webhook_id table) in
  listeners event_type (hooks disabled) = listeners event_type (hooks deleted)
  /\ sys (snd (trigger_webhooks_sync env event_type payload
                 (with_db (put_webhooks (hooks disabled)) w)))
     = sys (snd (trigger_webhooks_sync env event_type payload
                   (with_db (put_webhooks (hooks deleted)) w))).
Proof.
  intros disabled deleted.
  assert (Hl : listeners event_type (hooks disabled)
               = listeners event_type (hooks deleted)).
  { unfold disabled, deleted, update_webhook, delete_webhook.
    destruct (webhook_by_id webhook_id table); [|reflexivity]. cbn [snd].
    unfold listeners, hooks. induction table as [|r table IH]; [reflexivity|].
    cbn [map List.filter].
    destruct (WebhookRow.id r =? webhook_id); cbn [negb map List.filter].
    - unfold listens at 1. cbn. rewrite andb_false_r. exact IH.
    - destruct (listens event_type (WebhookRow.webhook r)); [f_equal|]; exact IH. }
  split; [exact Hl | apply dispatch_by_listeners, Hl].
Qed.

(** X25.  A webhook created from a url alone listens to the import: with
    the defaults of [WebhookCreate] the new row is enabled and subscribed
    to "product.imported", so a dispatch of that event whose query is
    answered posts to the listeners that were there and then, if the url
    can be reached, to the new one. *)
Theorem X25_new_webhook_is_notified (env : Env) (now new_id : Z) (url : string)
    (table : list WebhookRow.t) (payload : Payload) (w : World) :
  db_fault env (db_ops (db w)) = None ->
  post_fault env url = None ->
  let table' := snd (create_webhook now new_id (WebhookCreate.defaults url) table) in
  outbox (sys (snd (trigger_webhooks_sync env "product.imported" payload
                      (with_db (put_webhooks (hooks table')) w))))
  = (outbox (sys w)
     ++ deliveries env "product.imported" payload
          (listeners "product.imported" (hooks table))
     ++ [(url, envelope_of env "product.imported" payload)])%list.
Proof.
  intros Hdb Hpost table'.
  destruct (trigger_webhooks_sync_spec env "product.imported" payload
              (with_db (put_webhooks (hooks table')) w)) as (s' & -> & _ & _ & R).
  cbn [with_db db sys put_webhooks webhooks db_ops] in R. rewrite Hdb in R.
  destruct R as [R _]. cbn [snd sys]. rewrite R. f_equal.
  unfold table', create_webhook, hooks, listeners, deliveries. cbn [snd].
  rewrite map_app, !List.filter_app, map_app. f_equal. cbn.
  unfold reachable. cbn. rewrite Hpost. reflexivity.
Qed.

(** ** The last row of a key wins *)

Lemma update_first_other_key key sku_lower name d now ps :
  sku_lower <> key ->
  first_by_sku key (update_first sku_lower name d now ps) = first_by_sku key ps.
Proof.
  intros Hne. unfold first_by_sku. induction ps as [|p ps IH]; [reflexivity|].
  cbn [update_first].
  destruct (Py.lower (Product.sku p) =? sku_lower)%string eqn:E.
  - apply String.eqb_eq in E. cbn [find Product.sku].
    assert (Hk : (Py.lower (Product.sku p) =? key)%string = false)
      by (apply String.eqb_neq; congruence).
    rewrite Hk. reflexivity.
  - cbn [find]. destruct (Py.lower (Product.sku p) =? key)%string; [reflexivity | exact IH].
Qed.

Lemma upsert_other_key key now sku name d ps c :
  Py.lower sku <> key ->
  first_by_sku key (fst (upsert now sku name d ps c)) = first_by_sku key ps.
Proof.
  intros Hne. unfold upsert.
  destruct (first_by_sku (Py.lower sku) ps); cbn [fst].
  - apply update_first_other_key, Hne.
  - assert (Hk : (Py.lower sku =? key)%string = false) by (apply String.eqb_neq, Hne).
    unfold first_by_sku. clear - Hk. induction ps as [|p ps IH]; cbn.
    + rewrite Hk. reflexivity.
    + destruct (Py.lower (Product.sku p) =? key)%string; [reflexivity | exact IH].
Qed.

Lemma apply_rows_other_keys key now table : forall idx s,
  (forall row sku name d,
     In row table -> validate_row 0 row = Accepted sku name d -> Py.lower sku <> key) ->
  first_by_sku key (fst (apply_rows now idx table s)) = first_by_sku key (fst s).
Proof.
  induction table as [|row rest IH]; intros idx s H; [reflexivity|].
  cbn [apply_rows]. rewrite IH by (intros; eapply H; [right|]; eauto).
  unfold apply_row. pose proof (validate_row_label idx 0 row) as L.
  destruct (validate_row idx row) as [msg|sku name d]; [reflexivity|].
  destruct (validate_row 0 row) as [|sku0 name0 d0] eqn:V; [contradiction|].
  destruct L as (-> & _ & _).
  apply upsert_other_key. eapply H; [left; reflexivity | exact V].
Qed.

Lemma apply_rows_last now before row after sku name d : forall idx s,
  validate_row 0 row = Accepted sku name d ->
  (forall row' sku' name' d',
     In row' after -> validate_row 0 row' = Accepted sku' name' d' ->
     Py.lower sku' <> Py.lower sku) ->
  exists p,
    first_by_sku (Py.lower sku) (fst (apply_rows now idx (before ++ row :: after) s))
    = Some p
    /\ Product.name p = name /\ Product.description p = d.
Proof.
  intros idx s V Hlater. rewrite apply_rows_app. cbn [apply_rows].
  rewrite apply_rows_other_keys by exact Hlater.
  unfold apply_row.
  pose proof (validate_row_label (idx + Z.of_nat (length before)) 0 row) as L.
  rewrite V in L.
  destruct (validate_row (idx + Z.of_nat (length before)) row) as [|sku1 name1 d1];
    [contradiction|].
  destruct L as (-> & -> & ->).
  destruct (upsert_lookup now name d sku (fst (apply_rows now idx before s))
              (snd (apply_rows now idx before s))) as (p & Hp & Hn & Hd & _).
  exists p. auto.
Qed.

(** X26.  The last row of a key wins.  On a database that answers every
    call, after a run on a file that parses with both required columns,
    the product found under the case-folded sku of a valid row carries
    the name and the description of that row, provided that no valid row
    after it in the file has the same sku up to letter case: earlier rows
    of the key, and what the catalog held under it, are overwritten. *)
Theorem X26_last_row_wins (env : Env) (job_id file_path : string) (w : World)
    (j : ImportJob.t) (df : DataFrame) (before after : list (gmap string cell))
    (row : gmap string cell) (sku name description : string) :
  db_up env ->
  import_jobs (db w) !! job_id = Some j ->
  files (sys w) !! file_path = Some (Parsed df) ->
  (forall col, In col required_cols -> In col (columns df)) ->
  rows df = (before ++ row :: after)%list ->
  validate_row 0 row = Accepted sku name description ->
  (forall row' sku' name' d',
     In row' after -> validate_row 0 row' = Accepted sku' name' d' ->
     Py.lower sku' <> Py.lower sku) ->
  exists p,
    first_by_sku (Py.lower sku)
      (products (db (snd (process_csv_import_sync env job_id file_path w))))
    = Some p
    /\ Product.name p = name /\ Product.description p = description.
Proof.
  intros Hup Hj Hf Hc Hrows V Hlater.
  pose proof (run_up env Hup job_id file_path w j Hj) as R.
  assert (Hr : refusal file_path (files (sys w) !! file_path) = None)
    by (apply refusal_none; eauto).
  rewrite Hr, Hf in R. cbn [parsed_rows] in R. destruct R as (n & _ & ->).
  rewrite Hrows. apply apply_rows_last; assumption.
Qed.

End Interpreter.

(** * The program on sample inputs *)

(** The inputs below are in the ASCII range, where [strip] and [lower] are
    fixed. *)
#[local] Existing Instance Py.ascii_tables.

Lemma C1_terminal_classification_witness :
  fresh_run "J" (sample_world (Some (Parsed dup_table)))
  /\ fst (sample_run no_fault (Some (Parsed dup_table)))
     = Classified
         {| processed_count := 2; created_count := 1; updated_count := 1;
            error_count := 1; errors := ["Row 4: Empty or invalid SKU"] |}
         (Some {| pl_job_id := "J"; pl_count := 2; pl_created := 1;
                  pl_updated := 1; pl_errors := 1 |})
  /\ exists j,
       import_jobs (db (snd (sample_run no_fault (Some (Parsed dup_table))))) !! "J"
       = Some j
       /\ ImportJob.status j = completed_with_errors.
Proof.
  assert (Hf : fresh_run "J" (sample_world (Some (Parsed dup_table))))
    by (repeat split; reflexivity).
  assert (Ho : fst (sample_run no_fault (Some (Parsed dup_table)))
               = Classified
                   {| processed_count := 2; created_count := 1; updated_count := 1;
                      error_count := 1; errors := ["Row 4: Empty or invalid SKU"] |}
                   (Some {| pl_job_id := "J"; pl_count := 2; pl_created := 1;
                            pl_updated := 1; pl_errors := 1 |}))
    by (vm_compute; reflexivity).
  split; [exact Hf|]. split; [exact Ho|].
  destruct (C1_terminal_classification (sample_env no_fault) "J" "temp_uploads/J.csv"
              _ _ _ Hf Ho) as (j & Hj & _ & Hpartial & _).
  exists j. split; [exact Hj|].
  apply Hpartial; [reflexivity | discriminate].
Defined.

(** The claim as it is worded fails for a run that has reached the rows:
    one valid row, no row error, the progress commit of its chunk raises,
    and the job ends [failed] with the fatal diagnostic, which is the
    classification of no counters at all. *)
Lemma C1_counterexample :
  let run := sample_run (fault_at 5) (Some (Parsed one_row_table)) in
  fresh_run "J" (sample_world (Some (Parsed one_row_table)))
  /\ In importing (map ImportJob.status (job_trace (db (snd run))))
  /\ exists j,
       import_jobs (db (snd run)) !! "J" = Some j
       /\ ImportJob.status j = failed
       /\ forall c total,
            classify c total <> (ImportJob.status j, ImportJob.error_message j).
Proof.
  split; [repeat split; reflexivity|].
  split; [vm_compute; auto|].
  eexists. split; [vm_compute; reflexivity|]. split; [reflexivity|].
  intros c total. unfold classify.
  destruct ((0 <? error_count c) && (processed_count c =? 0));
    [|destruct (0 <? error_count c); discriminate].
  cbn [ImportJob.status ImportJob.error_message].
  intros H. injection H as H. unfold failed_summary in H.
  cbv [append] in H. discriminate H.
Qed.



Lemma C8_webhook_dispatch_witness :
  fresh_run "J" (sample_world (Some (Parsed dup_table)))
  /\ exists j,
       import_jobs (db (snd (sample_run no_fault (Some (Parsed dup_table))))) !! "J"
       = Some j
       /\ (is_Some (dispatched (fst (sample_run no_fault (Some (Parsed dup_table)))))
           <-> is_success (ImportJob.status j) = true).
Proof.
  assert (Hf : fresh_run "J" (sample_world (Some (Parsed dup_table))))
    by (repeat split; reflexivity).
  split; [exact Hf|].
  destruct (proj1 (C8_webhook_dispatch (sample_env no_fault) "J" "temp_uploads/J.csv"
                     _ Hf)) as (j & Hj & Hiff & _).
  exists j. split; [exact Hj | exact Hiff].
Defined.

Lemma C10_counts_agree_witness :
  fresh_run "J" (sample_world (Some (Parsed dup_table)))
  /\ forall c notified,
       fst (sample_run no_fault (Some (Parsed dup_table))) = Classified c notified ->
       processed_count c = created_count c + updated_count c.
Proof.
  assert (Hf : fresh_run "J" (sample_world (Some (Parsed dup_table))))
    by (repeat split; reflexivity).
  split; [exact Hf|]. intros c notified Ho.
  exact (proj1 (proj2 (proj2 (C10_counts_agree (sample_env no_fault)))
                  "J" "temp_uploads/J.csv" _ c notified Hf Ho)).
Defined.

(** C6 on the code: a file with one valid row whose end-of-chunk commit
    raises.  One line is recorded, the error count is 99, the job ends
    [completed_with_errors] reporting one product processed, and the
    product table is empty. *)
Theorem C6_chunk_commit_failure_counts_99 :
  let run := sample_run (fault_at 4) (Some (Parsed one_row_table)) in
  fst run
  = Classified
      {| processed_count := 1; created_count := 1; updated_count := 0;
         error_count := 99;
         errors := ["Failed to commit chunk at row 0: server closed the connection"] |}
      (Some {| pl_job_id := "J"; pl_count := 1; pl_created := 1;
               pl_updated := 0; pl_errors := 99 |})
  /\ option_map ImportJob.status (import_jobs (db (snd run)) !! "J")
     = Some completed_with_errors
  /\ products (db (snd run)) = [].
Proof. vm_compute. repeat split. Qed.

(** C7 on the code: a file whose header lacks [name].  The job is refused
    as [failed], and the staged file is still there when the task has
    returned. *)
Theorem C7_schema_failure_keeps_file :
  let run := sample_run no_fault (Some (Parsed no_name_table)) in
  option_map ImportJob.status (import_jobs (db (snd run)) !! "J") = Some failed
  /\ (exists msg, fst run = Refused msg)
  /\ files (sys (snd run)) !! "temp_uploads/J.csv" = Some (Parsed no_name_table).
Proof.
  split; [vm_compute; reflexivity|]. split; [eexists; vm_compute; reflexivity|].
  vm_compute. reflexivity.
Qed.

(** The same slip with a hundred valid rows: the end-of-chunk commit
    raises, [chunk_size - processed_count] is zero, and the job ends
    [completed] with no message although an error line was recorded. *)
Lemma chunk_commit_failure_goes_unreported :
  let run := sample_run (fault_at 105) (Some (Parsed hundred_rows_table)) in
  (exists c notified,
     fst run = Classified c notified
     /\ error_count c = 0
     /\ errors c = ["Failed to commit chunk at row 0: server closed the connection"])
  /\ option_map ImportJob.status (import_jobs (db (snd run)) !! "J") = Some completed
  /\ option_map ImportJob.error_message (import_jobs (db (snd run)) !! "J") = Some None.
Proof.
  split; [|split; vm_compute; reflexivity].
  eexists _, _. split; [vm_compute; reflexivity|]. split; reflexivity.
Qed.

(** DUP-001 then dup-001 in one job, on an empty catalog: one record under
    the first spelling with the second row's name, one created and one
    updated. *)
Example dup_rows_one_record :
  let run := sample_run no_fault (Some (Parsed dup_table)) in
  products (db (snd run))
  = [Product.mk "DUP-001" "Second" EmptyString true (Some 1700000000)]
  /\ exists c notified,
       fst run = Classified c notified
       /\ created_count c = 1 /\ updated_count c = 1.
Proof.
  split; [vm_compute; reflexivity|].
  eexists _, _. split; [vm_compute; reflexivity|]. split; reflexivity.
Qed.

Lemma C3_upsert_by_key_witness :
  db_up (sample_env no_fault)
  /\ validate_row 0 (sample_row "DUP-001" "First") = Accepted "DUP-001" "First" EmptyString
  /\ validate_row 1 (sample_row "dup-001" "Second")
     = Accepted "dup-001" "Second" EmptyString
  /\ Py.lower "dup-001" = Py.lower "DUP-001"
  /\ first_by_sku (Py.lower "DUP-001") [] = None
  /\ exists notified,
       fst (sample_run no_fault (Some (Parsed pair_table)))
       = Classified {| processed_count := 2; created_count := 1; updated_count := 1;
                       error_count := 0; errors := [] |} notified
       /\ products (db (snd (sample_run no_fault (Some (Parsed pair_table)))))
          = [Product.mk "DUP-001" "Second" EmptyString true (Some 1700000000)].
Proof.
  assert (Hup : db_up (sample_env no_fault)) by (intros n; reflexivity).
  split; [exact Hup|].
  split; [reflexivity|]. split; [reflexivity|]. split; [reflexivity|].
  split; [reflexivity|].
  apply (proj1 (proj2 (proj2 (proj2 (proj2 (proj2 (proj2
           (C3_upsert_by_key 1700000000 "DUP-001" "First" EmptyString [] counters0)))))))
           (sample_env no_fault) "J" "temp_uploads/J.csv"
           (sample_world (Some (Parsed pair_table))) (new_job "J") pair_table
           (sample_row "DUP-001" "First") (sample_row "dup-001" "Second")
           "dup-001" "Second" EmptyString);
    try reflexivity; try exact Hup.
  intros col H. exact H.
Defined.

Lemma C4_processed_rows_witness :
  fresh_run "J" (sample_world (Some (Parsed dup_table)))
  /\ StronglySorted no_less_progress
       (job_trace (db (snd (sample_run (fault_at 5) (Some (Parsed dup_table)))))
        ++ [new_job "J"])%list
  /\ exists c notified,
       fst (sample_run (fault_at 5) (Some (Parsed dup_table))) = Classified c notified
       /\ exists j,
            In j (job_trace (db (snd (sample_run (fault_at 5) (Some (Parsed dup_table))))))
            /\ ImportJob.total_rows j = 3
            /\ ImportJob.processed_rows j = Z.min (1 * chunk_size) 3.
Proof.
  assert (Hf : fresh_run "J" (sample_world (Some (Parsed dup_table))))
    by (repeat split; reflexivity).
  split; [exact Hf|].
  split.
  - exact (proj1 (proj2 (C4_processed_rows (sample_env (fault_at 5)) "J"
                           "temp_uploads/J.csv" _ Hf))).
  - assert (Ho : exists c notified,
               fst (sample_run (fault_at 5) (Some (Parsed dup_table)))
               = Classified c notified)
      by (eexists _, _; vm_compute; reflexivity).
    destruct Ho as (c & notified & Ho).
    exists c, notified. split; [exact Ho|].
    destruct (proj1 (proj2 (proj2 (C4_processed_rows (sample_env (fault_at 5)) "J"
                                     "temp_uploads/J.csv" _ Hf))) c notified Ho)
      as (df & Hfile & Hk & _).
    assert (E : Some (Parsed df) = Some (Parsed dup_table))
      by (rewrite <- Hfile; reflexivity).
    injection E as E. rewrite E in Hk.
    apply (Hk 1); [lia | vm_compute; reflexivity].
Defined.


(** [len] counts characters, not bytes: an identifier of 36 characters
    one of which takes two bytes passes the length test of line 107. *)
Lemma len_counts_characters :
  Py.len "éf8fad5b-d9cb-469f-a165-70867728950e" = 36%nat
  /\ String.length "éf8fad5b-d9cb-469f-a165-70867728950e" = 37%nat.
Proof. split; reflexivity. Qed.

Lemma C9_progress_stream_witness :
  ("job-42" = EmptyString \/ Py.len "job-42" <> 36%nat)
  /\ event_generator (fun _ => ∅) no_fault "job-42" = ([InvalidId], O, None).
Proof.
  assert (H : "job-42" = EmptyString \/ Py.len "job-42" <> 36%nat)
    by (right; discriminate).
  split; [exact H|].
  exact (proj1 (C9_progress_stream (fun _ => ∅) no_fault "job-42") H).
Defined.

Lemma X1_healthy_run_is_fold_witness :
  db_up (sample_env no_fault)
  /\ import_jobs (db (sample_world (Some (Parsed dup_table)))) !! "J" = Some (new_job "J")
  /\ products (db (snd (sample_run no_fault (Some (Parsed dup_table)))))
     = fst (apply_rows 1700000000 0 (rows dup_table) ([], counters0)).
Proof.
  assert (Hup : db_up (sample_env no_fault)) by (intros n; reflexivity).
  assert (Hj : import_jobs (db (sample_world (Some (Parsed dup_table)))) !! "J"
               = Some (new_job "J")) by reflexivity.
  split; [exact Hup|]. split; [exact Hj|].
  destruct (X1_healthy_run_is_fold (sample_env no_fault) "J" "temp_uploads/J.csv"
              (sample_world (Some (Parsed dup_table))) _ dup_table Hup Hj eq_refl)
    as (notified & _ & Hp).
  - intros col [<- | [<- | []]]; simpl; auto.
  - exact Hp.
Defined.

Lemma X2_refused_before_rows_witness :
  db_up (sample_env no_fault)
  /\ fresh_run "J" (sample_world (Some (Parsed no_name_table)))
  /\ refusal "temp_uploads/J.csv"
       (files (sys (sample_world (Some (Parsed no_name_table)))) !! "temp_uploads/J.csv")
     = Some (missing_columns_message ["name"] ["sku"; "description"]).
Proof.
  assert (Hup : db_up (sample_env no_fault)) by (intros n; reflexivity).
  assert (Hf : fresh_run "J" (sample_world (Some (Parsed no_name_table))))
    by (split; reflexivity).
  split; [exact Hup|]. split; [exact Hf|].
  apply (proj2 (X2_refused_before_rows (sample_env no_fault) "J" "temp_uploads/J.csv"
                  _ Hup Hf)).
  vm_compute. reflexivity.
Defined.

Lemma X3_every_row_accounted_witness :
  db_up (sample_env no_fault)
  /\ import_jobs (db (sample_world (Some (Parsed dup_table)))) !! "J" = Some (new_job "J")
  /\ forall c notified,
       fst (sample_run no_fault (Some (Parsed dup_table))) = Classified c notified ->
       processed_count c + error_count c = 3.
Proof.
  assert (Hup : db_up (sample_env no_fault)) by (intros n; reflexivity).
  assert (Hj : import_jobs (db (sample_world (Some (Parsed dup_table)))) !! "J"
               = Some (new_job "J")) by reflexivity.
  split; [exact Hup|]. split; [exact Hj|]. intros c notified Ho.
  exact (proj1 (proj2 (proj2 (proj2
           (X3_every_row_accounted (sample_env no_fault) "J" "temp_uploads/J.csv"
              _ _ dup_table c notified Hup Hj eq_refl Ho))))).
Defined.

Lemma X4_no_valid_row_fails_witness :
  db_up (sample_env no_fault)
  /\ fresh_run "J" (sample_world (Some (Parsed no_sku_table)))
  /\ rows no_sku_table <> []
  /\ Forall (fun row => valid_row row = false) (rows no_sku_table)
  /\ products (db (snd (sample_run no_fault (Some (Parsed no_sku_table))))) = [].
Proof.
  assert (Hup : db_up (sample_env no_fault)) by (intros n; reflexivity).
  assert (Hf : fresh_run "J" (sample_world (Some (Parsed no_sku_table))))
    by (split; reflexivity).
  assert (Hne : rows no_sku_table <> []) by discriminate.
  assert (Hall : Forall (fun row => valid_row row = false) (rows no_sku_table))
    by (repeat constructor).
  split; [exact Hup|]. split; [exact Hf|]. split; [exact Hne|]. split; [exact Hall|].
  refine (proj1 (proj2 (X4_no_valid_row_fails (sample_env no_fault) "J"
                          "temp_uploads/J.csv" _ no_sku_table Hup Hf eq_refl _ Hne Hall))).
  intros col [<- | [<- | []]]; simpl; auto.
Defined.

Lemma X5_empty_table_completes_witness :
  db_up (sample_env no_fault)
  /\ fresh_run "J" (sample_world (Some (Parsed empty_table)))
  /\ rows empty_table = []
  /\ products (db (snd (sample_run no_fault (Some (Parsed empty_table))))) = [].
Proof.
  assert (Hup : db_up (sample_env no_fault)) by (intros n; reflexivity).
  assert (Hf : fresh_run "J" (sample_world (Some (Parsed empty_table))))
    by (split; reflexivity).
  split; [exact Hup|]. split; [exact Hf|]. split; [reflexivity|].
  refine (proj1 (proj2 (X5_empty_table_completes (sample_env no_fault) "J"
                          "temp_uploads/J.csv" _ empty_table Hup Hf eq_refl _ eq_refl))).
  intros col [<- | [<- | []]]; simpl; auto.
Defined.

Lemma X6_second_import_creates_nothing_witness :
  db_up (sample_env no_fault)
  /\ import_jobs (db two_uploads) !! "J" = Some (new_job "J")
  /\ keys (products
             (db (snd (process_csv_import_sync (sample_env no_fault) "K"
                         "temp_uploads/K.csv"
                         (snd (process_csv_import_sync (sample_env no_fault) "J"
                                 "temp_uploads/J.csv" two_uploads))))))
     = keys (products
               (db (snd (process_csv_import_sync (sample_env no_fault) "J"
                           "temp_uploads/J.csv" two_uploads)))).
Proof.
  assert (Hup : db_up (sample_env no_fault)) by (intros n; reflexivity).
  split; [exact Hup|]. split; [reflexivity|].
  destruct (X6_second_import_creates_nothing (sample_env no_fault) (sample_env no_fault)
              "J" "temp_uploads/J.csv" "K" "temp_uploads/K.csv" two_uploads
              (new_job "J") (new_job "K") dup_table dup_table Hup Hup eq_refl eq_refl)
    as (c2 & n & _ & _ & _ & Hk).
  - intros col [<- | [<- | []]]; simpl; auto.
  - vm_compute. reflexivity.
  - vm_compute. reflexivity.
  - intros col [<- | [<- | []]]; simpl; auto.
  - reflexivity.
  - exact Hk.
Defined.

Lemma X8_run_leaves_the_rest_witness :
  keyed "J" two_uploads
  /\ import_jobs (db (snd (process_csv_import_sync (sample_env (fault_from 7)) "J"
                             "temp_uploads/J.csv" two_uploads))) !! "K"
     = Some (new_job "K").
Proof.
  assert (Hk : keyed "J" two_uploads).
  { intros j. vm_compute. intros [= <-]. reflexivity. }
  split; [exact Hk|].
  exact (proj1 (proj2 (X8_run_leaves_the_rest (sample_env (fault_from 7)) "J"
                         "temp_uploads/J.csv" two_uploads Hk)) "K" ltac:(discriminate)).
Defined.

Lemma X9_keys_stay_distinct_witness :
  NoDup (keys (products (db two_uploads)))
  /\ NoDup (keys (products (db (run_serially
                                  [(sample_env (fault_at 5), "J", "temp_uploads/J.csv");
                                   (sample_env no_fault, "K", "temp_uploads/K.csv")]
                                  two_uploads)))).
Proof.
  assert (H : NoDup (keys (products (db two_uploads)))) by constructor.
  split; [exact H|].
  exact (X9_keys_stay_distinct
           [(sample_env (fault_at 5), "J", "temp_uploads/J.csv");
            (sample_env no_fault, "K", "temp_uploads/K.csv")]
           two_uploads H).
Defined.

Lemma X10_unknown_job_is_noop_witness :
  import_jobs (db (sample_world (Some (Parsed dup_table)))) !! "Z" = None
  /\ products (db (snd (process_csv_import_sync (sample_env no_fault) "Z"
                          "temp_uploads/J.csv"
                          (sample_world (Some (Parsed dup_table))))))
     = products (db (sample_world (Some (Parsed dup_table)))).
Proof.
  assert (H : import_jobs (db (sample_world (Some (Parsed dup_table)))) !! "Z" = None)
    by reflexivity.
  split; [exact H|].
  exact (proj1 (proj2 (X10_unknown_job_is_noop (sample_env no_fault) "Z"
                         "temp_uploads/J.csv" _ H))).
Defined.

Lemma X11_classified_run_shows_all_rows_witness :
  import_jobs (db (sample_world (Some (Parsed dup_table)))) !! "J" = Some (new_job "J")
  /\ exists df j,
       files (sys (sample_world (Some (Parsed dup_table)))) !! "temp_uploads/J.csv"
       = Some (Parsed df)
       /\ import_jobs (db (snd (sample_run (fault_at 5) (Some (Parsed dup_table))))) !! "J"
          = Some j
       /\ ImportJob.total_rows j = Z.of_nat (length (rows df))
       /\ ImportJob.processed_rows j = Z.of_nat (length (rows df)).
Proof.
  split; [reflexivity|].
  eapply (X11_classified_run_shows_all_rows (sample_env (fault_at 5)) "J"
            "temp_uploads/J.csv" (sample_world (Some (Parsed dup_table))));
    [reflexivity | vm_compute; reflexivity].
Defined.

Lemma X12_only_listeners_are_posted_witness :
  fresh_run "J" (sample_world (Some (Parsed dup_table)))
  /\ exists posted,
       outbox (sys (snd (sample_run no_fault (Some (Parsed dup_table)))))
       = (outbox (sys (sample_world (Some (Parsed dup_table)))) ++ posted)%list
       /\ forall url e, In (url, e) posted -> url <> "http://off.test/hook".
Proof.
  assert (Hf : fresh_run "J" (sample_world (Some (Parsed dup_table))))
    by (split; reflexivity).
  split; [exact Hf|].
  destruct (X12_only_listeners_are_posted (sample_env no_fault) "J" "temp_uploads/J.csv"
              _ Hf) as (posted & Ho & _ & Hall).
  exists posted. split; [exact Ho|].
  intros url e Hin ->. destruct (Hall _ _ Hin) as (wh & c & Hw & Hu & Hen & _).
  simpl in Hw. destruct Hw as [<- | [<- | [<- | []]]]; discriminate.
Defined.

Lemma X13_stream_reports_each_poll_witness :
  Py.len "0f8fad5b-d9cb-469f-a165-70867728950e" = 36%nat
  /\ let '(evs, lookups, err) :=
       event_generator (fun _ => ∅) no_fault "0f8fad5b-d9cb-469f-a165-70867728950e" in
     lookups = (length evs + match err with Some _ => 1 | None => 0 end)%nat.
Proof.
  assert (H : Py.len "0f8fad5b-d9cb-469f-a165-70867728950e" = 36%nat)
    by reflexivity.
  split; [exact H|].
  pose proof (X13_stream_reports_each_poll (fun _ => ∅) no_fault
                "0f8fad5b-d9cb-469f-a165-70867728950e" H) as P.
  destruct (event_generator (fun _ => ∅) no_fault "0f8fad5b-d9cb-469f-a165-70867728950e")
    as [[evs n] err].
  exact (proj1 (proj2 P)).
Defined.

Lemma X14_stream_gives_up_after_600_witness :
  Py.len sample_uuid = 36%nat
  /\ let '(evs, lookups, err) := event_generator stalled_table no_fault sample_uuid in
     length evs = 600%nat /\ lookups = 600%nat /\ err = None
     /\ Forall (fun ev => shows_terminal ev = false) evs.
Proof.
  assert (H : Py.len sample_uuid = 36%nat) by reflexivity.
  split; [exact H|].
  apply (X14_stream_gives_up_after_600 stalled_table no_fault sample_uuid H).
  intros k _. split; [reflexivity|].
  exists (new_job sample_uuid). split; reflexivity.
Defined.

Lemma X15_stream_after_run_witness :
  fresh_run sample_uuid uuid_world
  /\ Py.len sample_uuid = 36%nat
  /\ exists j,
       import_jobs
         (db (snd (process_csv_import_sync (sample_env no_fault) sample_uuid
                     "temp_uploads/0f8fad5b-d9cb-469f-a165-70867728950e.csv"
                     uuid_world))) !! sample_uuid = Some j.
Proof.
  assert (Hf : fresh_run sample_uuid uuid_world) by (split; reflexivity).
  assert (Hl : Py.len sample_uuid = 36%nat) by reflexivity.
  split; [exact Hf|]. split; [exact Hl|].
  destruct (X15_stream_after_run (sample_env no_fault) sample_uuid
              "temp_uploads/0f8fad5b-d9cb-469f-a165-70867728950e.csv" uuid_world Hf Hl)
    as (j & Hj & _).
  exists j. exact Hj.
Defined.

Lemma sample_rows_ids : NoDup (ids sample_rows).
Proof. apply (bool_decide_unpack _). vm_compute. exact I. Qed.

Lemma sample_rows_keys : NoDup (keys (catalog sample_rows)).
Proof. apply (bool_decide_unpack _). vm_compute. exact I. Qed.

Lemma X16_create_product_sound_witness :
  ~ In 3 (ids sample_rows)
  /\ NoDup (ids sample_rows)
  /\ NoDup (keys (catalog sample_rows))
  /\ NoDup (keys (catalog (snd (create_product 1700000000 3 (sample_create " new-003 ")
                                  sample_rows)))).
Proof.
  assert (H : ~ In 3 (ids sample_rows)) by (simpl; intros [|[|[]]]; discriminate).
  split; [exact H|]. split; [exact sample_rows_ids|]. split; [exact sample_rows_keys|].
  exact (proj1 (proj2 (X16_create_product_sound 1700000000 3 (sample_create " new-003 ")
                         sample_rows H sample_rows_ids sample_rows_keys))).
Defined.

Lemma X17_create_product_twice_witness :
  Py.lower (Py.strip (ProductCreate.sku (sample_create "NEW-003")))
  = Py.lower (Py.strip (ProductCreate.sku (sample_create " new-003 ")))
  /\ fst (create_product 1700000001 4 (sample_create "NEW-003")
            (snd (create_product 1700000000 3 (sample_create " new-003 ") sample_rows)))
     = HTTPException 400 "Product with SKU 'NEW-003' already exists".
Proof.
  assert (H : Py.lower (Py.strip (ProductCreate.sku (sample_create "NEW-003")))
              = Py.lower (Py.strip (ProductCreate.sku (sample_create " new-003 "))))
    by reflexivity.
  split; [exact H|].
  exact (f_equal fst (X17_create_product_twice 1700000000 3 1700000001 4
                        (sample_create " new-003 ") (sample_create "NEW-003")
                        sample_rows H)).
Defined.

Lemma X18_update_product_sound_witness :
  NoDup (ids sample_rows)
  /\ NoDup (keys (catalog sample_rows))
  /\ ProductUpdate.sku (sample_rename " test-001 ") <> Some EmptyString
  /\ NoDup (keys (catalog (snd (update_product 1700000000 1 (sample_rename " test-001 ")
                                  sample_rows)))).
Proof.
  assert (H : ProductUpdate.sku (sample_rename " test-001 ") <> Some EmptyString)
    by discriminate.
  split; [exact sample_rows_ids|]. split; [exact sample_rows_keys|]. split; [exact H|].
  exact (proj1 (proj2 (X18_update_product_sound 1700000000 1 (sample_rename " test-001 ")
                         sample_rows sample_rows_ids sample_rows_keys H))).
Defined.

Lemma X19_delete_product_frees_sku_witness :
  NoDup (ids sample_rows)
  /\ NoDup (keys (catalog sample_rows))
  /\ row_by_id 1 sample_rows = hd_error sample_rows
  /\ get_product 1 (snd (delete_product 1 sample_rows))
     = HTTPException 404 "Product not found".
Proof.
  split; [exact sample_rows_ids|]. split; [exact sample_rows_keys|].
  split; [reflexivity|].
  exact (proj1 (proj2 (proj2 (X19_delete_product_frees_sku 1 sample_rows _
                                sample_rows_ids sample_rows_keys eq_refl)))).
Defined.

Lemma X20_pages_cover_the_result_witness :
  (forall l : list ProductRow.t, length (rev l) = length l)
  /\ 1 <= 1
  /\ flat_map
       (fun k => pg_products (get_products (fun _ _ => true) (@rev ProductRow.t)
                                (Z.of_nat k + 1) 1 (Some "test") (Some "all")
                                sample_rows))
       (seq 0 2)
     = rev sample_rows.
Proof.
  assert (H1 : forall l : list ProductRow.t, length (rev l) = length l)
    by apply length_rev.
  assert (H2 : 1 <= 1) by lia.
  split; [exact H1|]. split; [exact H2|].
  exact (proj2 (proj2 (proj2 (proj2 (proj2
           (X20_pages_cover_the_result (fun _ _ => true) (@rev ProductRow.t) 1
              (Some "test") (Some "all") sample_rows H1 H2)))))).
Defined.

Lemma X21_upload_sets_up_the_run_witness :
  py_endswith "products.csv" ".csv" = true
  /\ exists w',
       import_products (sample_env no_fault) None "K" "products.csv" (Parsed dup_table)
         (sample_world None)
       = (Ok (Returned "K", Some ("K", upload_path "K")), w')
       /\ fresh_run "K" w'.
Proof.
  assert (H : py_endswith "products.csv" ".csv" = true) by reflexivity.
  split; [exact H|].
  destruct (X21_upload_sets_up_the_run (sample_env no_fault) "K" "products.csv"
              (Parsed dup_table) (sample_world None) H eq_refl eq_refl eq_refl)
    as (w' & E & Hf & _).
  exists w'. split; [exact E | exact Hf].
Defined.

Lemma X22_upload_then_run_witness :
  db_up (sample_env no_fault)
  /\ py_endswith "products.csv" ".csv" = true
  /\ import_jobs (db (sample_world None)) !! "K" = None
  /\ exists notified,
       fst (upload_and_run (sample_env no_fault) None "K" "products.csv"
              (Parsed dup_table) (sample_world None))
       = Some (Classified
                 (snd (apply_rows 1700000000 0 (rows dup_table) ([], counters0)))
                 notified).
Proof.
  assert (Hup : db_up (sample_env no_fault)) by (intros n; reflexivity).
  assert (Hcsv : py_endswith "products.csv" ".csv" = true) by reflexivity.
  assert (Hnew : import_jobs (db (sample_world None)) !! "K" = None) by reflexivity.
  split; [exact Hup|]. split; [exact Hcsv|]. split; [exact Hnew|].
  destruct (X22_upload_then_run (sample_env no_fault) "K" "products.csv"
              (Parsed dup_table) (sample_world None) Hup Hcsv Hnew) as (n & E & _).
  exists n. exact E.
Defined.

Lemma X23_failed_staging_leaves_pending_job_witness :
  py_endswith "products.csv" ".csv" = true
  /\ Py.len sample_uuid = 36%nat
  /\ import_jobs
       (db (snd (import_products (sample_env no_fault)
                   (Some ("No space left on device", None))
                   sample_uuid "products.csv" (Parsed dup_table) (sample_world None))))
     !! sample_uuid
     = Some (new_job sample_uuid).
Proof.
  assert (Hcsv : py_endswith "products.csv" ".csv" = true) by reflexivity.
  assert (Hlen : Py.len sample_uuid = 36%nat) by reflexivity.
  split; [exact Hcsv|]. split; [exact Hlen|].
  exact (proj1 (proj2 (X23_failed_staging_leaves_pending_job (sample_env no_fault)
                         "No space left on device" None sample_uuid "products.csv"
                         (Parsed dup_table) (sample_world None)
                         Hcsv eq_refl eq_refl Hlen))).
Defined.

Lemma X25_new_webhook_is_notified_witness :
  post_fault (sample_env no_fault) "http://new.test/hook" = None
  /\ outbox (sys (snd (trigger_webhooks_sync (sample_env no_fault) "product.imported"
                         (payload_of "J" counters0)
                         (with_db (put_webhooks
                                     (hooks (snd (create_webhook 1700000000 1
                                                    (WebhookCreate.defaults
                                                       "http://new.test/hook") []))))
                            (sample_world None)))))
     = [("http://new.test/hook",
         envelope_of (sample_env no_fault) "product.imported" (payload_of "J" counters0))].
Proof.
  assert (H : post_fault (sample_env no_fault) "http://new.test/hook" = None)
    by reflexivity.
  split; [exact H|].
  exact (X25_new_webhook_is_notified (sample_env no_fault) 1700000000 1
           "http://new.test/hook" [] (payload_of "J" counters0) (sample_world None)
           eq_refl H).
Defined.

Lemma X26_last_row_wins_witness :
  db_up (sample_env no_fault)
  /\ validate_row 0 (sample_row "dup-001" "Second") = Accepted "dup-001" "Second" EmptyString
  /\ exists p,
       first_by_sku (Py.lower "dup-001") (products (db (snd (sample_run no_fault
                                                   (Some (Parsed dup_table)))))) = Some p
       /\ Product.name p = "Second" /\ Product.description p = EmptyString.
Proof.
  assert (Hup : db_up (sample_env no_fault)) by (intros n; reflexivity).
  assert (V : validate_row 0 (sample_row "dup-001" "Second")
              = Accepted "dup-001" "Second" EmptyString) by reflexivity.
  split; [exact Hup|]. split; [exact V|].
  apply (X26_last_row_wins (sample_env no_fault) "J" "temp_uploads/J.csv"
           (sample_world (Some (Parsed dup_table))) (new_job "J") dup_table
           [sample_row "DUP-001" "First"] [sample_row " " "Third"]
           (sample_row "dup-001" "Second") "dup-001" "Second" EmptyString
           Hup eq_refl eq_refl).
  - intros col [<- | [<- | []]]; simpl; auto.
  - reflexivity.
  - exact V.
  - intros row' sku' name' d' [<- | []]. vm_compute. discriminate.
Defined.
